(** * torchie.ipynb: a shallow embedding of the notebook's code cells

    The repository is one Jupyter notebook.  Its code cells are Python
    statements over the module namespace of the kernel; almost every
    statement is a call into PyTorch.  The embedding keeps that split:

    - the notebook's own code (the cells, [CustomDataset], [Net]) is
      translated statement by statement into functions of a state and
      exception monad over the kernel state;
    - the numeric kernels of the framework (random sampling, affine maps,
      losses, gradients, pickling) are the fields of the class [Framework];
      the theorems hold for every instance of it;
    - the containers of the framework whose structure the cells rely on
      (tensors as nested arrays, modules and their parameters, state
      dictionaries, the data loader's batching) are written out. *)

From Stdlib Require Import ZArith QArith Qround List String DecimalString.
From stdpp Require Import gmap strings list.

Set Warnings "-register-all".

Local Open Scope string_scope.
Local Open Scope list_scope.
Local Open Scope Z_scope.

(** ** Python exceptions and results *)

Inductive PyError : Type :=
| NameError (name : string)
| AttributeError (attr : string)
| TypeError (msg : string)
| ValueError (msg : string)
| IndexError
| ZeroDivisionError
| FileNotFoundError (path : string)
| RuntimeError (msg : string).

Inductive Result (A : Type) : Type :=
| Ok (a : A)
| Raise (e : PyError).
Arguments Ok {A} a.
Arguments Raise {A} e.

Definition result_bind {A B} (r : Result A) (f : A -> Result B) : Result B :=
  match r with
  | Ok a => f a
  | Raise e => Raise e
  end.

Definition result_map {A B} (f : A -> B) (r : Result A) : Result B :=
  result_bind r (fun a => Ok (f a)).

(** ** The sequence protocol

    [len(s)] and [s[i]] for an integer [i].  A Python list (and the first
    axis of a tensor) accepts [-len <= i < len], counts a negative index
    from the end, and raises [IndexError] outside that range. *)

Class PySeq (S E : Type) : Type := {
  py_len : S -> Result nat;
  py_getitem : S -> Z -> Result E
}.

Definition list_getitem {A} (l : list A) (i : Z) : Result A :=
  let n := Z.of_nat (length l) in
  let j := if i <? 0 then i + n else i in
  if (0 <=? j) && (j <? n) then
    match l !! Z.to_nat j with
    | Some a => Ok a
    | None => Raise IndexError
    end
  else Raise IndexError.

#[export] Instance list_PySeq {A} : PySeq (list A) A := {
  py_len l := Ok (length l);
  py_getitem := list_getitem
}.

(** ** class CustomDataset(Dataset) *)

Module CustomDataset.

Record t (D L : Type) : Type := mk { data : D; labels : L }.
Arguments mk {D L} data labels.
Arguments data {D L} _.
Arguments labels {D L} _.

(** [def __init__(self, data, labels)]: two attribute assignments, nothing
    else. *)
Definition __init__ {D L} (data : D) (labels : L) : t D L :=
  {| data := data; labels := labels |}.

(** [def __len__(self): return len(self.data)] *)
Definition __len__ {D L E} `{PySeq D E} (self : t D L) : Result nat :=
  py_len (data self).

(** [def __getitem__(self, idx): return self.data[idx], self.labels[idx]]
    The components of the tuple are evaluated from left to right. *)
Definition __getitem__ {D L E F} `{PySeq D E} `{PySeq L F}
    (self : t D L) (idx : Z) : Result (E * F) :=
  result_bind (py_getitem (data self) idx) (fun x =>
  result_bind (py_getitem (labels self) idx) (fun y =>
  Ok (x, y))).

End CustomDataset.

(** ** Tensors, modules and values *)

(** A heap address: leaf tensors that require a gradient (the parameters
    of a module, [x] of the autograd cell) are heap objects, because the
    optimizer, the module and the autograd graph share and mutate them. *)
Abbreviation loc := nat.

Inductive PyModule : Type :=
| torch | torch_nn | torch_nn_functional | torch_optim
| torchvision | torchvision_transforms.

#[export] Instance PyModule_eq_dec : EqDecision PyModule.
Proof. solve_decision. Defined.

Section Embedding.

(** [scalar]: the floating-point numbers; [blob]: what a file holds. *)
Context {scalar blob : Type}.

(** A tensor is a nested array; [len] and indexing act on its first axis. *)
Inductive Tensor : Type :=
| TFloat (x : scalar)
| TInt (n : Z)
| TBool (b : bool)
| TArr (items : list Tensor).

Definition tensor_len (t : Tensor) : Result nat :=
  match t with
  | TArr items => Ok (length items)
  | _ => Raise (TypeError "len() of a 0-d tensor")
  end.

(** [t[i]]: the index is first unpacked into a 64-bit integer, which
    fails for a Python [int] outside that range; then it selects along the
    first axis, as a list does. *)
Definition fits_int64 (i : Z) : bool := (- 2 ^ 63 <=? i) && (i <? 2 ^ 63).

Definition tensor_getitem (t : Tensor) (i : Z) : Result Tensor :=
  if fits_int64 i then
    match t with
    | TArr items => list_getitem items i
    | _ => Raise IndexError
    end
  else Raise (RuntimeError "Overflow when unpacking long").

Fixpoint tensor_shape (t : Tensor) : list nat :=
  match t with
  | TArr items =>
      length items :: match items with x :: _ => tensor_shape x | [] => [] end
  | _ => []
  end.

(** The autograd graph behind a tensor: the leaves it was computed from. *)
Inductive GradFn : Type :=
| GLeaf (l : loc)
| GNode (op : string) (parents : list GradFn) (saved : list Tensor).

Record TensorVal : Type := mkTensorVal {
  t_data : Tensor;
  t_grad_fn : option GradFn;
  t_device : string
}.

Definition plain (d : Tensor) : TensorVal :=
  {| t_data := d; t_grad_fn := None; t_device := "cpu" |}.

Record Leaf : Type := mkLeaf {
  leaf_data : Tensor;
  leaf_grad : option Tensor
}.

(** An [nn.Module] object: its class, its plain attributes that are
    numbers ([in_features], ...), and its registered parameters, buffers
    and child modules, each an ordered dictionary.  Parameters and buffers
    are heap addresses. *)
Inductive NNModule : Type :=
| Mod (cls : string) (attrs : list (string * Z))
      (params buffers : list (string * loc))
      (children : list (string * NNModule)).

Definition mod_cls (m : NNModule) : string :=
  match m with Mod c _ _ _ _ => c end.
Definition mod_attrs (m : NNModule) : list (string * Z) :=
  match m with Mod _ a _ _ _ => a end.
Definition mod_params (m : NNModule) : list (string * loc) :=
  match m with Mod _ _ p _ _ => p end.
Definition mod_buffers (m : NNModule) : list (string * loc) :=
  match m with Mod _ _ _ b _ => b end.
Definition mod_children (m : NNModule) : list (string * NNModule) :=
  match m with Mod _ _ _ _ ch => ch end.

Inductive Value : Type :=
| VNone
| VInt (n : Z)
| VFloat (x : scalar)
| VStr (s : string)
| VList (items : list Value)
| VPyModule (m : PyModule)
| VClass (name : string)
| VDevice (name : string)
| VTensor (t : TensorVal)
| VLeafTensor (l : loc)
| VDataset (ds : CustomDataset.t Value Value)
| VDataLoader (dataset : Value) (batch_size : nat) (shuffle : bool)
| VNNModule (m : NNModule)
| VOptimizer (params : list loc) (lr : scalar)
| VStateDict (entries : list (string * Tensor))
| VObject (cls : string) (fields : list Value).

(** What the kernel did, in order: a line printed, or a call into the
    framework with the exception it raised, if any. *)
Inductive Event : Type :=
| EvPrint (v : Value)
| EvCall (api : string) (args : list Value) (err : option PyError).

Record Kernel : Type := mkKernel {
  globals : gmap string Value;
  heap : list Leaf;
  files : gmap string blob;
  rng : N;
  cuda_devices : nat;
  grad_enabled : bool;
  trace : list Event
}.

Definition set_globals (g : gmap string Value) (k : Kernel) : Kernel :=
  mkKernel g (heap k) (files k) (rng k) (cuda_devices k) (grad_enabled k) (trace k).
Definition set_heap (h : list Leaf) (k : Kernel) : Kernel :=
  mkKernel (globals k) h (files k) (rng k) (cuda_devices k) (grad_enabled k) (trace k).
Definition set_files (f : gmap string blob) (k : Kernel) : Kernel :=
  mkKernel (globals k) (heap k) f (rng k) (cuda_devices k) (grad_enabled k) (trace k).
Definition set_rng (r : N) (k : Kernel) : Kernel :=
  mkKernel (globals k) (heap k) (files k) r (cuda_devices k) (grad_enabled k) (trace k).
Definition set_grad_enabled (b : bool) (k : Kernel) : Kernel :=
  mkKernel (globals k) (heap k) (files k) (rng k) (cuda_devices k) b (trace k).
Definition log (e : Event) (k : Kernel) : Kernel :=
  mkKernel (globals k) (heap k) (files k) (rng k) (cuda_devices k) (grad_enabled k)
    (trace k ++ [e]).

(** ** The monad of statements

    A statement maps the kernel state to a new state and either a value or
    an exception.  What was done before an exception stays done. *)
Definition M (A : Type) : Type := Kernel -> Kernel * Result A.

Definition ret {A} (a : A) : M A := fun k => (k, Ok a).
Definition raise {A} (e : PyError) : M A := fun k => (k, Raise e).
Definition bind {A B} (m : M A) (f : A -> M B) : M B :=
  fun k =>
    match m k with
    | (k', Ok a) => f a k'
    | (k', Raise e) => (k', Raise e)
    end.
Definition lift {A} (r : Result A) : M A := fun k => (k, r).


Definition get {A} (f : Kernel -> A) : M A := fun k => (k, Ok (f k)).
Definition modify (f : Kernel -> Kernel) : M unit := fun k => (f k, Ok tt).

(** Reading and binding a global name. *)
Definition load (x : string) : M Value :=
  fun k =>
    match globals k !! x with
    | Some v => (k, Ok v)
    | None => (k, Raise (NameError x))
    end.
Definition store (x : string) (v : Value) : M unit :=
  modify (fun k => set_globals (<[x := v]> (globals k)) k).

(** [print(v)] *)
Definition print (v : Value) : M unit := modify (log (EvPrint v)).

Definition error_of {A} (r : Result A) : option PyError :=
  match r with
  | Ok _ => None
  | Raise e => Some e
  end.

(** A call into the framework: run it, then record it with its outcome. *)
Definition api {A} (name : string) (args : list Value) (body : M A) : M A :=
  fun k =>
    let (k', r) := body k in
    (log (EvCall name args (error_of r)) k', r).

(** [for x in xs: body x] over the items an iterator yields. *)
Fixpoint for_each {A} (xs : list A) (body : A -> M unit) : M unit :=
  match xs with
  | [] => ret tt
  | x :: xs' => bind (body x) (fun _ => for_each xs' body)
  end.

Fixpoint map_result {A B} (f : A -> Result B) (l : list A) : Result (list B) :=
  match l with
  | [] => Ok []
  | x :: l' =>
      result_bind (f x) (fun y =>
      result_bind (map_result f l') (fun ys => Ok (y :: ys)))
  end.

(** ** The framework's numeric kernels

    Everything that computes with floating-point numbers, draws random
    numbers, serialises, or belongs to torchvision. *)
Class Framework : Type := {
  (** Python floats: a literal or an [int] as a float, [+], [/], [:.nf]. *)
  float_of_Q : Q -> scalar;
  float_add : scalar -> scalar -> scalar;
  float_div : scalar -> scalar -> scalar;
  format_float : nat -> scalar -> string;
  (** the generator: one normal sample, one integer of [low, high),
      a permutation of [0 .. n-1], one sample of a layer's initialiser *)
  sample_normal : N -> scalar * N;
  sample_randint : Z -> Z -> N -> Z * N;
  sample_randperm : nat -> N -> list nat * N;
  sample_init : nat -> N -> scalar * N;
  (** elementwise and linear-algebra kernels *)
  k_add_scalar : Tensor -> Z -> Result Tensor;
  k_mul_scalar : Tensor -> Z -> Result Tensor;
  k_transpose : Tensor -> Result Tensor;
  k_matmul : Tensor -> Tensor -> Result Tensor;
  k_pow : Tensor -> Z -> Result Tensor;
  k_sum : Tensor -> Result Tensor;
  k_eq : Tensor -> Tensor -> Result Tensor;
  (** [x @ W.T + b] for one vector [x] *)
  k_affine : Tensor -> Tensor -> Tensor -> Result Tensor;
  k_relu : scalar -> scalar;
  (** the largest entry of a vector and its index *)
  k_max : list Tensor -> Result (Tensor * Z);
  k_cross_entropy : Tensor -> Tensor -> Result Tensor;
  (** gradients of a graph with respect to its leaves; [grad += g];
      [p - lr * g] *)
  k_gradients : GradFn -> list Leaf -> Result (list (loc * Tensor));
  k_accumulate : Tensor -> Tensor -> Tensor;
  k_sgd_update : scalar -> Tensor -> Tensor -> Tensor;
  (** moving a tensor to a device *)
  k_to_device : string -> nat -> TensorVal -> Result TensorVal;
  (** [pickle] *)
  k_pickle : Value -> blob;
  k_unpickle : blob -> Result Value;
  (** modules of the framework other than [Linear] *)
  k_forward : NNModule -> list Leaf -> bool -> TensorVal -> Result TensorVal;
  (** torchvision: the pretrained ResNet18 (the module and the tensors of
      its state, to be placed from the given heap address on), the CIFAR10
      dataset *)
  k_resnet18 : nat -> N -> Result (NNModule * list Leaf * N);
  k_cifar10 : gmap string blob -> Value -> Result (Value * gmap string blob)
}.

Context {fw : Framework}.

Notation "'let*' x ':=' m 'in' k" := (bind m (fun x => k))
  (at level 10, x name, m at level 100, k at level 200).
Notation "'run' m 'then' k" := (bind m (fun _ => k))
  (at level 10, m at level 100, k at level 200).

(** ** Python values: numbers, attributes, indexing *)

(** [x.attr] for a global name [x] that is to hold the module [m]: the
    name is read, then the attribute is looked up. *)
Definition getattr_module (m : PyModule) (attr : string) (v : Value) : M unit :=
  match v with
  | VPyModule m' =>
      if decide (m' = m) then ret tt else raise (AttributeError attr)
  | _ => raise (AttributeError attr)
  end.

Definition load_attr (x : string) (m : PyModule) (attr : string) : M unit :=
  let* v := load x in getattr_module m attr v.

(** Calling a class object. *)
Definition expect_class (name : string) (v : Value) : M unit :=
  match v with
  | VClass c =>
      if decide (c = name) then ret tt else raise (TypeError "unexpected class")
  | _ => raise (TypeError "object is not callable")
  end.

Definition float_of_Z (n : Z) : scalar := float_of_Q (inject_Z n).

(** [str(n)] for an [int]. *)
Definition str_of_Z (n : Z) : string := NilZero.string_of_int (Z.to_int n).

(** [a + b] on numbers. *)
Definition py_add (a b : Value) : Result Value :=
  match a, b with
  | VInt x, VInt y => Ok (VInt (x + y))
  | VFloat x, VFloat y => Ok (VFloat (float_add x y))
  | VInt x, VFloat y => Ok (VFloat (float_add (float_of_Z x) y))
  | VFloat x, VInt y => Ok (VFloat (float_add x (float_of_Z y)))
  | _, _ => Raise (TypeError "unsupported operand type(s) for +")
  end.

(** [a * b] on numbers. *)
Definition py_mul (a b : Value) : Result Value :=
  match a, b with
  | VInt x, VInt y => Ok (VInt (x * y))
  | _, _ => Raise (TypeError "unsupported operand type(s) for *")
  end.

(** [a / b]: true division.  The quotient of two [int]s is the float
    nearest to their exact quotient. *)
Definition py_truediv (a b : Value) : Result Value :=
  match a, b with
  | VInt x, VInt y =>
      if y =? 0 then Raise ZeroDivisionError
      else Ok (VFloat (float_of_Q (inject_Z x / inject_Z y)))
  | VFloat x, VInt y =>
      if y =? 0 then Raise ZeroDivisionError
      else Ok (VFloat (float_div x (float_of_Z y)))
  | _, _ => Raise (TypeError "unsupported operand type(s) for /")
  end.

(** [f"{v:.nf}"] *)
Definition py_format_float (digits : nat) (v : Value) : Result string :=
  match v with
  | VFloat x => Ok (format_float digits x)
  | VInt n => Ok (format_float digits (float_of_Z n))
  | _ => Raise (TypeError "unsupported format string")
  end.

(** [f"{v}"] for an [int]. *)
Definition py_format_int (v : Value) : Result string :=
  match v with
  | VInt n => Ok (str_of_Z n)
  | _ => Raise (TypeError "unsupported format string")
  end.

(** The tensor behind a value: a leaf is read from the heap. *)
Definition tensor_of (h : list Leaf) (v : Value) : Result TensorVal :=
  match v with
  | VTensor t => Ok t
  | VLeafTensor l =>
      match h !! l with
      | Some lf => Ok {| t_data := leaf_data lf; t_grad_fn := Some (GLeaf l);
                         t_device := "cpu" |}
      | None => Raise (RuntimeError "dangling tensor")
      end
  | _ => Raise (TypeError "expected a tensor")
  end.

(** The graph of a result: recorded when gradients are enabled and an
    argument has a graph. *)
Definition record_graph (enabled : bool) (op : string)
    (parents : list (option GradFn)) (saved : list Tensor) : option GradFn :=
  if enabled && negb (bool_decide (omap id parents = [])) then
    Some (GNode op (omap id parents) saved)
  else None.

(** [len(v)] and [v[i]]. *)
Definition value_len (h : list Leaf) (v : Value) : Result nat :=
  match v with
  | VList items => Ok (length items)
  | VTensor _ | VLeafTensor _ =>
      result_bind (tensor_of h v) (fun t => tensor_len (t_data t))
  | _ => Raise (TypeError "object has no len()")
  end.

Definition value_getitem (h : list Leaf) (v : Value) (i : Z) : Result Value :=
  match v with
  | VList items => list_getitem items i
  | VTensor _ | VLeafTensor _ =>
      result_bind (tensor_of h v) (fun t =>
      result_bind (tensor_getitem (t_data t) i) (fun d =>
      Ok (VTensor {| t_data := d;
                     t_grad_fn := record_graph true "select" [t_grad_fn t] [TInt i];
                     t_device := t_device t |})))
  | _ => Raise (TypeError "object is not subscriptable")
  end.

Definition value_PySeq (h : list Leaf) : PySeq Value Value := {|
  py_len := value_len h;
  py_getitem := value_getitem h
|}.

(** ** Tensor constructors and methods *)

(** [n] draws from the generator, in order. *)
Fixpoint draw {A} (sample : N -> A * N) (n : nat) (r : N) : list A * N :=
  match n with
  | O => ([], r)
  | S n' =>
      let (x, r1) := sample r in
      let (xs, r2) := draw sample n' r1 in
      (x :: xs, r2)
  end.

(** A [rows] by [cols] matrix of draws. *)
Definition draw_matrix (sample : N -> scalar * N) (rows cols : nat) (r : N)
    : Tensor * N :=
  let (m, r') :=
    draw (fun r0 => let (v, r1) := draw sample cols r0 in
                    (TArr (map TFloat v), r1)) rows r in
  (TArr m, r').

(** [torch.tensor(data, ...)]: a fresh tensor; with [requires_grad=True]
    a leaf on the heap. *)
Definition torch_tensor (d : Tensor) (requires_grad : bool) : M Value :=
  if requires_grad then
    let* l := get (fun k => length (heap k)) in
    run modify (fun k => set_heap (heap k ++ [mkLeaf d None]) k) then
    ret (VLeafTensor l)
  else ret (VTensor (plain d)).

(** [torch.ones(rows, cols)] *)
Definition torch_ones (rows cols : nat) : M Value :=
  ret (VTensor (plain
    (TArr (replicate rows (TArr (replicate cols (TFloat (float_of_Z 1)))))))).

(** [torch.randn(rows, cols)] *)
Definition torch_randn (rows cols : nat) : M Value :=
  let* r := get rng in
  let (t, r') := draw_matrix sample_normal rows cols r in
  run modify (set_rng r') then
  ret (VTensor (plain t)).

(** [torch.randint(low, high, (n,))] *)
Definition torch_randint (low high : Z) (n : nat) : M Value :=
  let* r := get rng in
  let (v, r') := draw (sample_randint low high) n r in
  run modify (set_rng r') then
  ret (VTensor (plain (TArr (map TInt v)))).

(** A unary or binary tensor method computed by a kernel of the
    framework. *)
Definition tensor_method (name : string) (op : string) (self : Value)
    (args : list Value) (saved : list Tensor)
    (kernel : Tensor -> Result Tensor) : M Value :=
  api name (self :: args)
    (let* h := get heap in
     let* en := get grad_enabled in
     let* t := lift (tensor_of h self) in
     let* d := lift (kernel (t_data t)) in
     ret (VTensor {| t_data := d;
                     t_grad_fn := record_graph en op [t_grad_fn t] saved;
                     t_device := t_device t |})).

(** [t.shape], [t.dtype], [t.device], [t.T], [t.data], [t.grad] *)
Definition tensor_shape_attr (self : Value) : M Value :=
  let* h := get heap in
  let* t := lift (tensor_of h self) in
  ret (VList (map (fun n => VInt (Z.of_nat n)) (tensor_shape (t_data t)))).

Fixpoint tensor_dtype (t : Tensor) : string :=
  match t with
  | TFloat _ => "torch.float32"
  | TInt _ => "torch.int64"
  | TBool _ => "torch.bool"
  | TArr (x :: _) => tensor_dtype x
  | TArr [] => "torch.float32"
  end.

Definition tensor_dtype_attr (self : Value) : M Value :=
  let* h := get heap in
  let* t := lift (tensor_of h self) in
  ret (VStr (tensor_dtype (t_data t))).

Definition tensor_device_attr (self : Value) : M Value :=
  let* h := get heap in
  let* t := lift (tensor_of h self) in
  ret (VDevice (t_device t)).

Definition tensor_T_attr (self : Value) : M Value :=
  tensor_method "Tensor.T" "transpose" self [] [] k_transpose.

(** [t.data]: the same values, cut off from the graph. *)
Definition tensor_data_attr (self : Value) : M Value :=
  let* h := get heap in
  let* t := lift (tensor_of h self) in
  ret (VTensor {| t_data := t_data t; t_grad_fn := None;
                  t_device := t_device t |}).

Definition tensor_grad_attr (self : Value) : M Value :=
  match self with
  | VLeafTensor l =>
      let* h := get heap in
      match h !! l with
      | Some lf =>
          match leaf_grad lf with
          | Some g => ret (VTensor (plain g))
          | None => ret VNone
          end
      | None => raise (RuntimeError "dangling tensor")
      end
  | VTensor _ => ret VNone
  | _ => raise (AttributeError "grad")
  end.

(** [t.size(0)] *)
Definition tensor_size0 (self : Value) : M Value :=
  let* h := get heap in
  let* t := lift (tensor_of h self) in
  match t_data t with
  | TArr items => ret (VInt (Z.of_nat (length items)))
  | _ => raise IndexError
  end.

(** [t.item()]: the number a one-element tensor holds. *)
Fixpoint tensor_item (t : Tensor) : Result Value :=
  match t with
  | TFloat x => Ok (VFloat x)
  | TInt n => Ok (VInt n)
  | TBool b => Ok (VInt (if b then 1 else 0))
  | TArr [x] => tensor_item x
  | TArr _ =>
      Raise (RuntimeError "a Tensor with several elements cannot be converted to Scalar")
  end.

Definition tensor_item_method (self : Value) : M Value :=
  api "Tensor.item" [self]
    (let* h := get heap in
     let* t := lift (tensor_of h self) in
     lift (tensor_item (t_data t))).

(** [a == b] on one-dimensional integer tensors, broadcasting a
    one-element side; other operands go to the framework's kernel. *)
Definition is_int (t : Tensor) : bool :=
  match t with TInt _ => true | _ => false end.

Definition int_eq (a b : Tensor) : Tensor :=
  match a, b with
  | TInt x, TInt y => TBool (x =? y)
  | _, _ => TBool false
  end.

Definition tensor_eq (a b : Tensor) : Result Tensor :=
  match a, b with
  | TArr xs, TArr ys =>
      if forallb is_int xs && forallb is_int ys then
        if (length xs =? length ys)%nat then Ok (TArr (zip_with int_eq xs ys))
        else match xs, ys with
             | [x], _ => Ok (TArr (map (int_eq x) ys))
             | _, [y] => Ok (TArr (map (fun x => int_eq x y) xs))
             | _, _ =>
                 Raise (RuntimeError "The size of tensor a must match the size of tensor b")
             end
      else k_eq a b
  | _, _ => k_eq a b
  end.

Definition tensor_eq_method (self other : Value) : M Value :=
  api "Tensor.__eq__" [self; other]
    (let* h := get heap in
     let* a := lift (tensor_of h self) in
     let* b := lift (tensor_of h other) in
     let* d := lift (tensor_eq (t_data a) (t_data b)) in
     ret (VTensor {| t_data := d; t_grad_fn := None; t_device := t_device a |})).

(** [t.sum()]: on a vector of booleans the number of [True]s. *)
Definition is_bool (t : Tensor) : bool :=
  match t with TBool _ => true | _ => false end.
Definition is_true (t : Tensor) : bool :=
  match t with TBool b => b | _ => false end.

Definition tensor_sum (t : Tensor) : Result Tensor :=
  match t with
  | TArr items =>
      if forallb is_bool items
      then Ok (TInt (Z.of_nat (length (filter (fun x => is_true x = true) items))))
      else k_sum t
  | _ => k_sum t
  end.

Definition tensor_sum_method (self : Value) : M Value :=
  tensor_method "Tensor.sum" "sum" self [] [] tensor_sum.

(** [torch.max(t, 1)]: for every row its largest entry and the index of
    it. *)
Definition tensor_max1 (t : Tensor) : Result (Tensor * Tensor) :=
  match t with
  | TArr rows =>
      result_bind
        (map_result (fun row =>
           match row with
           | TArr entries => k_max entries
           | _ => Raise IndexError
           end) rows)
        (fun res => Ok (TArr (map fst res), TArr (map (fun p => TInt (snd p)) res)))
  | _ => Raise IndexError
  end.

Definition torch_max1 (v : Value) : M (Value * Value) :=
  api "torch.max" [v; VInt 1]
    (let* h := get heap in
     let* en := get grad_enabled in
     let* t := lift (tensor_of h v) in
     let* res := lift (tensor_max1 (t_data t)) in
     ret (VTensor {| t_data := fst res;
                     t_grad_fn := record_graph en "max" [t_grad_fn t] [];
                     t_device := t_device t |},
          VTensor {| t_data := snd res; t_grad_fn := None;
                     t_device := t_device t |})).

(** ** Autograd *)

Definition accumulate_grad (h : list Leaf) (lg : loc * Tensor) : list Leaf :=
  match h !! fst lg with
  | Some lf =>
      <[fst lg := mkLeaf (leaf_data lf)
                    (Some match leaf_grad lf with
                          | Some g0 => k_accumulate g0 (snd lg)
                          | None => snd lg
                          end)]> h
  | None => h
  end.

(** [t.backward()]: [t] must hold one number and have a graph; the
    gradient of every leaf of the graph is added to that leaf's [grad]. *)
Definition tensor_backward (self : Value) : M unit :=
  api "Tensor.backward" [self]
    (let* h := get heap in
     let* t := lift (tensor_of h self) in
     match t_grad_fn t with
     | None =>
         raise (RuntimeError "element 0 of tensors does not require grad and does not have a grad_fn")
     | Some g =>
         match tensor_shape (t_data t) with
         | [] =>
             let* gs := lift (k_gradients g h) in
             modify (fun k => set_heap (foldl accumulate_grad (heap k) gs) k)
         | _ =>
             raise (RuntimeError "grad can be implicitly created only for scalar outputs")
         end
     end).

(** [with torch.no_grad(): body]: gradients are switched off for the body
    and the previous mode is restored on the way out, also when the body
    raises; the exception is passed on. *)
Definition with_no_grad {A} (body : M A) : M A :=
  let* prev := get grad_enabled in
  run modify (set_grad_enabled false) then
  fun k =>
    let (k', r) := body k in
    (set_grad_enabled prev k', r).

(** ** torch.nn *)

Fixpoint lookup_assoc {A} (name : string) (l : list (string * A)) : option A :=
  match l with
  | [] => None
  | (n, a) :: l' => if decide (n = name) then Some a else lookup_assoc name l'
  end.

(** Assignment in an ordered dictionary: an existing key keeps its place,
    a new key goes to the end. *)
Fixpoint assign_assoc {A} (name : string) (a : A) (l : list (string * A))
    : list (string * A) :=
  match l with
  | [] => [(name, a)]
  | (n, x) :: l' =>
      if decide (n = name) then (n, a) :: l' else (n, x) :: assign_assoc name a l'
  end.

(** [nn.Linear(in_features, out_features)]: a weight of [out_features]
    rows and [in_features] columns and a bias of [out_features] entries,
    drawn by the initialiser, as two new leaves. *)
Definition nn_Linear (in_features out_features : nat) : M NNModule :=
  api "nn.Linear" [VInt (Z.of_nat in_features); VInt (Z.of_nat out_features)]
    (let* r := get rng in
     let (w, r1) := draw_matrix (sample_init in_features) out_features in_features r in
     let (b, r2) := draw (sample_init in_features) out_features r1 in
     let* l := get (fun k => length (heap k)) in
     run modify (fun k =>
       set_rng r2 (set_heap (heap k ++ [mkLeaf w None; mkLeaf (TArr (map TFloat b)) None]) k)) then
     ret (Mod "Linear"
            [("in_features", Z.of_nat in_features);
             ("out_features", Z.of_nat out_features)]
            [("weight", l); ("bias", S l)] [] [])).

(** [nn.CrossEntropyLoss()] *)
Definition nn_CrossEntropyLoss : M NNModule :=
  ret (Mod "CrossEntropyLoss" [] [] [] []).

(** [nn.DataParallel(module)] *)
Definition nn_DataParallel (module : Value) : M NNModule :=
  match module with
  | VNNModule m =>
      api "nn.DataParallel" [module] (ret (Mod "DataParallel" [] [] [] [("module", m)]))
  | _ => raise (TypeError "expected a module")
  end.

Definition is_scalar (t : Tensor) : bool :=
  match t with TArr _ => false | _ => true end.

(** [F.linear]: the affine map acts on the last axis. *)
Fixpoint linear_apply (w b : Tensor) (x : Tensor) : Result Tensor :=
  match x with
  | TArr items =>
      if forallb is_scalar items then k_affine w b x
      else
        result_map TArr
          ((fix rows (l : list Tensor) : Result (list Tensor) :=
              match l with
              | [] => Ok []
              | r :: l' =>
                  result_bind (linear_apply w b r) (fun y =>
                  result_bind (rows l') (fun ys => Ok (y :: ys)))
              end) items)
  | _ => Raise (RuntimeError "mat1 and mat2 shapes cannot be multiplied")
  end.

(** [F.relu]: entry by entry. *)
Fixpoint relu_apply (x : Tensor) : Tensor :=
  match x with
  | TFloat v => TFloat (k_relu v)
  | TArr items => TArr (map relu_apply items)
  | _ => x
  end.

Definition F_relu (x : Value) : M Value :=
  tensor_method "F.relu" "relu" x [] [] (fun d => Ok (relu_apply d)).

(** Calling a module of the framework: [Linear], [CrossEntropyLoss], or
    any other one through the framework's own forward. *)
Definition framework_forward (m : NNModule) (args : list Value) : M Value :=
  api (mod_cls m +:+ ".forward") (VNNModule m :: args)
    (let* h := get heap in
     let* en := get grad_enabled in
     if decide (mod_cls m = "Linear") then
       match args, lookup_assoc "weight" (mod_params m),
             lookup_assoc "bias" (mod_params m) with
       | [x], Some lw, Some lb =>
           let* t := lift (tensor_of h x) in
           let* w := lift (tensor_of h (VLeafTensor lw)) in
           let* b := lift (tensor_of h (VLeafTensor lb)) in
           let* d := lift (linear_apply (t_data w) (t_data b) (t_data t)) in
           ret (VTensor {| t_data := d;
                  t_grad_fn := record_graph en "linear"
                    [t_grad_fn t; t_grad_fn w; t_grad_fn b] [t_data t];
                  t_device := t_device t |})
       | _, _, _ => raise (TypeError "forward() takes one argument")
       end
     else if decide (mod_cls m = "CrossEntropyLoss") then
       match args with
       | [x; y] =>
           let* t := lift (tensor_of h x) in
           let* target := lift (tensor_of h y) in
           let* d := lift (k_cross_entropy (t_data t) (t_data target)) in
           ret (VTensor {| t_data := d;
                  t_grad_fn := record_graph en "cross_entropy"
                    [t_grad_fn t] [t_data t; t_data target];
                  t_device := t_device t |})
       | _ => raise (TypeError "forward() takes two arguments")
       end
     else
       match args with
       | [x] =>
           let* t := lift (tensor_of h x) in
           let* res := lift (k_forward m h en t) in
           ret (VTensor res)
       | _ => raise (TypeError "forward() takes one argument")
       end).

(** [m.name] where the attribute is a child module, and [m.name = child]. *)
Definition module_getattr (self : Value) (name : string) : M NNModule :=
  match self with
  | VNNModule m =>
      match lookup_assoc name (mod_children m) with
      | Some c => ret c
      | None => raise (AttributeError name)
      end
  | _ => raise (AttributeError name)
  end.

Definition module_setattr (self : NNModule) (name : string) (child : NNModule)
    : NNModule :=
  match self with
  | Mod c a p b ch => Mod c a p b (assign_assoc name child ch)
  end.

(** [m.name] where the attribute is a number. *)
Definition module_getattr_int (self : NNModule) (name : string) : M Value :=
  match lookup_assoc name (mod_attrs self) with
  | Some n => ret (VInt n)
  | None => raise (AttributeError name)
  end.

(** The entries of [m.state_dict()]: the module's own parameters and
    buffers, then those of its children under the prefix [name.]. *)
Fixpoint state_entries (prefix : string) (m : NNModule) : list (string * loc) :=
  match m with
  | Mod _ _ ps bs ch =>
      (map (fun p => (prefix +:+ fst p, snd p)) (ps ++ bs) ++
       (fix go (l : list (string * NNModule)) : list (string * loc) :=
          match l with
          | [] => []
          | (n, c) :: l' => state_entries (prefix +:+ n +:+ ".") c ++ go l'
          end) ch)%list
  end.

(** [m.parameters()] *)
Fixpoint parameters (m : NNModule) : list loc :=
  match m with
  | Mod _ _ ps _ ch =>
      (map snd ps ++
       (fix go (l : list (string * NNModule)) : list loc :=
          match l with
          | [] => []
          | (_, c) :: l' => parameters c ++ go l'
          end) ch)%list
  end.

Definition read_entry (h : list Leaf) (e : string * loc) : Result (string * Tensor) :=
  match h !! snd e with
  | Some lf => Ok (fst e, leaf_data lf)
  | None => Raise (RuntimeError "dangling parameter")
  end.

Definition state_dict (m : NNModule) (h : list Leaf) : Result (list (string * Tensor)) :=
  map_result (read_entry h) (state_entries "" m).

Definition module_state_dict (self : Value) : M Value :=
  match self with
  | VNNModule m =>
      let* h := get heap in
      let* sd := lift (state_dict m h) in
      ret (VStateDict sd)
  | _ => raise (AttributeError "state_dict")
  end.

Definition module_parameters (self : Value) : M (list loc) :=
  match self with
  | VNNModule m => ret (parameters m)
  | _ => raise (AttributeError "parameters")
  end.

(** One entry of [load_state_dict]: a tensor of the right shape is copied
    into the parameter; anything else is an error message. *)
Definition load_entry (sd : list (string * Tensor)) (acc : list Leaf * bool)
    (e : string * loc) : list Leaf * bool :=
  let (h, ok) := acc in
  match lookup_assoc (fst e) sd, h !! snd e with
  | Some v, Some lf =>
      if decide (tensor_shape v = tensor_shape (leaf_data lf))
      then (<[snd e := mkLeaf v (leaf_grad lf)]> h, ok)
      else (h, false)
  | _, _ => (h, false)
  end.

(** [m.load_state_dict(sd)] with the default [strict=True]: the matching
    entries are copied, then missing keys, unexpected keys and size
    mismatches raise. *)
Definition load_state_dict (m : NNModule) (sd : list (string * Tensor))
    (h : list Leaf) : list Leaf * Result unit :=
  let entries := state_entries "" m in
  let (h', ok) := foldl (load_entry sd) (h, true) entries in
  let unexpected :=
    negb (forallb (fun kv => bool_decide (is_Some (lookup_assoc (fst kv) entries))) sd) in
  (h', if ok && negb unexpected then Ok tt
       else Raise (RuntimeError "Error(s) in loading state_dict")).

Definition module_load_state_dict (self : Value) (arg : Value) : M unit :=
  match self, arg with
  | VNNModule m, VStateDict sd =>
      api "Module.load_state_dict" [self; arg]
        (fun k =>
           let (h', r) := load_state_dict m sd (heap k) in
           (set_heap h' k, r))
  | VNNModule _, _ => raise (TypeError "expected a state_dict")
  | _, _ => raise (AttributeError "load_state_dict")
  end.

(** ** torch.save, torch.load *)

Definition torch_save (obj : Value) (path : string) : M unit :=
  api "torch.save" [obj; VStr path]
    (modify (fun k => set_files (<[path := k_pickle obj]> (files k)) k)).

Definition torch_load (path : string) : M Value :=
  api "torch.load" [VStr path]
    (let* fs := get files in
     match fs !! path with
     | Some b => lift (k_unpickle b)
     | None => raise (FileNotFoundError path)
     end).

(** ** torch.optim.SGD *)

Definition optim_SGD (params : list loc) (lr : scalar) : M Value :=
  match params with
  | [] => raise (ValueError "optimizer got an empty parameter list")
  | _ => ret (VOptimizer params lr)
  end.

Definition zero_leaf (h : list Leaf) (l : loc) : list Leaf :=
  match h !! l with
  | Some lf => <[l := mkLeaf (leaf_data lf) None]> h
  | None => h
  end.

Definition step_leaf (lr : scalar) (h : list Leaf) (l : loc) : list Leaf :=
  match h !! l with
  | Some lf =>
      match leaf_grad lf with
      | Some g => <[l := mkLeaf (k_sgd_update lr (leaf_data lf) g) (Some g)]> h
      | None => h
      end
  | None => h
  end.

(** [optimizer.zero_grad()]: the gradient of every parameter is reset. *)
Definition optimizer_zero_grad (self : Value) : M unit :=
  match self with
  | VOptimizer ps _ =>
      api "SGD.zero_grad" [self]
        (modify (fun k => set_heap (foldl zero_leaf (heap k) ps) k))
  | _ => raise (AttributeError "zero_grad")
  end.

(** [optimizer.step()]: every parameter that has a gradient moves against
    it by the learning rate. *)
Definition optimizer_step (self : Value) : M unit :=
  match self with
  | VOptimizer ps lr =>
      api "SGD.step" [self]
        (modify (fun k => set_heap (foldl (step_leaf lr) (heap k) ps) k))
  | _ => raise (AttributeError "step")
  end.

(** ** torch.utils.data.DataLoader *)

(** [len(dataset)] and [dataset[i]] go to the dataset's own methods. *)
Definition dataset_len (h : list Leaf) (ds : Value) : Result nat :=
  match ds with
  | VDataset d => CustomDataset.__len__ (H := value_PySeq h) d
  | _ => Raise (TypeError "object has no len()")
  end.

Definition dataset_getitem (h : list Leaf) (ds : Value) (i : Z)
    : Result (Value * Value) :=
  match ds with
  | VDataset d =>
      CustomDataset.__getitem__ (H := value_PySeq h) (H0 := value_PySeq h) d i
  | _ => Raise (TypeError "object is not subscriptable")
  end.

(** The batch sampler: indices are collected until [batch_size] of them
    make a batch; what is left at the end is a last, shorter batch. *)
Fixpoint batch_sampler (batch_size : nat) (batch : list nat) (idxs : list nat)
    : list (list nat) :=
  match idxs with
  | [] => match batch with [] => [] | _ => [batch] end
  | i :: rest =>
      if (length (batch ++ [i]) =? batch_size)%nat
      then (batch ++ [i]) :: batch_sampler batch_size [] rest
      else batch_sampler batch_size (batch ++ [i]) rest
  end.

(** The default collate function on one field of the samples:
    [torch.stack] of tensors of one shape. *)
Definition collate_item (h : list Leaf) (v : Value) : Result Tensor :=
  match v with
  | VInt n => Ok (TInt n)
  | VFloat x => Ok (TFloat x)
  | VTensor _ | VLeafTensor _ => result_map t_data (tensor_of h v)
  | _ => Raise (TypeError "default_collate: unsupported element type")
  end.

Definition same_shape (ts : list Tensor) : bool :=
  match ts with
  | [] => true
  | t :: ts' => forallb (fun u => bool_decide (tensor_shape u = tensor_shape t)) ts'
  end.

Definition collate_field (h : list Leaf) (vs : list Value) : Result Value :=
  result_bind (map_result (collate_item h) vs) (fun ts =>
  if same_shape ts then Ok (VTensor (plain (TArr ts)))
  else Raise (RuntimeError "stack expects each tensor to be equal size")).

Definition fetch (h : list Leaf) (ds : Value) (idxs : list nat) : Result Value :=
  result_bind (map_result (fun i => dataset_getitem h ds (Z.of_nat i)) idxs)
    (fun samples =>
  result_bind (collate_field h (map fst samples)) (fun xs =>
  result_bind (collate_field h (map snd samples)) (fun ys =>
  Ok (VList [xs; ys])))).

(** [len(dataloader)]: the number of batches, the last one counted. *)
Definition dataloader_len (dl : Value) : M Value :=
  match dl with
  | VDataLoader ds bs _ =>
      let* h := get heap in
      let* n := lift (dataset_len h ds) in
      ret (VInt (Z.of_nat ((n + bs - 1) / bs)))
  | _ => raise (TypeError "object has no len()")
  end.

(** [iter(dataloader)]: the sampler fixes the order of the indices, a
    fresh permutation when [shuffle=True]. *)
Definition dataloader_iter (dl : Value) : M (list (list nat)) :=
  match dl with
  | VDataLoader ds bs shuffle =>
      api "DataLoader.__iter__" [dl]
        (let* h := get heap in
         let* n := lift (dataset_len h ds) in
         let* idxs :=
           (if shuffle then
              let* r := get rng in
              let (perm, r') := sample_randperm n r in
              run modify (set_rng r') then ret perm
            else ret (seq 0 n)) in
         ret (batch_sampler bs [] idxs))
  | _ => raise (TypeError "object is not iterable")
  end.

(** [next(it)]: the samples of one batch are fetched and collated. *)
Definition dataloader_next (dl : Value) (idxs : list nat) : M Value :=
  match dl with
  | VDataLoader ds _ _ =>
      api "DataLoader.__next__" [dl]
        (let* h := get heap in lift (fetch h ds idxs))
  | _ => raise (TypeError "object is not an iterator")
  end.

(** [for batch in dataloader: body batch] *)
Definition for_dataloader (dl : Value) (body : Value -> M unit) : M unit :=
  let* batches := dataloader_iter dl in
  for_each batches (fun idxs =>
    let* batch := dataloader_next dl idxs in
    body batch).

(** [a, b = v] *)
Definition unpack2 (v : Value) : M (Value * Value) :=
  match v with
  | VList [a; b] => ret (a, b)
  | VList _ => raise (ValueError "wrong number of values to unpack")
  | _ => raise (TypeError "cannot unpack non-iterable object")
  end.

(** ** class Net(nn.Module) *)

(** [def __init__(self)] *)
Definition Net___init__ : M NNModule :=
  (* super(Net, self).__init__() *)
  let* _ := load "Net" in
  let self := Mod "Net" [] [] [] [] in
  (* self.fc1 = nn.Linear(10, 20) *)
  run load_attr "nn" torch_nn "Linear" then
  let* fc1 := nn_Linear 10 20 in
  let self := module_setattr self "fc1" fc1 in
  (* self.fc2 = nn.Linear(20, 5) *)
  run load_attr "nn" torch_nn "Linear" then
  let* fc2 := nn_Linear 20 5 in
  let self := module_setattr self "fc2" fc2 in
  ret self.

(** [def forward(self, x)] *)
Definition Net_forward (self : NNModule) (x : Value) : M Value :=
  (* x = F.relu(self.fc1(x)) *)
  run load_attr "F" torch_nn_functional "relu" then
  let* fc1 := module_getattr (VNNModule self) "fc1" in
  let* y := framework_forward fc1 [x] in
  let* x := F_relu y in
  (* x = self.fc2(x) *)
  let* fc2 := module_getattr (VNNModule self) "fc2" in
  let* x := framework_forward fc2 [x] in
  (* return x *)
  ret x.

(** [f(args)] for a module [f]: [nn.Module.__call__] runs the [forward]
    of the object's class. *)
Definition module_call (f : Value) (args : list Value) : M Value :=
  match f with
  | VNNModule m =>
      if decide (mod_cls m = "Net") then
        match args with
        | [x] => Net_forward m x
        | _ => raise (TypeError "forward() takes 2 positional arguments")
        end
      else framework_forward m args
  | _ => raise (TypeError "object is not callable")
  end.

(** [Net()] *)
Definition Net_new (cls : Value) : M Value :=
  run expect_class "Net" cls then
  let* self := Net___init__ in
  ret (VNNModule self).

(** ** Remaining calls of the cells *)

Definition expect_module (attr : string) (v : Value) : M NNModule :=
  match v with
  | VNNModule m => ret m
  | _ => raise (AttributeError attr)
  end.

Definition torch_matmul (a b : Value) : M Value :=
  api "torch.matmul" [a; b]
    (let* h := get heap in
     let* en := get grad_enabled in
     let* x := lift (tensor_of h a) in
     let* y := lift (tensor_of h b) in
     let* d := lift (k_matmul (t_data x) (t_data y)) in
     ret (VTensor {| t_data := d;
                     t_grad_fn := record_graph en "matmul" [t_grad_fn x; t_grad_fn y]
                                    [t_data x; t_data y];
                     t_device := t_device x |})).

(** [t.to(device)] *)
Definition tensor_to (self device : Value) : M Value :=
  match device with
  | VDevice name =>
      api "Tensor.to" [self; device]
        (let* h := get heap in
         let* n := get cuda_devices in
         let* t := lift (tensor_of h self) in
         let* t' := lift (k_to_device name n t) in
         ret (VTensor t'))
  | _ => raise (TypeError "to() received an invalid combination of arguments")
  end.

(** [torchvision.models.resnet18(pretrained=True)] *)
Definition torchvision_resnet18 : M NNModule :=
  api "torchvision.models.resnet18" []
    (let* h := get heap in
     let* r := get rng in
     let* res := lift (k_resnet18 (length h) r) in
     run modify (fun k => set_rng (snd res) (set_heap (heap k ++ snd (fst res)) k)) then
     ret (fst (fst res))).

(** [torchvision.datasets.CIFAR10(root, train, download, transform)] *)
Definition torchvision_CIFAR10 (transform : Value) : M Value :=
  api "torchvision.datasets.CIFAR10" [transform]
    (let* fs := get files in
     let* res := lift (k_cifar10 fs transform) in
     run modify (set_files (snd res)) then
     ret (fst res)).

Definition as_nat (v : Value) : M nat :=
  match v with
  | VInt n =>
      if 0 <=? n then ret (Z.to_nat n)
      else raise (RuntimeError "Trying to create tensor with negative dimension")
  | _ => raise (TypeError "expected an int")
  end.

Definition float_row (qs : list Q) : Tensor := TArr (map (fun q => TFloat (float_of_Q q)) qs).

(** ** The code cells, in the order of the notebook *)

(** Cell 5153a067dc29b3 *)
Definition cell_tensor_basics : M unit :=
  (* import torch *)
  run store "torch" (VPyModule torch) then
  (* tensor = torch.tensor([[1, 2, 3], [4, 5, 6]], dtype=torch.float32) *)
  run load_attr "torch" torch "tensor" then
  run load_attr "torch" torch "float32" then
  let* t := torch_tensor (TArr [float_row [1; 2; 3]; float_row [4; 5; 6]])%Q false in
  run store "tensor" t then
  (* print(tensor) *)
  let* t := load "tensor" in
  run print t then
  (* print(tensor.shape) *)
  let* t := load "tensor" in
  let* a := tensor_shape_attr t in
  run print a then
  (* print(tensor.dtype) *)
  let* t := load "tensor" in
  let* a := tensor_dtype_attr t in
  run print a then
  (* print(tensor.device) *)
  let* t := load "tensor" in
  let* a := tensor_device_attr t in
  print a.

(** Cell 8377ffa2e204181 *)
Definition cell_tensor_operations : M unit :=
  (* tensor = torch.ones(3, 4) *)
  run load_attr "torch" torch "ones" then
  let* t := torch_ones 3 4 in
  run store "tensor" t then
  (* print(tensor + 5) *)
  let* t := load "tensor" in
  let* a := tensor_method "Tensor.__add__" "add" t [VInt 5] [TInt 5]
              (fun d => k_add_scalar d 5) in
  run print a then
  (* print(tensor * 2) *)
  let* t := load "tensor" in
  let* a := tensor_method "Tensor.__mul__" "mul" t [VInt 2] [TInt 2]
              (fun d => k_mul_scalar d 2) in
  run print a then
  (* print(torch.matmul(tensor, tensor.T)) *)
  run load_attr "torch" torch "matmul" then
  let* t := load "tensor" in
  let* u := load "tensor" in
  let* ut := tensor_T_attr u in
  let* a := torch_matmul t ut in
  print a.

(** Cell ed52b862d39dd04f *)
Definition cell_cuda : M unit :=
  (* if torch.cuda.is_available(): *)
  run load_attr "torch" torch "cuda" then
  let* n := get cuda_devices in
  if (0 <? n)%nat then
    (* device = torch.device("cuda") *)
    run load_attr "torch" torch "device" then
    run store "device" (VDevice "cuda") then
    (* tensor = tensor.to(device) *)
    let* t := load "tensor" in
    let* d := load "device" in
    let* t' := tensor_to t d in
    run store "tensor" t' then
    (* print(tensor) *)
    let* t := load "tensor" in
    print t
  else
    (* print("CUDA not available") *)
    print (VStr "CUDA not available").

(** Cell b697507cf291b9cd *)
Definition cell_autograd : M unit :=
  (* x = torch.tensor([[1., 2., 3.], [4., 5., 6.]], requires_grad=True) *)
  run load_attr "torch" torch "tensor" then
  let* x := torch_tensor (TArr [float_row [1; 2; 3]; float_row [4; 5; 6]])%Q true in
  run store "x" x then
  (* y = x ** 2 *)
  let* x := load "x" in
  let* y := tensor_method "Tensor.__pow__" "pow" x [VInt 2] [TInt 2]
              (fun d => k_pow d 2) in
  run store "y" y then
  (* z = y.sum() *)
  let* y := load "y" in
  let* z := tensor_sum_method y in
  run store "z" z then
  (* z.backward() *)
  let* z := load "z" in
  run tensor_backward z then
  (* print(x.grad) *)
  let* x := load "x" in
  let* g := tensor_grad_attr x in
  print g.

(** Cell 76e5642125be39bc *)
Definition cell_dataset : M unit :=
  (* from torch.utils.data import DataLoader, Dataset *)
  run store "DataLoader" (VClass "DataLoader") then
  run store "Dataset" (VClass "Dataset") then
  (* class CustomDataset(Dataset): ... *)
  let* base := load "Dataset" in
  run expect_class "Dataset" base then
  run store "CustomDataset" (VClass "CustomDataset") then
  (* data = torch.randn(100, 10) *)
  run load_attr "torch" torch "randn" then
  let* d := torch_randn 100 10 in
  run store "data" d then
  (* labels = torch.randint(0, 5, (100,)) *)
  run load_attr "torch" torch "randint" then
  let* l := torch_randint 0 5 100 in
  run store "labels" l then
  (* dataset = CustomDataset(data, labels) *)
  let* c := load "CustomDataset" in
  run expect_class "CustomDataset" c then
  let* d := load "data" in
  let* l := load "labels" in
  run store "dataset" (VDataset (CustomDataset.__init__ d l)) then
  (* dataloader = DataLoader(dataset, batch_size=32, shuffle=True) *)
  let* c := load "DataLoader" in
  run expect_class "DataLoader" c then
  let* ds := load "dataset" in
  store "dataloader" (VDataLoader ds 32 true).

(** Cell 92e90b9026e57e1b: its [cell_type] is [markdown]; this is its
    source, read as the Python it is. *)
Definition cell_net : M unit :=
  (* class Net(nn.Module): ... *)
  run load_attr "nn" torch_nn "Module" then
  run store "Net" (VClass "Net") then
  (* net = Net() *)
  let* c := load "Net" in
  let* n := Net_new c in
  run store "net" n then
  (* print(net) *)
  let* n := load "net" in
  print n.

(** Cell a21959936b9b63ac *)
Definition cell_criterion_optimizer : M unit :=
  (* criterion = nn.CrossEntropyLoss() *)
  run load_attr "nn" torch_nn "CrossEntropyLoss" then
  let* c := nn_CrossEntropyLoss in
  run store "criterion" (VNNModule c) then
  (* optimizer = optim.SGD(net.parameters(), lr=0.01) *)
  run load_attr "optim" torch_optim "SGD" then
  let* n := load "net" in
  let* ps := module_parameters n in
  let* o := optim_SGD ps (float_of_Q (1 # 100)) in
  store "optimizer" o.

(** Cell a3635344a08d8b80: the body of the inner loop, for one batch *)
Definition train_batch (batch : Value) : M unit :=
  (* for inputs, labels in dataloader: *)
  let* ab := unpack2 batch in
  run store "inputs" (fst ab) then
  run store "labels" (snd ab) then
  (* optimizer.zero_grad() *)
  let* o := load "optimizer" in
  run optimizer_zero_grad o then
  (* outputs = net(inputs) *)
  let* n := load "net" in
  let* x := load "inputs" in
  let* out := module_call n [x] in
  run store "outputs" out then
  (* loss = criterion(outputs, labels) *)
  let* c := load "criterion" in
  let* out := load "outputs" in
  let* y := load "labels" in
  let* l := module_call c [out; y] in
  run store "loss" l then
  (* loss.backward() *)
  let* l := load "loss" in
  run tensor_backward l then
  (* optimizer.step() *)
  let* o := load "optimizer" in
  run optimizer_step o then
  (* running_loss += loss.item() *)
  let* rl := load "running_loss" in
  let* l := load "loss" in
  let* it := tensor_item_method l in
  let* rl' := lift (py_add rl it) in
  store "running_loss" rl'.

(** the body of the outer loop, for one epoch *)
Definition train_epoch (epoch : Z) : M unit :=
  (* for epoch in range(5): *)
  run store "epoch" (VInt epoch) then
  (* running_loss = 0.0 *)
  run store "running_loss" (VFloat (float_of_Q 0)) then
  (* for inputs, labels in dataloader: ... *)
  let* dl := load "dataloader" in
  run for_dataloader dl train_batch then
  (* print(f"Epoch {epoch+1} loss: {running_loss / len(dataloader):.3f}") *)
  let* e := load "epoch" in
  let* e1 := lift (py_add e (VInt 1)) in
  let* s1 := lift (py_format_int e1) in
  let* rl := load "running_loss" in
  let* dl := load "dataloader" in
  let* n := dataloader_len dl in
  let* q := lift (py_truediv rl n) in
  let* s2 := lift (py_format_float 3 q) in
  print (VStr ("Epoch " +:+ s1 +:+ " loss: " +:+ s2)).

Definition cell_training_loop : M unit :=
  for_each [0; 1; 2; 3; 4] train_epoch.

(** Cell cac595c315bf3c91: the body of the loop, for one batch *)
Definition eval_batch (batch : Value) : M unit :=
  (* for inputs, labels in dataloader: *)
  let* ab := unpack2 batch in
  run store "inputs" (fst ab) then
  run store "labels" (snd ab) then
  (* outputs = net(inputs) *)
  let* n := load "net" in
  let* x := load "inputs" in
  let* out := module_call n [x] in
  run store "outputs" out then
  (* _, predicted = torch.max(outputs.data, 1) *)
  run load_attr "torch" torch "max" then
  let* out := load "outputs" in
  let* d := tensor_data_attr out in
  let* vi := torch_max1 d in
  run store "_" (fst vi) then
  run store "predicted" (snd vi) then
  (* total += labels.size(0) *)
  let* t := load "total" in
  let* y := load "labels" in
  let* sz := tensor_size0 y in
  let* t' := lift (py_add t sz) in
  run store "total" t' then
  (* correct += (predicted == labels).sum().item() *)
  let* c := load "correct" in
  let* p := load "predicted" in
  let* y := load "labels" in
  let* e := tensor_eq_method p y in
  let* su := tensor_sum_method e in
  let* it := tensor_item_method su in
  let* c' := lift (py_add c it) in
  store "correct" c'.

Definition cell_evaluation : M unit :=
  (* correct = 0 *)
  run store "correct" (VInt 0) then
  (* total = 0 *)
  run store "total" (VInt 0) then
  (* with torch.no_grad(): for inputs, labels in dataloader: ... *)
  run load_attr "torch" torch "no_grad" then
  run with_no_grad
    (let* dl := load "dataloader" in
     for_dataloader dl eval_batch) then
  (* print(f"Accuracy: {100 * correct / total:.2f}%") *)
  let* c := load "correct" in
  let* m := lift (py_mul (VInt 100) c) in
  let* t := load "total" in
  let* q := lift (py_truediv m t) in
  let* s := lift (py_format_float 2 q) in
  print (VStr ("Accuracy: " +:+ s +:+ "%")).

(** Cell 9d4112370ec45bb0, statement by statement *)
Definition stmt_save : M unit :=
  (* torch.save(net.state_dict(), "model.pth") *)
  run load_attr "torch" torch "save" then
  let* n := load "net" in
  let* sd := module_state_dict n in
  torch_save sd "model.pth".

Definition stmt_construct : M unit :=
  (* loaded_net = Net() *)
  let* c := load "Net" in
  let* n := Net_new c in
  store "loaded_net" n.

Definition stmt_load : M unit :=
  (* loaded_net.load_state_dict(torch.load("model.pth")) *)
  let* ln := load "loaded_net" in
  run expect_module "load_state_dict" ln then
  run load_attr "torch" torch "load" then
  let* sd := torch_load "model.pth" in
  module_load_state_dict ln sd.

Definition cell_save_load : M unit :=
  run stmt_save then
  run stmt_construct then
  stmt_load.

(** Cell fa3ba05720eadc15 *)
Definition cell_transfer_learning : M unit :=
  (* import torchvision *)
  run store "torchvision" (VPyModule torchvision) then
  (* model = torchvision.models.resnet18(pretrained=True) *)
  run load_attr "torchvision" torchvision "models" then
  let* m := torchvision_resnet18 in
  run store "model" (VNNModule m) then
  (* num_ftrs = model.fc.in_features *)
  let* m := load "model" in
  let* fc := module_getattr m "fc" in
  let* n := module_getattr_int fc "in_features" in
  run store "num_ftrs" n then
  (* model.fc = nn.Linear(num_ftrs, 10) *)
  run load_attr "nn" torch_nn "Linear" then
  let* n := load "num_ftrs" in
  let* n := as_nat n in
  let* fc := nn_Linear n 10 in
  let* m := load "model" in
  let* m := expect_module "fc" m in
  run store "model" (VNNModule (module_setattr m "fc" fc)) then
  (* print(model) *)
  let* m := load "model" in
  print m.

(** Cell 701097baa0807c94 *)
Definition cell_data_augmentation : M unit :=
  (* import torchvision.transforms as transforms *)
  run store "transforms" (VPyModule torchvision_transforms) then
  (* transform = transforms.Compose([...]) *)
  run load_attr "transforms" torchvision_transforms "Compose" then
  run load_attr "transforms" torchvision_transforms "RandomResizedCrop" then
  run load_attr "transforms" torchvision_transforms "RandomHorizontalFlip" then
  run load_attr "transforms" torchvision_transforms "ToTensor" then
  run load_attr "transforms" torchvision_transforms "Normalize" then
  run store "transform"
    (VObject "Compose"
       [VList
          [VObject "RandomResizedCrop" [VInt 224];
           VObject "RandomHorizontalFlip" [];
           VObject "ToTensor" [];
           VObject "Normalize"
             [VList (map (fun q => VFloat (float_of_Q q))
                       [485 # 1000; 456 # 1000; 406 # 1000]%Q);
              VList (map (fun q => VFloat (float_of_Q q))
                       [229 # 1000; 224 # 1000; 225 # 1000]%Q)]]]) then
  (* dataset = torchvision.datasets.CIFAR10(root='./data', train=True,
                                            download=True, transform=transform) *)
  run load_attr "torchvision" torchvision "datasets" then
  let* t := load "transform" in
  let* ds := torchvision_CIFAR10 t in
  store "dataset" ds.

(** Cell e84a94678f4fb2b4 *)
Definition cell_data_parallel : M unit :=
  (* if torch.cuda.device_count() > 1: *)
  run load_attr "torch" torch "cuda" then
  let* n := get cuda_devices in
  if (1 <? n)%nat then
    (* print(f"Using {torch.cuda.device_count()} GPUs for training") *)
    run load_attr "torch" torch "cuda" then
    let* n := get cuda_devices in
    run print (VStr ("Using " +:+ str_of_Z (Z.of_nat n) +:+ " GPUs for training")) then
    (* net = nn.DataParallel(net) *)
    run load_attr "nn" torch_nn "DataParallel" then
    let* m := load "net" in
    let* dp := nn_DataParallel m in
    store "net" (VNNModule dp)
  else ret tt.

(** ** The notebook *)

Inductive CellType : Type := markdown | code.

Inductive Source : Type :=
| Prose
| Python (body : M unit).

Record Cell : Type := mkCell {
  cell_type : CellType;
  cell_id : string;
  source : Source
}.

Definition notebook : list Cell := [
  mkCell markdown "76ee61bd80515f68" Prose;
  mkCell code "5153a067dc29b3" (Python cell_tensor_basics);
  mkCell markdown "db031bdb0cfc4883" Prose;
  mkCell code "8377ffa2e204181" (Python cell_tensor_operations);
  mkCell markdown "1f86d9ffbda37e99" Prose;
  mkCell code "ed52b862d39dd04f" (Python cell_cuda);
  mkCell markdown "ff6347f304cc6f75" Prose;
  mkCell code "b697507cf291b9cd" (Python cell_autograd);
  mkCell markdown "ddd34b6da9e760ab" Prose;
  mkCell code "76e5642125be39bc" (Python cell_dataset);
  mkCell markdown "bda80270e158b541" Prose;
  mkCell markdown "92e90b9026e57e1b" (Python cell_net);
  mkCell markdown "58c567bca0a14197" Prose;
  mkCell code "a21959936b9b63ac" (Python cell_criterion_optimizer);
  mkCell markdown "ff76112579f9971a" Prose;
  mkCell code "a3635344a08d8b80" (Python cell_training_loop);
  mkCell markdown "7afdbb90fcc4e01c" Prose;
  mkCell code "cac595c315bf3c91" (Python cell_evaluation);
  mkCell markdown "6d29f244d0a6c386" Prose;
  mkCell code "9d4112370ec45bb0" (Python cell_save_load);
  mkCell markdown "3ffec3c59ccbcbf8" Prose;
  mkCell code "fa3ba05720eadc15" (Python cell_transfer_learning);
  mkCell markdown "d05f42d8e24717d6" Prose;
  mkCell code "701097baa0807c94" (Python cell_data_augmentation);
  mkCell markdown "764d1ba589f0c939" Prose;
  mkCell code "e84a94678f4fb2b4" (Python cell_data_parallel);
  mkCell markdown "df53394ed4306f0a" Prose
].

(** Jupyter runs the code cells; a markdown cell is rendered, whatever its
    text. *)
Definition run_cell (c : Cell) : M unit :=
  match cell_type c, source c with
  | code, Python body => body
  | _, _ => ret tt
  end.

(** Running all cells in order stops at the first exception. *)
Definition run_all (cells : list Cell) : M unit := for_each cells run_cell.

(** A kernel that has just started. *)
Definition fresh_kernel (seed : N) (gpus : nat) (disk : gmap string blob) : Kernel :=
  mkKernel ∅ [] disk seed gpus true [].

End Embedding.

(** ** An instance over exact rationals

    Not PyTorch: an instance on which the cells run, with rational
    numbers for floats, a linear congruential generator, a margin loss in
    the place of the cross entropy and unit gradients.  It shows that the
    hypotheses of the theorems below can be met. *)

Module Exact.

Local Open Scope Q_scope.

Definition T : Type := @Tensor Q.
Definition V : Type := @Value Q.

Definition lcg (r : N) : N := ((r * 1103515245 + 12345) mod 2147483648)%N.

Definition sample_unit (r : N) : Q * N :=
  (Qred ((Z.of_N (lcg r mod 2001) - 1000)%Z # 1000), lcg r).

Definition fixed_point (digits : nat) (x : Q) : string :=
  let scale := (10 ^ Z.of_nat digits)%Z in
  let n := Qfloor (x * inject_Z scale + (1 # 2)) in
  let frac := NilZero.string_of_uint (N.to_uint (Z.to_N (Z.abs n mod scale)%Z)) in
  (if (n <? 0)%Z then "-" else "") +:+
  NilZero.string_of_uint (N.to_uint (Z.to_N (Z.abs n / scale)%Z)) +:+ "." +:+
  String.concat "" (replicate (digits - String.length frac)%nat "0") +:+ frac.

Fixpoint tmap (f : Q -> Q) (t : T) : T :=
  match t with
  | TFloat x => TFloat (Qred (f x))
  | TInt n => TFloat (Qred (f (inject_Z n)))
  | TBool b => TBool b
  | TArr items => TArr (map (tmap f) items)
  end.

Fixpoint tzip (f : Q -> Q -> Q) (a b : T) : T :=
  match a, b with
  | TFloat x, TFloat y => TFloat (Qred (f x y))
  | TArr xs, TArr ys =>
      TArr ((fix go (l : list T) (m : list T) : list T :=
               match l, m with
               | x :: l', y :: m' => tzip f x y :: go l' m'
               | _, _ => l
               end) xs ys)
  | _, _ => a
  end.

Definition entry (t : T) : Q :=
  match t with TFloat x => x | TInt n => inject_Z n | _ => 0 end.

Definition entries (t : T) : list Q :=
  match t with TArr items => map entry items | _ => [entry t] end.

Definition qsum (l : list Q) : Q := Qred (foldr Qplus 0 l).

Definition dot (a b : list Q) : Q := qsum (zip_with Qmult a b).

Fixpoint tsum (t : T) : Q :=
  match t with
  | TArr items => qsum (map tsum items)
  | _ => entry t
  end.

Definition column (rows : list (list Q)) (j : nat) : list Q :=
  map (fun r => default 0 (r !! j)) rows.

Definition transpose (t : T) : Result T :=
  match t with
  | TArr (r :: rs) =>
      let rows := map entries (r :: rs) in
      Ok (TArr (map (fun j => TArr (map TFloat (column rows j)))
                  (seq 0 (length (entries r)))))
  | _ => Ok t
  end.

Definition matmul (a b : T) : Result T :=
  match a, b with
  | TArr xs, TArr (y :: ys) =>
      if forallb (fun x => (length (entries x) =? S (length ys))%nat) xs then
        let cols := map (column (map entries (y :: ys))) (seq 0 (length (entries y))) in
        Ok (TArr (map (fun x => TArr (map (fun c => TFloat (dot (entries x) c)) cols)) xs))
      else Raise (RuntimeError "mat1 and mat2 shapes cannot be multiplied")
  | _, _ => Raise (RuntimeError "both arguments to matmul need to be at least 1D")
  end.

(** [x @ W.T + b] *)
Definition affine (w b x : T) : Result T :=
  match w with
  | TArr rows =>
      if forallb (fun r => (length (entries r) =? length (entries x))%nat) rows then
        Ok (TArr (zip_with (fun r c => TFloat (Qred (dot (entries r) (entries x) + c)))
                    rows (entries b)))
      else Raise (RuntimeError "mat1 and mat2 shapes cannot be multiplied")
  | _ => Raise (RuntimeError "weight must be a matrix")
  end.

(** the first largest entry and its index *)
Fixpoint argmax (best : Q) (at_ : Z) (i : Z) (l : list Q) : Q * Z :=
  match l with
  | [] => (best, at_)
  | x :: l' =>
      if Qle_bool x best then argmax best at_ (i + 1)%Z l'
      else argmax x i (i + 1)%Z l'
  end.

Definition kmax (l : list T) : Result (T * Z) :=
  match l with
  | [] => Raise IndexError
  | x :: l' => let (m, i) := argmax (entry x) 0%Z 1%Z (map entry l') in Ok (TFloat m, i)
  end.

(** the mean over the rows of [max_j x_j - x_target] *)
Definition margin_loss (x target : T) : Result T :=
  match x, target with
  | TArr rows, TArr ys =>
      if (length rows =? length ys)%nat && negb (length rows =? 0)%nat then
        result_map (fun ls => TFloat (Qred (qsum ls / inject_Z (Z.of_nat (length rows)))))
          (map_result (fun ry =>
             match snd ry, entries (fst ry) with
             | TInt c, e :: es =>
                 match (e :: es) !! Z.to_nat c with
                 | Some xc =>
                     if (0 <=? c)%Z then Ok (fst (argmax e 0%Z 1%Z es) - xc)
                     else Raise IndexError
                 | None => Raise IndexError
                 end
             | _, _ => Raise (RuntimeError "expected class indices")
             end) (zip rows ys))
      else Raise (ValueError "Expected input batch_size to match target batch_size")
  | _, _ => Raise (RuntimeError "expected a batch")
  end.

Fixpoint leaves (g : GradFn) : list loc :=
  match g with
  | GLeaf l => [l]
  | GNode _ ps _ =>
      (fix go (l : list (@GradFn Q)) : list loc :=
         match l with
         | [] => []
         | p :: l' => leaves p ++ go l'
         end) ps
  end.

Definition unit_gradients (g : @GradFn Q) (h : list (@Leaf Q))
    : Result (list (loc * T)) :=
  map_result (fun l =>
    match h !! l with
    | Some lf => Ok (l, tmap (fun _ => 1) (leaf_data lf))
    | None => Raise (RuntimeError "dangling leaf")
    end) (remove_dups (leaves g)).

Definition to_device (name : string) (gpus : nat) (t : @TensorVal Q)
    : Result (@TensorVal Q) :=
  if decide (name = "cuda") then
    if (0 <? gpus)%nat then Ok (mkTensorVal (t_data t) (t_grad_fn t) name)
    else Raise (RuntimeError "Found no NVIDIA driver on your system")
  else Ok (mkTensorVal (t_data t) (t_grad_fn t) name).

(** a pretrained model in miniature: a convolution and a classifier head *)
Definition small_resnet (base : nat) (r : N)
    : Result (@NNModule * list (@Leaf Q) * N) :=
  let '(conv, r1) := draw_matrix sample_unit 2 2 r in
  let '(w, r2) := draw_matrix sample_unit 3 4 r1 in
  let '(b, r3) := draw sample_unit 3 r2 in
  Ok (Mod "ResNet" [] [] []
        [("conv1", Mod "Conv2d" [] [("weight", base)] [] []);
         ("relu", Mod "ReLU" [] [] [] []);
         ("fc", Mod "Linear" [("in_features", 4%Z); ("out_features", 3%Z)]
                  [("weight", S base); ("bias", S (S base))] [] [])],
      [mkLeaf conv None; mkLeaf w None; mkLeaf (TArr (map TFloat b)) None],
      r3).

#[global] Instance framework : @Framework Q V := {|
  float_of_Q := Qred;
  float_add x y := Qred (x + y);
  float_div x y := Qred (x / y);
  format_float := fixed_point;
  sample_normal := sample_unit;
  sample_randint low high r := ((low + Z.of_N (lcg r) mod (high - low))%Z, lcg r);
  sample_randperm n r := (rotate (N.to_nat (lcg r mod 1024)) (seq 0 n), lcg r);
  sample_init _ := sample_unit;
  k_add_scalar t c := Ok (tmap (fun x => x + inject_Z c) t);
  k_mul_scalar t c := Ok (tmap (fun x => x * inject_Z c) t);
  k_transpose := transpose;
  k_matmul := matmul;
  k_pow t c := Ok (tmap (fun x => x ^ c) t);
  k_sum t := Ok (TFloat (tsum t));
  k_eq _ _ := Raise (TypeError "comparison not available");
  k_affine := affine;
  k_relu x := if Qle_bool x 0 then 0 else x;
  k_max := kmax;
  k_cross_entropy := margin_loss;
  k_gradients := unit_gradients;
  k_accumulate := tzip Qplus;
  k_sgd_update lr := tzip (fun p g => p - lr * g);
  k_to_device := to_device;
  k_pickle v := v;
  k_unpickle b := Ok b;
  k_forward _ _ _ _ := Raise (RuntimeError "module not available");
  k_resnet18 := small_resnet;
  k_cifar10 fs t := Ok (VObject "CIFAR10" [t], fs)
|}.

(** Kernels for the examples: a kernel that has just started on a machine
    without a GPU; the same after the first two code cells. *)
Definition started : @Kernel Q V := fresh_kernel 42%N 0 ∅.

Definition after_two_cells : @Kernel Q V :=
  fst (run_all (take 4 notebook) started).

(** A kernel in which the three imports that the notebook leaves out have
    been made by hand, on a machine with [gpus] GPUs; the same after the
    cells up to the criterion cell, the [Net] cell run as code. *)
Definition imported (gpus : nat) : @Kernel Q V :=
  set_globals
    (<["nn" := VPyModule torch_nn]>
       (<["F" := VPyModule torch_nn_functional]>
          (<["optim" := VPyModule torch_optim]> ∅)))
    (fresh_kernel 42%N gpus ∅).

Definition ready (gpus : nat) : @Kernel Q V :=
  fst (for_each
         [cell_tensor_basics; cell_tensor_operations; cell_cuda; cell_autograd;
          cell_dataset; cell_net; cell_criterion_optimizer]
         (fun cell => cell) (imported gpus)).

(** The dataset behind the loader of a kernel. *)
Definition dataset_of (k : @Kernel Q V) : V :=
  match globals k !! "dataloader" with
  | Some (VDataLoader ds _ _) => ds
  | _ => VNone
  end.

(** The data and the gradient of the leaf at an address. *)
Definition data_at (k : @Kernel Q V) (l : loc) : T :=
  match heap k !! l with
  | Some lf => leaf_data lf
  | None => TArr []
  end.

Definition grad_at (k : @Kernel Q V) (l : loc) : option T :=
  match heap k !! l with
  | Some lf => leaf_grad lf
  | None => None
  end.

End Exact.

(** ** Specification vocabulary *)

Section Specifications.

Context {scalar blob : Type} {fw : @Framework scalar blob}.

#[local] Abbreviation Kernel := (@Kernel scalar blob).
#[local] Abbreviation Event := (@Event scalar).
#[local] Abbreviation Value := (@Value scalar).
#[local] Abbreviation Tensor := (@Tensor scalar).
#[local] Abbreviation Leaf := (@Leaf scalar).
#[local] Abbreviation M := (@M scalar blob).

(** [wp m Q k]: running [m] from [k] ends in a state and a result that
    satisfy [Q]. *)
Definition wp {A} (m : M A) (Q : Kernel -> Result A -> Prop) (k : Kernel) : Prop :=
  Q (fst (m k)) (snd (m k)).

(** ** Calls that fail end the cell

    [succeeded ev]: the event is not a failed call.  [run_shape evs r]:
    of the events of a run, none is a failed call, unless the run ended in
    the exception [e] of its very last event. *)

Definition succeeded (ev : Event) : Prop :=
  match ev with
  | EvCall _ _ (Some _) => False
  | _ => True
  end.

Inductive run_shape {A} : list Event -> Result A -> Prop :=
| shape_clean evs r :
    Forall succeeded evs -> run_shape evs r
| shape_failed evs name args e :
    Forall succeeded evs ->
    run_shape (evs ++ [EvCall name args (Some e)]) (Raise e).

(** [silent m]: [m] records nothing.  [faithful m]: whatever [m] records
    has the shape above: no exception of the framework is caught, replaced
    or followed by anything else. *)
Definition silent {A} (m : M A) : Prop :=
  forall k, trace (fst (m k)) = trace k.

Definition faithful {A} (m : M A) : Prop :=
  forall k, exists evs,
    trace (fst (m k)) = trace k ++ evs /\ run_shape evs (snd (m k)).

(** [preserves P m]: [P] holds after [m] when it held before, whether
    [m] ends normally or not. *)
Definition preserves {A} (P : Kernel -> Prop) (m : M A) : Prop :=
  forall k, P k -> P (fst (m k)).

(** [P] does not depend on the trace, or on the gradient mode. *)
Definition ignores_trace (P : Kernel -> Prop) : Prop :=
  forall k ev, P k -> P (log ev k).
Definition ignores_grad_mode (P : Kernel -> Prop) : Prop :=
  forall k b, P k -> P (set_grad_enabled b k).

(** The name [x] is not bound. *)
Definition unbound (x : string) (k : Kernel) : Prop := globals k !! x = None.

(** The cells in front of the cell that sets [criterion] and
    [optimizer], and that cell with what follows it. *)
Definition cells_before_criterion : list Cell := take 13 notebook.
Definition cells_from_criterion : list Cell := drop 13 notebook.

(** [nn.DataParallel(m)] as an object, and the nesting depth of a module. *)
Definition data_parallel_of (m : NNModule) : NNModule :=
  Mod "DataParallel" [] [] [] [("module", m)].

Fixpoint module_depth (m : NNModule) : nat :=
  match m with
  | Mod _ _ _ _ ch =>
      S ((fix go (l : list (string * NNModule)) : nat :=
            match l with
            | [] => O
            | (_, c) :: l' => Nat.max (module_depth c) (go l')
            end) ch)
  end.

Definition linear_module (i o : nat) (l : loc) : NNModule :=
  Mod "Linear" [("in_features", Z.of_nat i); ("out_features", Z.of_nat o)]
    [("weight", l); ("bias", S l)] [] [].

Definition Net_object (l : loc) : NNModule :=
  Mod "Net" [] [] [] [("fc1", linear_module 10 20 l); ("fc2", linear_module 20 5 (S (S l)))].

Definition value_data (r : Result Value) : Result Tensor :=
  result_bind r (fun v =>
    match v with
    | VTensor t => Ok (t_data t)
    | _ => Raise (TypeError "expected a tensor")
    end).

(** The events of one forward pass of [Net] that ran through. *)
Definition forward_events (l : loc) (x hidden act : Value) : list Event :=
  [EvCall "Linear.forward" [VNNModule (linear_module 10 20 l); x] None;
   EvCall "F.relu" [hidden] None;
   EvCall "Linear.forward" [VNNModule (linear_module 20 5 (S (S l))); act] None].

(** What a statement leaves as it is, but for the trace. *)
Definition same_store (k k' : Kernel) : Prop :=
  globals k' = globals k /\ heap k' = heap k /\ files k' = files k /\
  rng k' = rng k /\ cuda_devices k' = cuda_devices k /\
  grad_enabled k' = grad_enabled k.

(** The data of the tensor at an address, if there is one. *)
Definition data_of (h : list Leaf) (i : loc) : option Tensor :=
  leaf_data <$> h !! i.

(** ** The loader and the network, as the loops use them *)

(** The order in which an iteration over the loader visits the dataset,
    and the generator after it: a permutation is drawn when the loader
    shuffles. *)
Definition epoch_order (sh : bool) (n : nat) (r : N) : list nat :=
  if sh then fst (sample_randperm n r) else seq 0 n.

Definition next_rng (sh : bool) (n : nat) (r : N) : N :=
  if sh then snd (sample_randperm n r) else r.

(** The states of a run of passes follow one another: every pass starts
    where the one before it ended. *)
Fixpoint chained {R S : Type} (before after : R -> S) (s : S) (runs : list R)
    (s' : S) : Prop :=
  match runs with
  | [] => s' = s
  | b :: rest => before b = s /\ chained before after (after b) rest s'
  end.

Definition graph_of (v : Value) : option GradFn :=
  match v with
  | VTensor t => t_grad_fn t
  | _ => None
  end.

(** The three tensors of a forward pass of [Net] on the tensor [t]: the
    hidden layer [h], its ReLU and the outputs [o], each with the graph
    that is recorded for it when gradients are enabled. *)
Definition hidden_value (en : bool) (l : loc) (t : TensorVal) (h : Tensor) : Value :=
  VTensor {| t_data := h;
             t_grad_fn := record_graph en "linear"
                 [t_grad_fn t; Some (GLeaf l); Some (GLeaf (S l))] [t_data t];
             t_device := t_device t |}.

Definition act_value (en : bool) (l : loc) (t : TensorVal) (h : Tensor) : Value :=
  VTensor {| t_data := relu_apply h;
             t_grad_fn := record_graph en "relu" [graph_of (hidden_value en l t h)] [];
             t_device := t_device t |}.

Definition output_value (en : bool) (l : loc) (t : TensorVal) (h o : Tensor) : Value :=
  VTensor {| t_data := o;
             t_grad_fn := record_graph en "linear"
                 [graph_of (act_value en l t h);
                  Some (GLeaf (S (S l))); Some (GLeaf (S (S (S l))))]
                 [relu_apply h];
             t_device := t_device t |}.

(** A forward pass of the network on the input [x], with the parameters
    that the heap [h] holds at the addresses [l] to [l + 3]: the hidden
    layer is the first affine map of the input, the outputs are the second
    affine map of its ReLU. *)
Definition forward_flow (en : bool) (h : list Leaf) (l : loc)
    (x hid act out : Value) : Prop :=
  exists (t : TensorVal) (w1 b1 w2 b2 hd o : Tensor),
    tensor_of h x = Ok t /\
    data_of h l = Some w1 /\ data_of h (S l) = Some b1 /\
    data_of h (S (S l)) = Some w2 /\ data_of h (S (S (S l))) = Some b2 /\
    linear_apply w1 b1 (t_data t) = Ok hd /\
    linear_apply w2 b2 (relu_apply hd) = Ok o /\
    hid = hidden_value en l t hd /\
    act = act_value en l t hd /\
    out = output_value en l t hd o.

(** ** The training loop, as a record of what a run does *)

Definition crit_object : NNModule := Mod "CrossEntropyLoss" [] [] [] [].

(** The loss that the criterion returns for the outputs [to] and the
    labels [ty]. *)
Definition loss_value (en : bool) (to ty : TensorVal) (c : Tensor) : Value :=
  VTensor {| t_data := c;
             t_grad_fn := record_graph en "cross_entropy" [t_grad_fn to]
                            [t_data to; t_data ty];
             t_device := t_device to |}.

(** One pass over a batch: the indices of the batch, the heap when the
    pass begins and when it ends, and the values in between. *)
Record BatchRun : Type := mkBatchRun {
  br_idxs : list nat;
  br_heap : list Leaf;
  br_inputs : Value;
  br_labels : Value;
  br_hidden : Value;
  br_act : Value;
  br_outputs : Value;
  br_loss : Value;
  br_item : Value;
  br_after : list Leaf
}.

(** How the values of a pass hang together.  The inputs and the labels
    are what the loader fetches from the dataset for the indices of the
    batch.  After [zero_grad] the outputs are those of the network on the
    inputs, for the parameters of the moment; the loss is the cross
    entropy of the outputs against the labels; [backward] adds the
    gradients of the loss to the heap, [step] moves the parameters of the
    optimizer; the item is the number the loss holds. *)
Definition batch_dataflow (en : bool) (ds : Value) (ps : list loc) (lr : scalar)
    (l : loc) (b : BatchRun) : Prop :=
  let hz := foldl zero_leaf (br_heap b) ps in
  fetch (br_heap b) ds (br_idxs b) = Ok (VList [br_inputs b; br_labels b]) /\
  forward_flow en hz l (br_inputs b) (br_hidden b) (br_act b) (br_outputs b) /\
  exists (to ty : TensorVal) (c : Tensor) (g : GradFn) (gs : list (loc * Tensor)),
    br_outputs b = VTensor to /\
    br_labels b = VTensor ty /\
    k_cross_entropy (t_data to) (t_data ty) = Ok c /\
    br_loss b = loss_value en to ty c /\
    graph_of (br_loss b) = Some g /\
    k_gradients g hz = Ok gs /\
    br_after b = foldl (step_leaf lr) (foldl accumulate_grad hz gs) ps /\
    tensor_item c = Ok (br_item b).

(** The calls of the loop body on one batch, in order. *)
Definition body_events (opt : Value) (l : loc) (b : BatchRun) : list Event :=
  [EvCall "SGD.zero_grad" [opt] None] ++
  forward_events l (br_inputs b) (br_hidden b) (br_act b) ++
  [EvCall "CrossEntropyLoss.forward"
     [VNNModule crit_object; br_outputs b; br_labels b] None;
   EvCall "Tensor.backward" [br_loss b] None;
   EvCall "SGD.step" [opt] None;
   EvCall "Tensor.item" [br_loss b] None].

Definition batch_events (dl opt : Value) (l : loc) (b : BatchRun) : list Event :=
  EvCall "DataLoader.__next__" [dl] None :: body_events opt l b.

(** [running_loss += item] *)
Definition add_item (acc : scalar) (v : Value) : scalar :=
  match v with
  | VFloat x => float_add acc x
  | VInt n => float_add acc (float_of_Z n)
  | _ => acc
  end.

Definition accumulated_loss (runs : list BatchRun) : scalar :=
  foldl (fun acc b => add_item acc (br_item b)) (float_of_Q 0) runs.

(** The line an epoch prints. *)
Definition epoch_line (epoch : Z) (loss : scalar) (batches : nat) : Value :=
  VStr ("Epoch " +:+ str_of_Z (epoch + 1) +:+ " loss: " +:+
        format_float 3 (float_div loss (float_of_Z (Z.of_nat batches)))).

Definition epoch_events (dl opt : Value) (l : loc) (epoch : nat)
    (runs : list BatchRun) : list Event :=
  EvCall "DataLoader.__iter__" [dl] None ::
  concat (map (batch_events dl opt l) runs) ++
  [EvPrint (epoch_line (Z.of_nat epoch) (accumulated_loss runs) (length runs))].

(** What one epoch of a run is: one pass per batch of the order that the
    loader draws for this epoch, [ceil(n / bs)] of them. *)
Definition epoch_dataflow (en : bool) (ds : Value) (bs : nat) (sh : bool) (n : nat)
    (ps : list loc) (lr : scalar) (l : loc) (r : N) (runs : list BatchRun) : Prop :=
  length runs = ((n + bs - 1) / bs)%nat /\
  map br_idxs runs = batch_sampler bs [] (epoch_order sh n r) /\
  Forall (batch_dataflow en ds ps lr l) runs.

(** The names the training and the evaluation loop read and never bind,
    and the four parameters of [net] on the heap. *)
Definition loop_names (dl : Value) (l : loc) (k : Kernel) : Prop :=
  globals k !! "net" = Some (VNNModule (Net_object l)) /\
  globals k !! "F" = Some (VPyModule torch_nn_functional) /\
  globals k !! "dataloader" = Some dl /\
  (S (S (S l)) < length (heap k))%nat.

Definition training_names (opt dl : Value) (l : loc) (k : Kernel) : Prop :=
  loop_names dl l k /\
  globals k !! "optimizer" = Some opt /\
  globals k !! "criterion" = Some (VNNModule crit_object).

(** An exception that comes out of a failed call: the call is the last
    event. *)
Definition raised_by_last_call (k : Kernel) (e : PyError) : Prop :=
  exists pre name args, trace k = pre ++ [EvCall name args (Some e)].

(** What iterating over the loader leaves as it is: all but the generator
    and the trace. *)
Definition same_objects (k k' : Kernel) : Prop :=
  globals k' = globals k /\ heap k' = heap k /\ files k' = files k /\
  cuda_devices k' = cuda_devices k /\ grad_enabled k' = grad_enabled k.

(** ** The evaluation loop, as a record of what a run does *)

(** The names the evaluation cell binds. *)
Definition eval_vars : list string :=
  ["inputs"; "labels"; "outputs"; "_"; "predicted"; "total"; "correct"].

Definition eval_names (dl : Value) (l : loc) (k : Kernel) : Prop :=
  loop_names dl l k /\ globals k !! "torch" = Some (VPyModule torch).

(** The number of places at which prediction and label agree. *)
Definition hits (preds ys : list Tensor) : nat :=
  length (filter (fun t => is_true t = true) (zip_with int_eq preds ys)).

Definition value_tensor (v : Value) : option Tensor :=
  match v with
  | VTensor t => Some (t_data t)
  | _ => None
  end.

(** The batch of a tabular dataset for a list of indices: the rows and
    the labels at these indices, in this order, each stacked to one
    tensor. *)
Definition batch_of (rows ls : list Tensor) (idxs : list nat)
    (inputs labels : Value) : Prop :=
  exists xs ys : list Tensor,
    inputs = VTensor (plain (TArr xs)) /\ labels = VTensor (plain (TArr ys)) /\
    Forall2 (fun i x => rows !! i = Some x) idxs xs /\
    Forall2 (fun i y => ls !! i = Some y) idxs ys.

(** One pass over a batch: the indices of the batch and the values of the
    pass. *)
Record EvalRun : Type := mkEvalRun {
  er_idxs : list nat;
  er_inputs : Value;
  er_labels : Value;
  er_hidden : Value;
  er_act : Value;
  er_outputs : Value;
  er_predicted : Value;
  er_equal : Value;
  er_sum : Value;
  er_size : nat;
  er_hits : nat
}.

(** How the values of a pass hang together.  The inputs and the labels
    are what the loader fetches from the dataset for the indices of the
    batch: the rows and the labels of the dataset at these indices.  The
    outputs are those of the network on the inputs, for the parameters on
    the heap, with no graph recorded; [predicted] holds for every row of
    the outputs the index that [torch.max] gives, one per label;
    [er_size] is the number of labels and [er_hits] the number of rows
    whose index is the label. *)
Definition eval_dataflow (h : list Leaf) (ds : Value) (rows ls : list Tensor)
    (l : loc) (b : EvalRun) : Prop :=
  fetch h ds (er_idxs b) = Ok (VList [er_inputs b; er_labels b]) /\
  batch_of rows ls (er_idxs b) (er_inputs b) (er_labels b) /\
  forward_flow false h l (er_inputs b) (er_hidden b) (er_act b) (er_outputs b) /\
  exists (o vals : Tensor) (ys ps : list Tensor),
    value_tensor (er_outputs b) = Some o /\
    value_tensor (er_labels b) = Some (TArr ys) /\
    tensor_max1 o = Ok (vals, TArr ps) /\
    value_tensor (er_predicted b) = Some (TArr ps) /\
    length ps = length ys /\
    value_tensor (er_equal b) = Some (TArr (zip_with int_eq ps ys)) /\
    value_tensor (er_sum b) = Some (TInt (Z.of_nat (hits ps ys))) /\
    er_size b = length ys /\
    er_hits b = hits ps ys.

(** The calls of the loop body on one batch, in order. *)
Definition eval_body_events (l : loc) (b : EvalRun) : list Event :=
  forward_events l (er_inputs b) (er_hidden b) (er_act b) ++
  [EvCall "torch.max" [er_outputs b; VInt 1] None;
   EvCall "Tensor.__eq__" [er_predicted b; er_labels b] None;
   EvCall "Tensor.sum" [er_equal b] None;
   EvCall "Tensor.item" [er_sum b] None].

Definition eval_batch_events (dl : Value) (l : loc) (b : EvalRun) : list Event :=
  EvCall "DataLoader.__next__" [dl] None :: eval_body_events l b.

Definition total_seen (runs : list EvalRun) : nat := sum_list_with er_size runs.
Definition correct_seen (runs : list EvalRun) : nat := sum_list_with er_hits runs.

(** [100 * correct / total], exactly, and the line that shows it. *)
Definition accuracy (correct total : Z) : Q :=
  inject_Z (100 * correct) / inject_Z total.

Definition accuracy_line (correct total : Z) : Value :=
  VStr ("Accuracy: " +:+ format_float 2 (float_of_Q (accuracy correct total)) +:+ "%").

Definition eval_events (dl : Value) (l : loc) (runs : list EvalRun) : list Event :=
  EvCall "DataLoader.__iter__" [dl] None ::
  concat (map (eval_batch_events dl l) runs) ++
  [EvPrint (accuracy_line (Z.of_nat (correct_seen runs)) (Z.of_nat (total_seen runs)))].

(** A dataset as the dataset cell builds it: the data a tensor whose rows
    are the samples, the labels a vector of integers. *)
Definition tabular (ds : Value) (rows ls : list Tensor) : Prop :=
  exists d td tl,
    ds = VDataset d /\
    CustomDataset.data d = VTensor td /\ t_data td = TArr rows /\
    CustomDataset.labels d = VTensor tl /\ t_data tl = TArr ls /\
    Forall (fun r => is_scalar r = false) rows /\
    Forall (fun y => is_int y = true) ls.

(** The rows and the labels of a dataset, and the test that it is
    tabular. *)
Definition field_rows (v : Value) : list Tensor :=
  match v with
  | VTensor t => match t_data t with TArr rows => rows | _ => [] end
  | _ => []
  end.

Definition dataset_rows (ds : Value) : list Tensor :=
  match ds with
  | VDataset d => field_rows (CustomDataset.data d)
  | _ => []
  end.

Definition dataset_labels (ds : Value) : list Tensor :=
  match ds with
  | VDataset d => field_rows (CustomDataset.labels d)
  | _ => []
  end.

Definition is_tabular (ds : Value) : bool :=
  match ds with
  | VDataset d =>
      match CustomDataset.data d, CustomDataset.labels d with
      | VTensor td, VTensor tl =>
          match t_data td, t_data tl with
          | TArr rows, TArr ls =>
              forallb (fun r => negb (is_scalar r)) rows && forallb is_int ls
          | _, _ => false
          end
      | _, _ => false
      end
  | _ => false
  end.

(** ** Vocabulary of the further properties *)

(** The indices a Python sequence accepts. *)
Definition valid_index {A} (l : list A) (i : Z) : Prop :=
  - Z.of_nat (length l) <= i < Z.of_nat (length l).

(** What [Net.forward] computes on one input, given the parameters. *)
Definition net_output (w1 b1 w2 b2 x : Tensor) : Result Tensor :=
  result_bind (linear_apply w1 b1 x) (fun h => linear_apply w2 b2 (relu_apply h)).

(** The names the training cell binds, and those the augmentation cell
    binds. *)
Definition training_vars : list string :=
  ["epoch"; "running_loss"; "inputs"; "labels"; "outputs"; "loss"].

Definition augmentation_vars : list string := ["transforms"; "transform"; "dataset"].

(** The optimizer in place, a heap of the given size, and the data of
    the tensors outside the optimizer's list as given. *)
Definition only_parameters_move (ps : list loc) (lr : scalar) (h0 : list Leaf)
    (k : Kernel) : Prop :=
  globals k !! "optimizer" = Some (VOptimizer ps lr) /\
  length (heap k) = length h0 /\
  forall i, ~ In i ps -> data_of (heap k) i = data_of h0 i.

(** [x.grad] as a value. *)
Definition grad_value (g : option Tensor) : Value :=
  match g with
  | Some t => VTensor (plain t)
  | None => VNone
  end.

(** The tensors of the first two cells. *)
Definition first_tensor : Tensor :=
  TArr [float_row [1; 2; 3]; float_row [4; 5; 6]]%Q.

Definition ones_3_4 : Tensor :=
  TArr (replicate 3 (TArr (replicate 4 (TFloat (float_of_Z 1))))).

End Specifications.

(** * Properties *)

(** ** Reasoning about statements *)

(** ** Lemmas on list indexing *)

Lemma list_getitem_in_range {A} (l : list A) (i : Z) :
  0 <= i < Z.of_nat (length l) ->
  exists a, l !! Z.to_nat i = Some a /\ list_getitem l i = Ok a.
Proof.
  intros Hi. unfold list_getitem.
  destruct (Z.ltb_spec i 0) as [Hneg|_]; [lia|].
  destruct (Z.leb_spec 0 i) as [_|Hneg]; [|lia].
  destruct (Z.ltb_spec i (Z.of_nat (length l))) as [_|Hge]; [|lia].
  simpl.
  destruct (l !! Z.to_nat i) as [a|] eqn:Hl.
  - exists a. split; reflexivity.
  - apply lookup_ge_None in Hl. lia.
Qed.

Lemma list_getitem_past_end {A} (l : list A) (i : Z) :
  Z.of_nat (length l) <= i -> list_getitem l i = Raise IndexError.
Proof.
  intros Hi. unfold list_getitem.
  destruct (Z.ltb_spec i 0) as [Hneg|_]; [lia|].
  destruct (Z.ltb_spec i (Z.of_nat (length l))) as [Hlt|_]; [lia|].
  rewrite andb_false_r. reflexivity.
Qed.

(** C6: [__len__] is the length of [data], and inside the range of both
    sequences [__getitem__(i)] is the pair [(data[i], labels[i])]. *)
Theorem C6_len_and_getitem {A B} (data : list A) (labels : list B) :
  let ds := CustomDataset.__init__ data labels in
  CustomDataset.__len__ ds = Ok (length data) /\
  forall i : Z,
    0 <= i < Z.of_nat (length data) -> i < Z.of_nat (length labels) ->
    exists a b,
      data !! Z.to_nat i = Some a /\ labels !! Z.to_nat i = Some b /\
      CustomDataset.__getitem__ ds i = Ok (a, b).
Proof.
  simpl. split; [reflexivity|].
  intros i Hd Hl.
  destruct (list_getitem_in_range data i Hd) as (a & Ha & Hga).
  destruct (list_getitem_in_range labels i ltac:(lia)) as (b & Hb & Hgb).
  exists a, b. repeat split; try assumption.
  unfold CustomDataset.__getitem__. simpl. rewrite Hga. simpl. rewrite Hgb.
  reflexivity.
Qed.

Lemma C6_witness :
  exists a b,
    [10; 20; 30] !! Z.to_nat 1 = Some a /\ [true; false] !! Z.to_nat 1 = Some b /\
    CustomDataset.__getitem__ (CustomDataset.__init__ [10; 20; 30] [true; false]) 1
      = Ok (a, b).
Proof.
  apply (proj2 (C6_len_and_getitem [10; 20; 30] [true; false]) 1);
    simpl; lia.
Defined.

(** C7: the constructor is total and stores its arguments as they are,
    whatever their lengths; the length reported is that of [data]; and
    when [labels] is the shorter one, the index [len(labels)] is below
    [__len__()] and [__getitem__] raises the [IndexError] of [labels]. *)
Theorem C7_no_validation {A B} (data : list A) (labels : list B) :
  (length labels < length data)%nat ->
  let ds := CustomDataset.__init__ data labels in
  CustomDataset.data ds = data /\ CustomDataset.labels ds = labels /\
  CustomDataset.__len__ ds = Ok (length data) /\
  exists i : Z,
    0 <= i < Z.of_nat (length data) /\
    (exists a, py_getitem data i = Ok a) /\
    py_getitem labels i = Raise IndexError /\
    CustomDataset.__getitem__ ds i = Raise IndexError.
Proof.
  intros Hlt ds. repeat split.
  exists (Z.of_nat (length labels)).
  assert (Hin : 0 <= Z.of_nat (length labels) < Z.of_nat (length data)) by lia.
  destruct (list_getitem_in_range data _ Hin) as (a & _ & Ha).
  assert (Hl : list_getitem labels (Z.of_nat (length labels)) = Raise IndexError)
    by (apply list_getitem_past_end; lia).
  split; [exact Hin|]. split; [exists a; exact Ha|]. split; [exact Hl|].
  unfold CustomDataset.__getitem__, ds. simpl. rewrite Ha. simpl. rewrite Hl.
  reflexivity.
Qed.

Lemma C7_witness :
  exists i : Z,
    0 <= i < 3 /\
    (exists a, py_getitem [10; 20; 30] i = Ok a) /\
    py_getitem [true; false] i = Raise IndexError /\
    CustomDataset.__getitem__ (CustomDataset.__init__ [10; 20; 30] [true; false]) i
      = Raise IndexError.
Proof.
  apply (C7_no_validation [10; 20; 30] [true; false]). simpl. lia.
Defined.

Section Calculus.

Context {scalar blob : Type} {fw : @Framework scalar blob}.

#[local] Abbreviation Kernel := (@Kernel scalar blob).
#[local] Abbreviation Event := (@Event scalar).
#[local] Abbreviation Value := (@Value scalar).
#[local] Abbreviation Tensor := (@Tensor scalar).
#[local] Abbreviation Leaf := (@Leaf scalar).
#[local] Abbreviation M := (@M scalar blob).

Notation "'let*' x ':=' m 'in' k" := (bind m (fun x => k))
  (at level 10, x name, m at level 100, k at level 200).
Notation "'run' m 'then' k" := (bind m (fun _ => k))
  (at level 10, m at level 100, k at level 200).

Lemma wp_mono {A} (m : M A) (Q Q' : Kernel -> Result A -> Prop) (k : Kernel) :
  wp m Q k -> (forall k' r, Q k' r -> Q' k' r) -> wp m Q' k.
Proof. unfold wp. auto. Qed.

Lemma wp_ret {A} (a : A) (Q : Kernel -> Result A -> Prop) (k : Kernel) : Q k (Ok a) -> wp (ret a) Q k.
Proof. auto. Qed.

Lemma wp_raise {A} e (Q : Kernel -> Result A -> Prop) (k : Kernel) :
  Q k (Raise e) -> wp (raise e) Q k.
Proof. auto. Qed.

Lemma wp_lift {A} (r : Result A) (Q : Kernel -> Result A -> Prop) (k : Kernel) : Q k r -> wp (lift r) Q k.
Proof. auto. Qed.

Lemma wp_get {A} (f : Kernel -> A) (Q : Kernel -> Result A -> Prop) (k : Kernel) : Q k (Ok (f k)) -> wp (get f) Q k.
Proof. auto. Qed.

Lemma wp_modify (f : Kernel -> Kernel) (Q : Kernel -> Result unit -> Prop) (k : Kernel) : Q (f k) (Ok tt) -> wp (modify f) Q k.
Proof. auto. Qed.

Lemma wp_bind {A B} (m : M A) (f : A -> M B) (Q : Kernel -> Result B -> Prop) (k : Kernel) :
  wp m (fun k' r =>
          match r with
          | Ok a => wp (f a) Q k'
          | Raise e => Q k' (Raise e)
          end) k ->
  wp (bind m f) Q k.
Proof.
  unfold wp, bind. destruct (m k) as [k' [a|e]]; simpl; auto.
Qed.

Lemma wp_bind_inv {A B} (m : M A) (f : A -> M B) (Q : Kernel -> Result B -> Prop) (k : Kernel) :
  wp (bind m f) Q k ->
  wp m (fun k' r =>
          match r with
          | Ok a => wp (f a) Q k'
          | Raise e => Q k' (Raise e)
          end) k.
Proof.
  unfold wp, bind. destruct (m k) as [k' [a|e]]; simpl; auto.
Qed.

Lemma wp_load x (Q : Kernel -> Result Value -> Prop) (k : Kernel) :
  match globals k !! x with
  | Some v => Q k (Ok v)
  | None => Q k (Raise (NameError x))
  end ->
  wp (load x) Q k.
Proof. unfold wp, load. destruct (globals k !! x); auto. Qed.

Lemma wp_store x (v : Value) (Q : Kernel -> Result unit -> Prop) (k : Kernel) :
  Q (set_globals (<[x := v]> (globals k)) k) (Ok tt) -> wp (store x v) Q k.
Proof. auto. Qed.

Lemma wp_print (v : Value) (Q : Kernel -> Result unit -> Prop) (k : Kernel) : Q (log (EvPrint v) k) (Ok tt) -> wp (print v) Q k.
Proof. auto. Qed.

Lemma wp_api {A} name args (body : M A) (Q : Kernel -> Result A -> Prop) (k : Kernel) :
  wp body (fun k' r => Q (log (EvCall name args (error_of r)) k') r) k ->
  wp (api name args body) Q k.
Proof. unfold wp, api. destruct (body k) as [k' r]. auto. Qed.

Lemma wp_with_no_grad {A} (body : M A) (Q : Kernel -> Result A -> Prop) (k : Kernel) :
  wp body (fun k' r => Q (set_grad_enabled (grad_enabled k) k') r)
     (set_grad_enabled false k) ->
  wp (with_no_grad body) Q k.
Proof.
  unfold wp, with_no_grad, bind, get, modify. simpl.
  destruct (body (set_grad_enabled false k)) as [k' r]. auto.
Qed.

(** A loop invariant for [for_each]: [I done k] holds after the items
    [done]; an exception ends the loop. *)
Lemma wp_for_each {A} (body : A -> M unit) (I : list A -> Kernel -> Prop)
    (Q : Kernel -> Result unit -> Prop) xs :
  (forall done x rest k, xs = done ++ x :: rest -> I done k ->
     wp (body x) (fun k' r =>
          match r with
          | Ok _ => I (done ++ [x]) k'
          | Raise e => Q k' (Raise e)
          end) k) ->
  (forall k, I xs k -> Q k (Ok tt)) ->
  forall k, I [] k -> wp (for_each xs body) Q k.
Proof.
  intros Hbody Hend.
  assert (Hgen : forall rest done k, xs = done ++ rest -> I done k ->
                 wp (for_each rest body) Q k).
  { induction rest as [|x rest IH]; intros done k Hxs HI.
    - rewrite app_nil_r in Hxs. subst done. apply wp_ret. auto.
    - simpl. apply wp_bind.
      eapply wp_mono; [apply (Hbody done x rest k Hxs HI)|].
      intros k' [[]|e]; simpl; auto.
      intros HI'. apply (IH (done ++ [x])); auto.
      rewrite <- app_assoc. exact Hxs. }
  intros k HI. apply (Hgen xs [] k); auto.
Qed.

Lemma silent_ret {A} (a : A) : silent (ret a : M A).
Proof. intros k. reflexivity. Qed.
Lemma silent_raise {A} e : silent (raise e : M A).
Proof. intros k. reflexivity. Qed.
Lemma silent_lift {A} (r : Result A) : silent (lift r : M A).
Proof. intros k. reflexivity. Qed.
Lemma silent_get {A} (f : Kernel -> A) : silent (get f).
Proof. intros k. reflexivity. Qed.
Lemma silent_load x : silent (load x : M Value).
Proof. intros k. unfold load. destruct (globals k !! x); reflexivity. Qed.
Lemma silent_store x (v : Value) : silent (store x v : M unit).
Proof. intros k. reflexivity. Qed.
Lemma silent_modify (f : Kernel -> Kernel) :
  (forall k, trace (f k) = trace k) -> silent (modify f).
Proof. intros H k. apply H. Qed.
Lemma silent_bind {A B} (m : M A) (f : A -> M B) :
  silent m -> (forall a, silent (f a)) -> silent (bind m f).
Proof.
  intros Hm Hf k. unfold bind. specialize (Hm k).
  destruct (m k) as [k' [a|e]]; simpl in *; [|exact Hm].
  rewrite Hf. exact Hm.
Qed.

Lemma faithful_silent {A} (m : M A) : silent m -> faithful m.
Proof.
  intros H k. exists []. rewrite app_nil_r. split; [apply H|].
  apply shape_clean. constructor.
Qed.

Lemma faithful_print (v : Value) : faithful (print v : M unit).
Proof.
  intros k. exists [EvPrint v]. split; [reflexivity|].
  apply shape_clean. repeat constructor.
Qed.

Lemma faithful_api {A} name args (body : M A) :
  silent body -> faithful (api name args body).
Proof.
  intros H k. unfold api. specialize (H k).
  destruct (body k) as [k' r]. simpl in *.
  exists [EvCall name args (error_of r)]. rewrite H. split; [reflexivity|].
  destruct r as [a|e]; simpl.
  - apply shape_clean. repeat constructor.
  - apply (shape_failed []). constructor.
Qed.

Lemma faithful_bind {A B} (m : M A) (f : A -> M B) :
  faithful m -> (forall a, faithful (f a)) -> faithful (bind m f).
Proof.
  intros Hm Hf k. unfold bind. destruct (Hm k) as (evs & Ht & Hs).
  destruct (m k) as [k' [a|e]]; simpl in *.
  - destruct (Hf a k') as (evs' & Ht' & Hs').
    exists (evs ++ evs'). rewrite Ht', Ht, app_assoc. split; [reflexivity|].
    inversion Hs as [? ? Hall|]; subst.
    inversion Hs' as [? ? Hall'|? ? ? ? Hall']; subst.
    + apply shape_clean. apply Forall_app. auto.
    + rewrite app_assoc. apply shape_failed. apply Forall_app. auto.
  - exists evs. split; [exact Ht|].
    inversion Hs; subst; [apply shape_clean|apply shape_failed]; assumption.
Qed.

Lemma faithful_for_each {A} (xs : list A) (body : A -> M unit) :
  (forall x, faithful (body x)) -> faithful (for_each xs body).
Proof.
  intros H. induction xs as [|x xs IH]; simpl.
  - apply faithful_silent, silent_ret.
  - apply faithful_bind; auto.
Qed.

Lemma faithful_with_no_grad {A} (body : M A) :
  faithful body -> faithful (with_no_grad body).
Proof.
  intros H k. unfold with_no_grad, bind, get, modify. simpl.
  destruct (H (set_grad_enabled false k)) as (evs & Ht & Hs).
  destruct (body (set_grad_enabled false k)) as [k' r]. simpl in *.
  exists evs. auto.
Qed.

Lemma faithful_cases_lift {A} (r : Result A) : faithful (lift r : M A).
Proof. apply faithful_silent, silent_lift. Qed.

(** ** What a statement leaves alone *)

Lemma preserves_ret {A} P (a : A) : preserves P (ret a : M A).
Proof. intros k H. exact H. Qed.
Lemma preserves_raise {A} P e : preserves P (raise e : M A).
Proof. intros k H. exact H. Qed.
Lemma preserves_lift {A} P (r : Result A) : preserves P (lift r : M A).
Proof. intros k H. exact H. Qed.
Lemma preserves_get {A} P (f : Kernel -> A) : preserves P (get f).
Proof. intros k H. exact H. Qed.
Lemma preserves_load P x : preserves P (load x : M Value).
Proof. intros k H. unfold load. destruct (globals k !! x); exact H. Qed.
Lemma preserves_modify P (f : Kernel -> Kernel) :
  (forall k, P k -> P (f k)) -> preserves P (modify f).
Proof. intros Hf k H. apply Hf, H. Qed.
Lemma preserves_store P x (v : Value) :
  (forall k : Kernel, P k -> P (set_globals (<[x := v]> (globals k)) k)) ->
  preserves P (store x v : M unit).
Proof. intros Hf k H. apply Hf, H. Qed.
Lemma preserves_print P (v : Value) :
  ignores_trace P -> preserves P (print v : M unit).
Proof. intros Hf k H. apply Hf, H. Qed.
Lemma preserves_bind {A B} P (m : M A) (f : A -> M B) :
  preserves P m -> (forall a, preserves P (f a)) -> preserves P (bind m f).
Proof.
  intros Hm Hf k H. unfold bind. specialize (Hm k H).
  destruct (m k) as [k' [a|e]]; simpl in *; [|exact Hm].
  apply Hf, Hm.
Qed.
Lemma preserves_api {A} P name args (body : M A) :
  ignores_trace P -> preserves P body -> preserves P (api name args body).
Proof.
  intros Ht Hb k H. unfold api. specialize (Hb k H).
  destruct (body k) as [k' r]. simpl in *. apply Ht, Hb.
Qed.
Lemma preserves_for_each {A} P (xs : list A) (body : A -> M unit) :
  (forall x, preserves P (body x)) -> preserves P (for_each xs body).
Proof.
  intros H. induction xs as [|x xs IH]; simpl.
  - apply preserves_ret.
  - apply preserves_bind; auto.
Qed.
Lemma preserves_with_no_grad {A} P (body : M A) :
  ignores_grad_mode P -> preserves P body -> preserves P (with_no_grad body).
Proof.
  intros Hg Hb k H. unfold with_no_grad, bind, get, modify. simpl.
  specialize (Hb (set_grad_enabled false k) (Hg _ _ H)).
  destruct (body (set_grad_enabled false k)) as [k' r]. simpl in *.
  apply Hg, Hb.
Qed.

Lemma for_each_app {A} (xs ys : list A) (body : A -> M unit) (k : Kernel) :
  for_each (xs ++ ys) body k = bind (for_each xs body) (fun _ => for_each ys body) k.
Proof.
  revert k. induction xs as [|x xs IH]; intros k; simpl.
  - reflexivity.
  - unfold bind in *. destruct (body x k) as [k' [[]|e]]; [|reflexivity].
    apply IH.
Qed.

End Calculus.

(** ** Tactics *)

(** Splitting on what a statement scrutinises. *)
Ltac split_scrutinee :=
  match goal with
  | |- silent (match ?x with _ => _ end) => destruct x
  | |- silent (if ?b then _ else _) => destruct b
  | |- faithful (match ?x with _ => _ end) => destruct x
  | |- faithful (if ?b then _ else _) => destruct b
  end.

Ltac solve_silent :=
  repeat first
    [ apply silent_ret | apply silent_raise | apply silent_lift
    | apply silent_get | apply silent_load | apply silent_store
    | apply silent_modify; intros ?; reflexivity
    | apply silent_bind; [|intros ?]
    | split_scrutinee ].

Ltac solve_faithful :=
  repeat first
    [ apply faithful_print
    | apply faithful_api; solve [solve_silent]
    | apply faithful_bind; [|intros ?]
    | apply faithful_for_each; intros ?
    | apply faithful_with_no_grad
    | split_scrutinee
    | apply faithful_silent; solve [solve_silent] ].

(** The calls of the cells, opened up for the two tactics. *)
Ltac open_calls :=
  unfold torch_tensor, torch_ones, torch_randn, torch_randint, torch_matmul,
    torch_max1, torch_save, torch_load, tensor_shape_attr, tensor_dtype_attr,
    tensor_device_attr, tensor_T_attr, tensor_data_attr, tensor_grad_attr,
    tensor_size0, tensor_item_method, tensor_eq_method, tensor_sum_method,
    tensor_backward, tensor_to, tensor_method, nn_Linear, nn_CrossEntropyLoss,
    nn_DataParallel, F_relu, framework_forward, module_getattr,
    module_getattr_int, module_state_dict, module_parameters,
    module_load_state_dict, optim_SGD, optimizer_zero_grad, optimizer_step,
    dataloader_len, dataloader_iter, dataloader_next, for_dataloader, unpack2,
    Net___init__, Net_forward, Net_new, module_call, expect_module, expect_class,
    torchvision_resnet18, torchvision_CIFAR10, as_nat, load_attr,
    getattr_module.

Ltac silent_body :=
  repeat first
    [ progress solve_silent
    | progress open_calls
    | match goal with
      | |- silent (let (_, _) := ?p in _) => destruct p
      | |- silent (fun k => let (_, _) := @?p k in _) =>
          let k := fresh "k" in
          intros k; let e := eval cbv beta in (p k) in destruct e; reflexivity
      end ].

Ltac faithful_cell :=
  repeat first
    [ apply faithful_print
    | apply faithful_for_each; intros ?
    | apply faithful_with_no_grad
    | apply faithful_api; solve [silent_body]
    | apply faithful_silent; solve [silent_body]
    | apply faithful_bind; [|intros ?]
    | split_scrutinee
    | match goal with
      | |- faithful (let (_, _) := ?p in _) => destruct p
      end
    | progress open_calls ].

(** [side] proves that the property survives one primitive update of the
    state. *)
Ltac preserves_with side :=
  repeat first
    [ apply preserves_ret | apply preserves_raise | apply preserves_lift
    | apply preserves_get | apply preserves_load
    | apply preserves_for_each; intros ?
    | apply preserves_with_no_grad; [solve [side]|]
    | apply preserves_print; solve [side]
    | apply preserves_api; [solve [side]|]
    | apply preserves_store; solve [side]
    | apply preserves_modify; solve [side]
    | apply preserves_bind; [|intros ?]
    | match goal with
      | |- preserves _ (match ?x with _ => _ end) => destruct x
      | |- preserves _ (if ?b then _ else _) => destruct b
      | |- preserves _ (let (_, _) := ?p in _) => destruct p
      | |- preserves _ (fun k => let (_, _) := @?p k in _) =>
          let k := fresh "k" in
          let H := fresh "H" in
          intros k H; let e := eval cbv beta in (p k) in destruct e; solve [side]
      end
    | progress open_calls ].

Ltac unbound_side :=
  unfold ignores_trace, ignores_grad_mode, unbound;
  intros; simpl;
  first [ assumption
        | rewrite lookup_insert_ne by discriminate; assumption ].

Ltac kernel_simpl :=
  cbn [globals heap files rng cuda_devices grad_enabled trace
       set_globals set_heap set_files set_rng set_grad_enabled log fst snd].

Ltac kernel_simpl_in H :=
  cbn [globals heap files rng cuda_devices grad_enabled trace
       set_globals set_heap set_files set_rng set_grad_enabled log fst snd] in H.

Ltac lookup_simpl :=
  repeat first
    [ rewrite lookup_insert_eq
    | rewrite lookup_insert_ne by discriminate
    | match goal with
      | H : globals ?k !! ?x = _ |- context [globals ?k !! ?x] => rewrite H
      | H : heap ?k !! ?l = _ |- context [heap ?k !! ?l] => rewrite H
      | H : tensor_of ?h ?x = _ |- context [tensor_of ?h ?x] => rewrite H
      end ].

Ltac assoc_simpl :=
  repeat first
    [ progress cbn [mod_cls mod_params mod_children mod_attrs mod_buffers
                    lookup_assoc assign_assoc module_setattr fst snd
                    String.append tensor_of error_of
                    leaf_data leaf_grad t_data t_grad_fn t_device]
    | rewrite decide_True by reflexivity
    | rewrite decide_False by discriminate ].

Ltac tidy :=
  repeat (progress (cbv beta iota; kernel_simpl; assoc_simpl; lookup_simpl)).

Ltac wp_step :=
  lazymatch goal with
  | |- wp (bind _ _) _ _ => apply wp_bind
  | |- wp (ret _) _ _ => apply wp_ret
  | |- wp (raise _) _ _ => apply wp_raise
  | |- wp (lift _) _ _ => apply wp_lift
  | |- wp (get _) _ _ => apply wp_get
  | |- wp (modify _) _ _ => apply wp_modify
  | |- wp (store _ _) _ _ => apply wp_store
  | |- wp (print _) _ _ => apply wp_print
  | |- wp (api _ _ _) _ _ => apply wp_api
  | |- wp (load _) _ _ => apply wp_load
  | |- wp (with_no_grad _) _ _ => apply wp_with_no_grad
  | |- wp (let (_, _) := ?p in _) _ _ => destruct p eqn:?
  end.

(** The calls that are run through without a lemma of their own. *)
Ltac open_simple_calls :=
  unfold torch_tensor, torch_ones, torch_randn, torch_randint, torch_matmul,
    torch_max1, torch_save, torch_load, tensor_shape_attr, tensor_dtype_attr,
    tensor_device_attr, tensor_T_attr, tensor_data_attr, tensor_grad_attr,
    tensor_size0, tensor_item_method, tensor_eq_method, tensor_sum_method,
    tensor_backward, tensor_to, tensor_method, nn_Linear, nn_CrossEntropyLoss,
    nn_DataParallel, F_relu, framework_forward, module_getattr,
    module_getattr_int, module_state_dict, module_parameters,
    module_load_state_dict, optim_SGD, optimizer_zero_grad, optimizer_step,
    unpack2, Net_new, expect_module, expect_class,
    torchvision_resnet18, torchvision_CIFAR10, as_nat, load_attr,
    getattr_module.

Ltac wp_run := repeat first [progress tidy | wp_step | progress open_simple_calls].

Section Properties.

Context {scalar blob : Type} {fw : @Framework scalar blob}.

#[local] Abbreviation Kernel := (@Kernel scalar blob).
#[local] Abbreviation Event := (@Event scalar).
#[local] Abbreviation Value := (@Value scalar).
#[local] Abbreviation Tensor := (@Tensor scalar).
#[local] Abbreviation Leaf := (@Leaf scalar).
#[local] Abbreviation M := (@M scalar blob).

Notation "'let*' x ':=' m 'in' k" := (bind m (fun x => k))
  (at level 10, x name, m at level 100, k at level 200).
Notation "'run' m 'then' k" := (bind m (fun _ => k))
  (at level 10, m at level 100, k at level 200).

Lemma silent_getattr_module m attr (v : Value) :
  silent (getattr_module m attr v : M unit).
Proof. unfold getattr_module. solve_silent. Qed.

Lemma silent_load_attr x m attr : silent (load_attr x m attr : M unit).
Proof.
  unfold load_attr. apply silent_bind; [apply silent_load|].
  intros v. apply silent_getattr_module.
Qed.

Lemma silent_expect_class name (v : Value) :
  silent (expect_class name v : M unit).
Proof. unfold expect_class. solve_silent. Qed.

Lemma faithful_load_attr x m attr : faithful (load_attr x m attr : M unit).
Proof. apply faithful_silent, silent_load_attr. Qed.

Lemma faithful_tensor_method name op (self : Value) args saved kernel :
  faithful (tensor_method name op self args saved kernel : M Value).
Proof. unfold tensor_method. solve_faithful. Qed.

Lemma faithful_framework_forward m (args : list Value) :
  faithful (framework_forward m args : M Value).
Proof. unfold framework_forward. apply faithful_api. solve_silent. Qed.













(** ** The name [nn] *)

Lemma unbound_nn_before_criterion :
  preserves (unbound "nn") (run_all cells_before_criterion).
Proof.
  unfold run_all, cells_before_criterion, notebook. simpl.
  unfold run_cell. simpl.
  unfold cell_tensor_basics, cell_tensor_operations, cell_cuda, cell_autograd,
    cell_dataset.
  preserves_with unbound_side.
Qed.

Lemma notebook_split : notebook = cells_before_criterion ++ cells_from_criterion.
Proof. reflexivity. Qed.

Lemma criterion_cell_needs_nn (k : Kernel) :
  unbound "nn" k -> run_all cells_from_criterion k = (k, Raise (NameError "nn")).
Proof.
  intros H. unfold run_all, cells_from_criterion, notebook. simpl.
  unfold run_cell at 1. simpl.
  unfold cell_criterion_optimizer, load_attr, bind, load.
  unfold unbound in H. rewrite H. reflexivity.
Qed.

(** C3 (what the code does): in a kernel where [nn] is not bound, as in a
    kernel that has just started, running the cells in order ends with an
    exception.  When the cells in front of the criterion cell run through,
    that exception is [NameError: name 'nn' is not defined], raised by the
    first statement of the criterion cell: no code cell imports [nn], and
    the cell with [class Net] is a markdown cell. *)
Theorem C3_run_all_raises (k : Kernel) :
  unbound "nn" k ->
  (exists e, snd (run_all notebook k) = Raise e) /\
  (forall k1, run_all cells_before_criterion k = (k1, Ok tt) ->
     run_all notebook k = (k1, Raise (NameError "nn"))).
Proof.
  intros H.
  pose proof (unbound_nn_before_criterion k H) as Hk1.
  unfold run_all in *. rewrite notebook_split, for_each_app. unfold bind.
  destruct (for_each cells_before_criterion run_cell k) as [k1 [[]|e]] eqn:E;
    simpl in Hk1.
  - pose proof (criterion_cell_needs_nn k1 Hk1) as Hc. unfold run_all in Hc.
    rewrite Hc. split; [eexists; reflexivity|].
    intros k2 Heq. inversion Heq; subst. reflexivity.
  - split; [eexists; reflexivity|]. intros k2 Heq. discriminate.
Qed.






(** ** Running a statement step by step *)

Lemma module_ne_data_parallel m : m <> data_parallel_of m.
Proof.
  intros H. apply (f_equal module_depth) in H. unfold data_parallel_of in H.
  simpl in H. lia.
Qed.

(** C9: the DataParallel cell makes one check.  With more than one GPU it
    prints one line, calls [nn.DataParallel(net)] once and binds the
    result to [net]; otherwise it changes nothing at all.  So afterwards
    [net] is the wrapped module exactly when [device_count() > 1]. *)
Theorem C9_data_parallel_iff_several_gpus (k : Kernel) (m : NNModule) :
  globals k !! "torch" = Some (VPyModule torch) ->
  globals k !! "nn" = Some (VPyModule torch_nn) ->
  globals k !! "net" = Some (VNNModule m) ->
  let k' := fst (cell_data_parallel k) in
  snd (cell_data_parallel k) = Ok tt /\
  (globals k' !! "net" = Some (VNNModule (data_parallel_of m)) <->
   (1 < cuda_devices k)%nat) /\
  ((1 < cuda_devices k)%nat ->
   trace k' = trace k ++
     [EvPrint (VStr ("Using " +:+ str_of_Z (Z.of_nat (cuda_devices k)) +:+
                     " GPUs for training"));
      EvCall "nn.DataParallel" [VNNModule m] None]) /\
  ((cuda_devices k <= 1)%nat -> k' = k).
Proof.
  intros Ht Hn Hm.
  change (wp cell_data_parallel (fun k' r =>
    r = Ok tt /\
    (globals k' !! "net" = Some (VNNModule (data_parallel_of m)) <->
     (1 < cuda_devices k)%nat) /\
    ((1 < cuda_devices k)%nat ->
     trace k' = trace k ++
       [EvPrint (VStr ("Using " +:+ str_of_Z (Z.of_nat (cuda_devices k)) +:+
                       " GPUs for training"));
        EvCall "nn.DataParallel" [VNNModule m] None]) /\
    ((cuda_devices k <= 1)%nat -> k' = k)) k).
  unfold cell_data_parallel. wp_run.
  destruct (Nat.ltb_spec 1 (cuda_devices k)) as [Hgt|Hle].
  - wp_run. split; [reflexivity|]. split; [tauto|]. split.
    + intros _. rewrite <- app_assoc. reflexivity.
    + lia.
  - wp_run. split; [reflexivity|]. split; [|split; [lia|reflexivity]].
    split; [|lia].
    intros H. inversion H as [H']. exfalso. exact (module_ne_data_parallel m H').
Qed.

Lemma draw_length {A} (sample : N -> A * N) n r : length (fst (draw sample n r)) = n.
Proof.
  revert r. induction n as [|n IH]; intros r; simpl; [reflexivity|].
  destruct (sample r) as [x r1]. specialize (IH r1).
  destruct (draw sample n r1) as [xs r2]. simpl in *. congruence.
Qed.

Lemma vector_shape (v : list scalar) : tensor_shape (TArr (map TFloat v)) = [length v].
Proof. simpl. rewrite length_map. destruct v; reflexivity. Qed.

Lemma draw_matrix_shape (sample : N -> scalar * N) rows cols r :
  tensor_shape (fst (draw_matrix sample (S rows) cols r)) = [S rows; cols].
Proof.
  unfold draw_matrix.
  pose proof (draw_length (fun r0 => let (v, r1) := draw sample cols r0 in
                    (TArr (map TFloat v), r1)) (S rows) r) as Hlen.
  destruct (draw _ (S rows) r) as [m r'] eqn:E. simpl in Hlen |- *.
  rewrite Hlen. f_equal.
  simpl in E. pose proof (draw_length sample cols r) as Hc.
  destruct (draw sample cols r) as [v r1].
  simpl in Hc.
  destruct (draw _ rows r1) as [xs r2]. inversion E as [[Hm Hr]].
  rewrite vector_shape, Hc. reflexivity.
Qed.

Lemma Net_init_spec (k : Kernel) (c : Value) :
  globals k !! "Net" = Some c ->
  globals k !! "nn" = Some (VPyModule torch_nn) ->
  wp Net___init__ (fun k' r =>
    r = Ok (Net_object (length (heap k))) /\
    globals k' = globals k /\ files k' = files k /\
    grad_enabled k' = grad_enabled k /\ cuda_devices k' = cuda_devices k /\
    trace k' = trace k ++ [EvCall "nn.Linear" [VInt 10; VInt 20] None;
                           EvCall "nn.Linear" [VInt 20; VInt 5] None] /\
    exists (w1 b1 w2 b2 : Tensor),
      heap k' = heap k ++ [mkLeaf w1 None; mkLeaf b1 None;
                           mkLeaf w2 None; mkLeaf b2 None] /\
      tensor_shape w1 = [20; 10]%nat /\ tensor_shape b1 = [20]%nat /\
      tensor_shape w2 = [5; 20]%nat /\ tensor_shape b2 = [5]%nat) k.
Proof.
  intros HN Hnn. unfold Net___init__. wp_run.
  replace (length (heap k ++ _)) with (S (S (length (heap k))))
    by (rewrite length_app; simpl; lia).
  split; [reflexivity|]. repeat (split; [reflexivity|]).
  split; [rewrite <- app_assoc; reflexivity|].
  match goal with
  | H1 : draw_matrix _ 20 10 _ = (?w1, _), H2 : draw _ 20 _ = (?b1, _),
    H3 : draw_matrix _ 5 20 _ = (?w2, _), H4 : draw _ 5 _ = (?b2, _) |- _ =>
      exists w1, (TArr (map TFloat b1)), w2, (TArr (map TFloat b2));
      apply (f_equal fst) in H1, H2, H3, H4; cbn [fst] in H1, H2, H3, H4;
      rewrite !vector_shape, <- H1, <- H2, <- H3, <- H4,
        !draw_matrix_shape, !draw_length
  end.
  rewrite <- app_assoc. repeat split.
Qed.

Lemma Net_forward_spec (k : Kernel) (l : loc) (x : Value) t w1 b1 w2 b2 g1 g2 g3 g4 :
  globals k !! "F" = Some (VPyModule torch_nn_functional) ->
  heap k !! l = Some (mkLeaf w1 g1) ->
  heap k !! S l = Some (mkLeaf b1 g2) ->
  heap k !! S (S l) = Some (mkLeaf w2 g3) ->
  heap k !! S (S (S l)) = Some (mkLeaf b2 g4) ->
  tensor_of (heap k) x = Ok t ->
  wp (Net_forward (Net_object l) x) (fun k' r =>
    same_store k k' /\
    match linear_apply w1 b1 (t_data t) with
    | Raise e =>
        r = Raise e /\
        trace k' = trace k ++
          [EvCall "Linear.forward" [VNNModule (linear_module 10 20 l); x] (Some e)]
    | Ok h =>
        exists gh ga,
          let hv := VTensor (mkTensorVal h gh (t_device t)) in
          let av := VTensor (mkTensorVal (relu_apply h) ga (t_device t)) in
          match linear_apply w2 b2 (relu_apply h) with
          | Raise e =>
              r = Raise e /\
              trace k' = trace k ++
                [EvCall "Linear.forward" [VNNModule (linear_module 10 20 l); x] None;
                 EvCall "F.relu" [hv] None;
                 EvCall "Linear.forward"
                   [VNNModule (linear_module 20 5 (S (S l))); av] (Some e)]
          | Ok o =>
              exists go,
                r = Ok (VTensor (mkTensorVal o go (t_device t))) /\
                trace k' = trace k ++ forward_events l x hv av
          end
    end) k.
Proof.
  intros HF H1 H2 H3 H4 Hx. unfold Net_forward, Net_object, linear_module, same_store.
  wp_run.
  destruct (linear_apply w1 b1 (t_data t)) as [h|e] eqn:E1; wp_run.
  2: { repeat split. }
  destruct (linear_apply w2 b2 (relu_apply h)) as [o|e] eqn:E2; wp_run.
  - split; [repeat split|]. eexists _, _. eexists. split; [reflexivity|].
    unfold forward_events, linear_module. rewrite <- !app_assoc. reflexivity.
  - split; [repeat split|]. eexists _, _.
    split; [reflexivity|]. rewrite <- !app_assoc. reflexivity.
Qed.

(** C5: [Net()] builds an object of class [Net] with exactly two
    children, [fc1 = nn.Linear(10, 20)] and [fc2 = nn.Linear(20, 5)], whose
    weights have 20 by 10 and 5 by 20 entries; the source of the [Net] cell
    binds [Net] and such an object as [net]; and [forward] returns
    [fc2(relu(fc1(x)))] and nothing else: its data is the second affine
    map applied to the ReLU of the first, an exception of either is the
    exception of [forward]. *)
Theorem C5_net_is_two_linear_layers (k : Kernel) (c : Value) :
  globals k !! "Net" = Some c ->
  globals k !! "nn" = Some (VPyModule torch_nn) ->
  let l := length (heap k) in
  (snd (Net___init__ k) = Ok (Net_object l) /\
   exists w1 b1 w2 b2 : Tensor,
     heap (fst (Net___init__ k)) =
       heap k ++ [mkLeaf w1 None; mkLeaf b1 None; mkLeaf w2 None; mkLeaf b2 None] /\
     tensor_shape w1 = [20; 10]%nat /\ tensor_shape b1 = [20]%nat /\
     tensor_shape w2 = [5; 20]%nat /\ tensor_shape b2 = [5]%nat) /\
  (snd (cell_net k) = Ok tt /\
   globals (fst (cell_net k)) !! "Net" = Some (VClass "Net") /\
   globals (fst (cell_net k)) !! "net" = Some (VNNModule (Net_object l))) /\
  (forall (k1 : Kernel) (x : Value) t w1 b1 w2 b2 g1 g2 g3 g4,
     globals k1 !! "F" = Some (VPyModule torch_nn_functional) ->
     heap k1 !! l = Some (mkLeaf w1 g1) ->
     heap k1 !! S l = Some (mkLeaf b1 g2) ->
     heap k1 !! S (S l) = Some (mkLeaf w2 g3) ->
     heap k1 !! S (S (S l)) = Some (mkLeaf b2 g4) ->
     tensor_of (heap k1) x = Ok t ->
     value_data (snd (Net_forward (Net_object l) x k1)) =
       result_bind (linear_apply w1 b1 (t_data t)) (fun h =>
       linear_apply w2 b2 (relu_apply h))).
Proof.
  intros HN Hnn l. split; [|split].
  - pose proof (Net_init_spec k c HN Hnn) as H. unfold wp in H.
    destruct H as (Hr & _ & _ & _ & _ & _ & w1 & b1 & w2 & b2 & Hh & Hs).
    split; [exact Hr|]. exists w1, b1, w2, b2. split; [exact Hh|exact Hs].
  - change (wp cell_net (fun k' r =>
      r = Ok tt /\ globals k' !! "Net" = Some (VClass "Net") /\
      globals k' !! "net" = Some (VNNModule (Net_object l))) k).
    unfold cell_net, Net_new, Net___init__. wp_run.
    replace (length (heap k ++ _)) with (S (S (length (heap k))))
      by (rewrite length_app; simpl; lia).
    repeat split.
  - intros k1 x t w1 b1 w2 b2 g1 g2 g3 g4 HF H1 H2 H3 H4 Hx.
    pose proof (Net_forward_spec k1 l x t w1 b1 w2 b2 g1 g2 g3 g4 HF H1 H2 H3 H4 Hx)
      as H.
    unfold wp in H. destruct H as (_ & H).
    destruct (linear_apply w1 b1 (t_data t)) as [h|e]; simpl.
    + destruct H as (gh & ga & H). simpl in H.
      destruct (linear_apply w2 b2 (relu_apply h)) as [o|e].
      * destruct H as (go & -> & _). reflexivity.
      * destruct H as (-> & _). reflexivity.
    + destruct H as (-> & _). reflexivity.
Qed.





Lemma Net_state_entries l :
  state_entries "" (Net_object l) =
    [("fc1.weight", l); ("fc1.bias", S l);
     ("fc2.weight", S (S l)); ("fc2.bias", S (S (S l)))].
Proof. reflexivity. Qed.

Lemma read_entry_some (h : list Leaf) name l lf :
  h !! l = Some lf -> read_entry h (name, l) = Ok (name, leaf_data lf).
Proof. intros H. unfold read_entry. simpl. rewrite H. reflexivity. Qed.

Lemma Net_state_dict (h : list Leaf) (l : loc) w1 b1 w2 b2 g1 g2 g3 g4 :
  h !! l = Some (mkLeaf w1 g1) ->
  h !! S l = Some (mkLeaf b1 g2) ->
  h !! S (S l) = Some (mkLeaf w2 g3) ->
  h !! S (S (S l)) = Some (mkLeaf b2 g4) ->
  state_dict (Net_object l) h =
    Ok [("fc1.weight", w1); ("fc1.bias", b1); ("fc2.weight", w2); ("fc2.bias", b2)].
Proof.
  intros H1 H2 H3 H4. unfold state_dict. rewrite Net_state_entries.
  cbn [map_result].
  rewrite (read_entry_some h _ _ _ H1), (read_entry_some h _ _ _ H2),
    (read_entry_some h _ _ _ H3), (read_entry_some h _ _ _ H4).
  reflexivity.
Qed.

(** Loading a state dict of the right keys and shapes into a [Net] whose
    four parameters are the last four leaves of the heap. *)
Lemma Net_load_state_dict (h : list Leaf) w1 b1 w2 b2 (f1 f2 f3 f4 : Leaf) :
  tensor_shape w1 = tensor_shape (leaf_data f1) ->
  tensor_shape b1 = tensor_shape (leaf_data f2) ->
  tensor_shape w2 = tensor_shape (leaf_data f3) ->
  tensor_shape b2 = tensor_shape (leaf_data f4) ->
  load_state_dict (Net_object (length h))
    [("fc1.weight", w1); ("fc1.bias", b1); ("fc2.weight", w2); ("fc2.bias", b2)]
    (h ++ [f1; f2; f3; f4]) =
  (h ++ [mkLeaf w1 (leaf_grad f1); mkLeaf b1 (leaf_grad f2);
         mkLeaf w2 (leaf_grad f3); mkLeaf b2 (leaf_grad f4)], Ok tt).
Proof.
  intros S1 S2 S3 S4. unfold load_state_dict. rewrite Net_state_entries.
  assert (L0 : forall a b c d : Leaf, (h ++ [a; b; c; d]) !! length h = Some a).
  { intros. rewrite lookup_app_r by lia. rewrite Nat.sub_diag. reflexivity. }
  assert (L1 : forall a b c d : Leaf, (h ++ [a; b; c; d]) !! S (length h) = Some b).
  { intros. rewrite lookup_app_r by lia.
    replace (S (length h) - length h)%nat with 1%nat by lia. reflexivity. }
  assert (L2 : forall a b c d : Leaf, (h ++ [a; b; c; d]) !! S (S (length h)) = Some c).
  { intros. rewrite lookup_app_r by lia.
    replace (S (S (length h)) - length h)%nat with 2%nat by lia. reflexivity. }
  assert (L3 : forall a b c d : Leaf,
               (h ++ [a; b; c; d]) !! S (S (S (length h))) = Some d).
  { intros. rewrite lookup_app_r by lia.
    replace (S (S (S (length h))) - length h)%nat with 3%nat by lia. reflexivity. }
  assert (I0 : forall a b c d x : Leaf,
               <[length h := x]> (h ++ [a; b; c; d]) = h ++ [x; b; c; d]).
  { intros. rewrite insert_app_r_alt by lia. rewrite Nat.sub_diag. reflexivity. }
  assert (I1 : forall a b c d x : Leaf,
               <[S (length h) := x]> (h ++ [a; b; c; d]) = h ++ [a; x; c; d]).
  { intros. rewrite insert_app_r_alt by lia.
    replace (S (length h) - length h)%nat with 1%nat by lia. reflexivity. }
  assert (I2 : forall a b c d x : Leaf,
               <[S (S (length h)) := x]> (h ++ [a; b; c; d]) = h ++ [a; b; x; d]).
  { intros. rewrite insert_app_r_alt by lia.
    replace (S (S (length h)) - length h)%nat with 2%nat by lia. reflexivity. }
  assert (I3 : forall a b c d x : Leaf,
               <[S (S (S (length h))) := x]> (h ++ [a; b; c; d]) = h ++ [a; b; c; x]).
  { intros. rewrite insert_app_r_alt by lia.
    replace (S (S (S (length h))) - length h)%nat with 3%nat by lia. reflexivity. }
  cbn [foldl load_entry fst snd].
  assoc_simpl. rewrite L0. rewrite decide_True by exact S1. rewrite I0.
  cbn [load_entry fst snd].
  assoc_simpl. rewrite L1. rewrite decide_True by exact S2. rewrite I1.
  cbn [load_entry fst snd].
  assoc_simpl. rewrite L2. rewrite decide_True by exact S3. rewrite I2.
  cbn [load_entry fst snd].
  assoc_simpl. rewrite L3. rewrite decide_True by exact S4. rewrite I3.
  cbn [forallb fst snd]. assoc_simpl.
  reflexivity.
Qed.

(** C2: in a kernel where [net] is a [Net] whose four parameters have the
    shapes of a [Net], and with a [pickle] that reads back what it wrote,
    the save/load cell ends normally; [model.pth] then holds the pickled
    [net.state_dict()], [loaded_net] is a new [Net] object, and
    [loaded_net.state_dict()] is the state dict that was saved, key for key
    and tensor for tensor; [net] itself still has it too. *)
Theorem C2_save_load_round_trip (k : Kernel) (l : loc) w1 b1 w2 b2 g1 g2 g3 g4 :
  (forall sd, k_unpickle (k_pickle (VStateDict sd)) = Ok (VStateDict sd)) ->
  globals k !! "torch" = Some (VPyModule torch) ->
  globals k !! "nn" = Some (VPyModule torch_nn) ->
  globals k !! "Net" = Some (VClass "Net") ->
  globals k !! "net" = Some (VNNModule (Net_object l)) ->
  heap k !! l = Some (mkLeaf w1 g1) ->
  heap k !! S l = Some (mkLeaf b1 g2) ->
  heap k !! S (S l) = Some (mkLeaf w2 g3) ->
  heap k !! S (S (S l)) = Some (mkLeaf b2 g4) ->
  tensor_shape w1 = [20; 10]%nat -> tensor_shape b1 = [20]%nat ->
  tensor_shape w2 = [5; 20]%nat -> tensor_shape b2 = [5]%nat ->
  let sd := [("fc1.weight", w1); ("fc1.bias", b1);
             ("fc2.weight", w2); ("fc2.bias", b2)] in
  let k' := fst (cell_save_load k) in
  let loaded := Net_object (length (heap k)) in
  state_dict (Net_object l) (heap k) = Ok sd /\
  snd (cell_save_load k) = Ok tt /\
  files k' !! "model.pth" = Some (k_pickle (VStateDict sd)) /\
  globals k' !! "loaded_net" = Some (VNNModule loaded) /\
  state_dict loaded (heap k') = Ok sd /\
  state_dict (Net_object l) (heap k') = Ok sd.
Proof.
  intros Hpickle Ht Hnn HN Hnet H1 H2 H3 H4 S1 S2 S3 S4 sd k' loaded.
  pose proof (Net_state_dict (heap k) l _ _ _ _ _ _ _ _ H1 H2 H3 H4) as Hsd.
  split; [exact Hsd|].
  change (wp cell_save_load (fun k' r =>
    r = Ok tt /\
    files k' !! "model.pth" = Some (k_pickle (VStateDict sd)) /\
    globals k' !! "loaded_net" = Some (VNNModule loaded) /\
    state_dict loaded (heap k') = Ok sd /\
    state_dict (Net_object l) (heap k') = Ok sd) k).
  unfold cell_save_load, stmt_save, stmt_construct, stmt_load.
  wp_run. rewrite Hsd. wp_run.
  eapply wp_mono.
  { apply (Net_init_spec _ (VClass "Net")); kernel_simpl; assumption. }
  intros k2 r [-> (Hg & Hf & _ & _ & _ & f1 & f2 & f3 & f4 & Hh & T1 & T2 & T3 & T4)].
  kernel_simpl_in Hg. kernel_simpl_in Hf. kernel_simpl_in Hh.
  wp_run. rewrite Hg. lookup_simpl. wp_run. rewrite Hf. lookup_simpl. wp_run.
  rewrite Hpickle. wp_run. unfold wp. kernel_simpl. rewrite Hh.
  rewrite Net_load_state_dict by (cbn [leaf_data]; congruence).
  kernel_simpl. lookup_simpl. rewrite Hf. lookup_simpl. cbn [leaf_grad].
  split; [reflexivity|]. split; [reflexivity|]. split; [reflexivity|].
  assert (Hlt : (S (S (S l)) < length (heap k))%nat)
    by (eapply lookup_lt_Some; exact H4).
  split.
  - unfold loaded. eapply Net_state_dict.
    + rewrite lookup_app_r by lia. rewrite Nat.sub_diag. reflexivity.
    + rewrite lookup_app_r by lia.
      replace (S (length (heap k)) - length (heap k))%nat with 1%nat by lia.
      reflexivity.
    + rewrite lookup_app_r by lia.
      replace (S (S (length (heap k))) - length (heap k))%nat with 2%nat by lia.
      reflexivity.
    + rewrite lookup_app_r by lia.
      replace (S (S (S (length (heap k)))) - length (heap k))%nat with 3%nat by lia.
      reflexivity.
  - eapply Net_state_dict; rewrite lookup_app_l by lia; eassumption.
Qed.

(** ** The data loader *)

Lemma map_result_ok {A B} (f : A -> Result B) l ys :
  map_result f l = Ok ys -> Forall2 (fun x y => f x = Ok y) l ys.
Proof.
  revert ys. induction l as [|x l IH]; intros ys; simpl.
  - intros [= <-]. constructor.
  - destruct (f x) as [y|e] eqn:E; simpl; [|discriminate].
    destruct (map_result f l) as [ys'|e]; simpl; [|discriminate].
    intros [= <-]. constructor; auto.
Qed.

Lemma map_result_length {A B} (f : A -> Result B) l ys :
  map_result f l = Ok ys -> length ys = length l.
Proof.
  intros H. apply map_result_ok in H. symmetry. eapply Forall2_length, H.
Qed.

Lemma batch_sampler_concat bs acc idxs :
  concat (batch_sampler bs acc idxs) = acc ++ idxs.
Proof.
  revert acc. induction idxs as [|i rest IH]; intros acc; simpl.
  - destruct acc; simpl; rewrite ?app_nil_r; reflexivity.
  - destruct (length (acc ++ [i]) =? bs)%nat; simpl; rewrite IH, <- ?app_assoc;
      reflexivity.
Qed.

Lemma batch_sampler_nonempty bs acc idxs :
  Forall (fun b => b <> []) (batch_sampler bs acc idxs).
Proof.
  revert acc. induction idxs as [|i rest IH]; intros acc; simpl.
  - destruct acc; constructor; [discriminate|constructor].
  - destruct (length (acc ++ [i]) =? bs)%nat; [constructor|]; auto.
    destruct acc; discriminate.
Qed.

Lemma batch_sampler_length bs acc idxs :
  (length acc < bs)%nat ->
  length (batch_sampler bs acc idxs) = ((length acc + length idxs + bs - 1) / bs)%nat.
Proof.
  revert acc. induction idxs as [|i rest IH]; intros acc Hlt;
    cbn [batch_sampler].
  - destruct acc as [|a acc]; cbn [length] in *.
    + symmetry. apply Nat.div_small. lia.
    + apply (Nat.div_unique _ _ _ (length acc)); lia.
  - rewrite length_app. cbn [length].
    destruct (Nat.eqb_spec (length acc + 1) bs) as [Heq|Hne]; cbn [length].
    + rewrite IH by (cbn [length]; lia). cbn [length].
      replace (length acc + S (length rest) + bs - 1)%nat
        with (1 * bs + (0 + length rest + bs - 1))%nat by lia.
      rewrite Nat.div_add_l by lia. reflexivity.
    + rewrite IH by (rewrite length_app; cbn [length]; lia).
      rewrite length_app. cbn [length]. f_equal. lia.
Qed.

(** What [fetch] returns is a pair of stacked tensors. *)
Lemma fetch_ok (h : list Leaf) ds idxs v :
  fetch h ds idxs = Ok v ->
  exists xs ys,
    v = VList [VTensor (plain (TArr xs)); VTensor (plain (TArr ys))] /\
    length xs = length idxs /\ length ys = length idxs.
Proof.
  unfold fetch, collate_field. intros H.
  destruct (map_result _ idxs) as [samples|e] eqn:Es; simpl in H; [|discriminate].
  destruct (map_result (collate_item h) (map fst samples)) as [xs|e] eqn:Ex;
    simpl in H; [|discriminate].
  destruct (same_shape xs); simpl in H; [|discriminate].
  destruct (map_result (collate_item h) (map snd samples)) as [ys|e] eqn:Ey;
    simpl in H; [|discriminate].
  destruct (same_shape ys); simpl in H; [|discriminate].
  inversion H; subst. exists xs, ys. split; [reflexivity|].
  apply map_result_length in Es, Ex, Ey. rewrite length_map in Ex, Ey.
  split; congruence.
Qed.
Lemma length_foldl_zero_leaf (ps : list loc) (h : list Leaf) :
  length (foldl zero_leaf h ps) = length h.
Proof.
  revert h. induction ps as [|p ps IH]; intros h; simpl; [reflexivity|].
  rewrite IH. unfold zero_leaf. destruct (h !! p); [apply length_insert|reflexivity].
Qed.

Lemma length_foldl_step_leaf lr (ps : list loc) (h : list Leaf) :
  length (foldl (step_leaf lr) h ps) = length h.
Proof.
  revert h. induction ps as [|p ps IH]; intros h; simpl; [reflexivity|].
  rewrite IH. unfold step_leaf. destruct (h !! p) as [lf|]; [|reflexivity].
  destruct (leaf_grad lf); [apply length_insert|reflexivity].
Qed.

Lemma length_foldl_accumulate_grad (gs : list (loc * Tensor)) (h : list Leaf) :
  length (foldl accumulate_grad h gs) = length h.
Proof.
  revert h. induction gs as [|g gs IH]; intros h; simpl; [reflexivity|].
  rewrite IH. unfold accumulate_grad.
  destruct (h !! fst g); [apply length_insert|reflexivity].
Qed.

Lemma tensor_item_number (t : Tensor) v :
  tensor_item t = Ok v -> (exists x, v = VFloat x) \/ (exists n, v = VInt n).
Proof.
  revert t v. fix IH 1. intros [x|n|b|items] v; simpl.
  - intros [= <-]. left. eexists. reflexivity.
  - intros [= <-]. right. eexists. reflexivity.
  - intros [= <-]. right. eexists. reflexivity.
  - destruct items as [|x [|y rest]]; try discriminate. apply IH.
Qed.

Lemma add_item_number rl v :
  (exists x, v = VFloat x) \/ (exists n, v = VInt n) ->
  py_add (VFloat rl) v = Ok (VFloat (add_item rl v)).
Proof. intros [[x ->]|[n ->]]; reflexivity. Qed.

Lemma params_present (h : list Leaf) (l : loc) :
  (S (S (S l)) < length h)%nat ->
  exists w1 g1 b1 g2 w2 g3 b2 g4,
    h !! l = Some (mkLeaf w1 g1) /\ h !! S l = Some (mkLeaf b1 g2) /\
    h !! S (S l) = Some (mkLeaf w2 g3) /\ h !! S (S (S l)) = Some (mkLeaf b2 g4).
Proof.
  intros H.
  destruct (lookup_lt_is_Some_2 h l) as [[w1 g1] H1]; [lia|].
  destruct (lookup_lt_is_Some_2 h (S l)) as [[b1 g2] H2]; [lia|].
  destruct (lookup_lt_is_Some_2 h (S (S l))) as [[w2 g3] H3]; [lia|].
  destruct (lookup_lt_is_Some_2 h (S (S (S l)))) as [[b2 g4] H4]; [lia|].
  exists w1, g1, b1, g2, w2, g3, b2, g4. auto.
Qed.
Lemma module_call_Net (l : loc) (x : Value) :
  module_call (VNNModule (Net_object l)) [x] = Net_forward (Net_object l) x.
Proof. reflexivity. Qed.

Lemma module_call_criterion (args : list Value) :
  module_call (VNNModule crit_object) args = framework_forward crit_object args.
Proof. reflexivity. Qed.

Ltac heap_lengths :=
  repeat first [ rewrite length_foldl_zero_leaf | rewrite length_foldl_step_leaf
               | rewrite length_foldl_accumulate_grad ].

Lemma raised_by_last_call_intro (k : Kernel) e pre mid name args :
  trace k = pre ++ mid ++ [EvCall name args (Some e)] -> raised_by_last_call k e.
Proof.
  intros H. exists (pre ++ mid), name, args. rewrite <- app_assoc. exact H.
Qed.

Ltac close_call :=
  first [ eapply (raised_by_last_call_intro _ _ _ []); reflexivity
        | eapply (raised_by_last_call_intro _ _ _ [_]); reflexivity
        | eapply (raised_by_last_call_intro _ _ _ [_; _]); reflexivity ].

Ltac split_result :=
  match goal with
  | |- match ?x with _ => _ end => destruct x eqn:?
  | |- wp (match ?x with _ => _ end) _ _ => destruct x eqn:?
  end.

Lemma chained_app {R S : Type} (before after : R -> S) s runs1 runs2 s' :
  chained before after s (runs1 ++ runs2) s' <->
  exists mid, chained before after s runs1 mid /\ chained before after mid runs2 s'.
Proof.
  revert s. induction runs1 as [|b runs1 IH]; intros s; cbn [app chained].
  - split.
    + intros H. exists s. split; [reflexivity|exact H].
    + intros (mid & -> & H). exact H.
  - rewrite IH. split.
    + intros (Hb & mid & H1 & H2). exists mid. auto.
    + intros (mid & (Hb & H1) & H2). split; [exact Hb|]. exists mid. auto.
Qed.

Lemma chained_snoc {R S : Type} (before after : R -> S) s runs b mid :
  chained before after s runs mid -> before b = mid ->
  chained before after s (runs ++ [b]) (after b).
Proof.
  intros H Hb. apply chained_app. exists mid. split; [exact H|].
  cbn [chained]. split; [exact Hb|reflexivity].
Qed.

Lemma lookup_data_of (h : list Leaf) (i : loc) d g :
  h !! i = Some (mkLeaf d g) -> data_of h i = Some d.
Proof. unfold data_of. intros ->. reflexivity. Qed.

Lemma Net_forward_values (k : Kernel) (l : loc) (x : Value) t w1 b1 w2 b2 g1 g2 g3 g4 :
  globals k !! "F" = Some (VPyModule torch_nn_functional) ->
  heap k !! l = Some (mkLeaf w1 g1) ->
  heap k !! S l = Some (mkLeaf b1 g2) ->
  heap k !! S (S l) = Some (mkLeaf w2 g3) ->
  heap k !! S (S (S l)) = Some (mkLeaf b2 g4) ->
  tensor_of (heap k) x = Ok t ->
  wp (Net_forward (Net_object l) x) (fun k' r =>
    same_store k k' /\
    match linear_apply w1 b1 (t_data t) with
    | Raise e => r = Raise e /\ raised_by_last_call k' e
    | Ok h =>
        match linear_apply w2 b2 (relu_apply h) with
        | Raise e => r = Raise e /\ raised_by_last_call k' e
        | Ok o =>
            r = Ok (output_value (grad_enabled k) l t h o) /\
            trace k' = trace k ++
              forward_events l x (hidden_value (grad_enabled k) l t h)
                (act_value (grad_enabled k) l t h)
        end
    end) k.
Proof.
  intros HF H1 H2 H3 H4 Hx. unfold Net_forward, Net_object, linear_module, same_store.
  wp_run.
  destruct (linear_apply w1 b1 (t_data t)) as [h|e] eqn:E1; wp_run.
  2: { repeat split. close_call. }
  destruct (linear_apply w2 b2 (relu_apply h)) as [o|e] eqn:E2; wp_run.
  - split; [repeat split|]. split; [reflexivity|].
    unfold forward_events, linear_module. rewrite <- !app_assoc. reflexivity.
  - split; [repeat split|]. split; [reflexivity|]. close_call.
Qed.

Ltac close_pass :=
  unfold training_names, loop_names; tidy; heap_lengths;
  repeat split; try assumption; try reflexivity; try close_call.

Lemma train_batch_spec (k : Kernel) ps lr dl ds l idxs tx ty (rl : scalar) :
  let opt := VOptimizer ps lr in
  training_names opt dl l k ->
  globals k !! "running_loss" = Some (VFloat rl) ->
  fetch (heap k) ds idxs = Ok (VList [VTensor tx; VTensor ty]) ->
  wp (train_batch (VList [VTensor tx; VTensor ty])) (fun k' r =>
    training_names opt dl l k' /\
    globals k' !! "epoch" = globals k !! "epoch" /\
    rng k' = rng k /\ grad_enabled k' = grad_enabled k /\
    match r with
    | Ok _ =>
        exists b,
          br_idxs b = idxs /\ br_heap b = heap k /\ br_after b = heap k' /\
          batch_dataflow (grad_enabled k) ds ps lr l b /\
          trace k' = trace k ++ body_events opt l b /\
          globals k' !! "running_loss" = Some (VFloat (add_item rl (br_item b)))
    | Raise e => raised_by_last_call k' e
    end) k.
Proof.
  intros opt ((Hnet & HF & Hdl & Hlen) & Hopt & Hcrit) Hrl Hfetch.
  destruct (params_present (foldl zero_leaf (heap k) ps) l)
    as (w1 & g1 & b1 & g2 & w2 & g3 & b2 & g4 & H1 & H2 & H3 & H4).
  { rewrite length_foldl_zero_leaf. exact Hlen. }
  subst opt. unfold train_batch. wp_run. rewrite module_call_Net.
  match goal with |- wp _ _ ?K => set (k1 := K) end.
  eapply wp_mono.
  { apply (Net_forward_values k1 l (VTensor tx) tx w1 b1 w2 b2 g1 g2 g3 g4);
      subst k1; tidy; auto. }
  intros k2 r ((Hg & Hh & Hf & Hr & Hc & He) & Hm).
  destruct k2 as [gl hp fl rg cd ge tr]. simpl in Hg, Hh, Hf, Hr, Hc, He, Hm.
  subst gl hp fl rg cd ge. subst k1. kernel_simpl_in Hm.
  destruct (linear_apply w1 b1 (t_data tx)) as [h|e] eqn:E1.
  2: { destruct Hm as (-> & Hm). close_pass. }
  destruct (linear_apply w2 b2 (relu_apply h)) as [o|e] eqn:E2.
  2: { destruct Hm as (-> & Hm). close_pass. }
  destruct Hm as (-> & ->).
  wp_run. rewrite module_call_criterion. unfold framework_forward, crit_object.
  unfold output_value.
  repeat first [progress wp_run | split_result].
  all: try solve [close_pass].
  all: match goal with
       | Hi : tensor_item _ = Ok ?v, Ha : py_add _ ?v = _ |- _ =>
           rewrite (add_item_number _ _ (tensor_item_number _ _ Hi)) in Ha;
           inversion Ha; subst
       end.
  split; [close_pass|]. split; [reflexivity|]. split; [reflexivity|].
  split; [reflexivity|].
  match goal with
  | Hi : tensor_item ?c = Ok ?it, Hg : k_gradients ?g _ = Ok ?gs
    |- context [EvCall "Tensor.item" [?lv] None] =>
      exists (mkBatchRun idxs (heap k) (VTensor tx) (VTensor ty)
                (hidden_value (grad_enabled k) l tx h)
                (act_value (grad_enabled k) l tx h)
                (output_value (grad_enabled k) l tx h o) lv it
                (foldl (step_leaf lr)
                   (foldl accumulate_grad (foldl zero_leaf (heap k) ps) gs) ps))
  end.
  split; [reflexivity|]. split; [reflexivity|]. split; [reflexivity|].
  split.
  { unfold batch_dataflow.
    cbn [br_idxs br_heap br_inputs br_labels br_hidden br_act br_outputs br_loss
         br_item br_after].
    split; [exact Hfetch|]. split.
    - exists tx, w1, b1, w2, b2, h, o. split; [reflexivity|].
      rewrite (lookup_data_of _ _ _ _ H1), (lookup_data_of _ _ _ _ H2),
        (lookup_data_of _ _ _ _ H3), (lookup_data_of _ _ _ _ H4).
      repeat split; assumption.
    - eexists _, ty, _, _, _. split; [reflexivity|]. split; [reflexivity|].
      split; [eassumption|]. split.
      { unfold loss_value. cbn [t_grad_fn t_data t_device].
        match goal with
        | H : record_graph _ "cross_entropy" _ _ = Some _ |- _ => rewrite H
        end. reflexivity. }
      split; [reflexivity|].
      split; [eassumption|]. split; [reflexivity|]. eassumption. }
  split; [|reflexivity].
  cbn [trace]. unfold body_events. cbn [br_inputs br_labels br_hidden br_act br_outputs
                  br_loss br_item]. rewrite <- !app_assoc. reflexivity.
Qed.

Lemma dataloader_iter_spec (k : Kernel) ds bs sh n :
  dataset_len (heap k) ds = Ok n ->
  wp (dataloader_iter (VDataLoader ds bs sh)) (fun k' r =>
    same_objects k k' /\ rng k' = next_rng sh n (rng k) /\
    trace k' = trace k ++ [EvCall "DataLoader.__iter__" [VDataLoader ds bs sh] None] /\
    r = Ok (batch_sampler bs [] (epoch_order sh n (rng k)))) k.
Proof.
  intros Hn. unfold dataloader_iter, same_objects, next_rng, epoch_order.
  wp_run. rewrite Hn. wp_run.
  destruct sh; wp_run.
  - repeat split.
  - repeat split.
Qed.

Lemma epoch_order_length sh n r :
  (sh = true -> forall r, length (fst (sample_randperm n r)) = n) ->
  length (epoch_order sh n r) = n.
Proof.
  intros Hperm. unfold epoch_order. destruct sh; [apply Hperm; reflexivity|].
  apply length_seq.
Qed.

Lemma dataloader_next_spec (k : Kernel) ds bs sh idxs :
  wp (dataloader_next (VDataLoader ds bs sh) idxs) (fun k' r =>
    same_objects k k' /\ rng k' = rng k /\
    trace k' = trace k ++
      [EvCall "DataLoader.__next__" [VDataLoader ds bs sh] (error_of r)] /\
    r = fetch (heap k) ds idxs) k.
Proof.
  unfold dataloader_next, same_objects. wp_run.
  destruct (fetch (heap k) ds idxs); repeat split.
Qed.

Lemma batches_positive (n bs : nat) :
  (0 < n)%nat -> (0 < bs)%nat -> (0 < (n + bs - 1) / bs)%nat.
Proof. intros Hn Hbs. apply Nat.div_str_pos. lia. Qed.

Lemma loop_names_same dl l (k k' : Kernel) :
  globals k' = globals k -> heap k' = heap k ->
  loop_names dl l k -> loop_names dl l k'.
Proof. unfold loop_names. intros -> ->. auto. Qed.

Lemma training_names_same opt dl l (k k' : Kernel) :
  globals k' = globals k -> heap k' = heap k ->
  training_names opt dl l k -> training_names opt dl l k'.
Proof.
  unfold training_names. intros Hg Hh (H & Ho & Hc).
  split; [exact (loop_names_same _ _ _ _ Hg Hh H)|]. rewrite Hg. auto.
Qed.

Lemma accumulated_loss_snoc runs b :
  accumulated_loss (runs ++ [b]) = add_item (accumulated_loss runs) (br_item b).
Proof. unfold accumulated_loss. rewrite foldl_app. reflexivity. Qed.

Lemma train_batches_spec (k0 : Kernel) ps lr ds bs sh l (batches : list (list nat)) :
  let opt := VOptimizer ps lr in
  let dl := VDataLoader ds bs sh in
  training_names opt dl l k0 ->
  globals k0 !! "running_loss" = Some (VFloat (float_of_Q 0)) ->
  wp (for_each batches (fun idxs =>
        let* batch := dataloader_next dl idxs in train_batch batch))
    (fun k' r =>
       match r with
       | Ok _ =>
           training_names opt dl l k' /\
           globals k' !! "epoch" = globals k0 !! "epoch" /\
           rng k' = rng k0 /\ grad_enabled k' = grad_enabled k0 /\
           exists runs,
             map br_idxs runs = batches /\
             Forall (batch_dataflow (grad_enabled k0) ds ps lr l) runs /\
             chained br_heap br_after (heap k0) runs (heap k') /\
             trace k' = trace k0 ++ concat (map (batch_events dl opt l) runs) /\
             globals k' !! "running_loss" = Some (VFloat (accumulated_loss runs))
       | Raise e => raised_by_last_call k' e
       end) k0.
Proof.
  intros opt dl Hnames Hrl.
  apply (wp_for_each _ (fun done k' =>
    training_names opt dl l k' /\
    globals k' !! "epoch" = globals k0 !! "epoch" /\
    rng k' = rng k0 /\ grad_enabled k' = grad_enabled k0 /\
    exists runs,
      map br_idxs runs = done /\
      Forall (batch_dataflow (grad_enabled k0) ds ps lr l) runs /\
      chained br_heap br_after (heap k0) runs (heap k') /\
      trace k' = trace k0 ++ concat (map (batch_events dl opt l) runs) /\
      globals k' !! "running_loss" = Some (VFloat (accumulated_loss runs)))).
  - intros done idxs rest k _ (Hn & He & Hrng & Hen & runs & Hidx & Hflow & Hch & Htr & Hacc).
    apply wp_bind. eapply wp_mono; [apply dataloader_next_spec|].
    intros k1 r ((Hg & Hh & _ & _ & Hen1) & Hrng1 & Htr1 & ->).
    assert (Hn1 : training_names opt dl l k1)
      by (exact (training_names_same _ _ _ _ _ Hg Hh Hn)).
    destruct (fetch (heap k) ds idxs) as [v|e] eqn:Hf.
    + destruct (fetch_ok _ _ _ _ Hf) as (xs & ys & -> & _ & _).
      eapply wp_mono.
      { apply (train_batch_spec k1 ps lr dl ds l idxs _ _ (accumulated_loss runs) Hn1).
        - rewrite Hg. exact Hacc.
        - rewrite Hh. exact Hf. }
      intros k2 r Hpost. cbv beta zeta in Hpost.
      destruct Hpost as (Hn2 & He2 & Hrng2 & Hen2 & Hr).
      destruct r as [[]|e]; [|exact Hr].
      destruct Hr as (b & Hbi & Hbh & Hba & Hb & Htr2 & Hacc2).
      split; [exact Hn2|]. split; [rewrite He2, Hg; exact He|].
      split; [congruence|]. split; [congruence|].
      exists (runs ++ [b]). split; [rewrite map_app, Hidx, <- Hbi; reflexivity|].
      split.
      { apply Forall_app. split; [exact Hflow|]. constructor; [|constructor].
        rewrite <- Hen, <- Hen1. exact Hb. }
      split.
      { rewrite <- Hba. apply (chained_snoc _ _ _ _ _ _ Hch). congruence. }
      rewrite accumulated_loss_snoc. split; [|exact Hacc2].
      rewrite Htr2, Htr1, Htr, map_app, concat_app. cbn [map concat error_of].
      rewrite app_nil_r, <- !app_assoc. reflexivity.
    + eexists _, _, _. exact Htr1.
  - intros k H. exact H.
  - split; [exact Hnames|]. split; [reflexivity|]. split; [reflexivity|].
    split; [reflexivity|]. exists [].
    cbn [map concat chained]. rewrite app_nil_r. repeat split; auto.
Qed.

Ltac py_simpl := cbn [py_add py_mul py_truediv py_format_int py_format_float].

Lemma train_epoch_spec (k : Kernel) ps lr ds bs sh l n (epoch : nat) :
  let opt := VOptimizer ps lr in
  let dl := VDataLoader ds bs sh in
  (0 < bs)%nat -> (0 < n)%nat ->
  (forall h, dataset_len h ds = Ok n) ->
  (sh = true -> forall r, length (fst (sample_randperm n r)) = n) ->
  training_names opt dl l k ->
  wp (train_epoch (Z.of_nat epoch)) (fun k' r =>
    match r with
    | Ok _ =>
        training_names opt dl l k' /\
        rng k' = next_rng sh n (rng k) /\ grad_enabled k' = grad_enabled k /\
        exists runs,
          epoch_dataflow (grad_enabled k) ds bs sh n ps lr l (rng k) runs /\
          chained br_heap br_after (heap k) runs (heap k') /\
          trace k' = trace k ++ epoch_events dl opt l epoch runs
    | Raise e => raised_by_last_call k' e
    end) k.
Proof.
  intros opt dl Hbs Hn Hlen Hperm Hnames.
  pose proof Hnames as ((Hnet & HF & Hdl & Hheap) & Hopt & Hcrit).
  unfold train_epoch. wp_run. unfold for_dataloader.
  apply wp_bind. eapply wp_mono; [apply (dataloader_iter_spec _ ds bs sh n (Hlen _))|].
  intros k1 r ((Hg & Hh & _ & _ & Hen) & Hrng & Htr & ->). kernel_simpl_in Hg.
  kernel_simpl_in Hh. kernel_simpl_in Htr. kernel_simpl_in Hrng. kernel_simpl_in Hen.
  eapply wp_mono.
  { apply (train_batches_spec k1 ps lr ds bs sh l).
    - unfold training_names, loop_names. rewrite Hg, Hh. tidy. auto.
    - rewrite Hg. tidy. reflexivity. }
  intros k2 r Hpost. cbv beta zeta in Hpost.
  destruct r as [[]|e]; [|exact Hpost].
  destruct Hpost as (Hn2 & He2 & Hrng2 & Hen2 & runs & Hidx & Hflow & Hch & Htr2 & Hacc).
  rewrite Hg in He2. revert He2. tidy. intros He2.
  pose proof Hn2 as ((_ & _ & Hdl2 & _) & _ & _).
  assert (Hruns : length runs = ((n + bs - 1) / bs)%nat).
  { rewrite <- (length_map br_idxs), Hidx, batch_sampler_length by (simpl; lia).
    cbn [length]. rewrite Nat.add_0_l, (epoch_order_length _ _ _ Hperm). reflexivity. }
  repeat first [progress wp_run | progress py_simpl]. unfold dataloader_len.
  wp_run. rewrite Hlen. repeat first [progress wp_run | progress py_simpl].
  destruct (Z.eqb_spec (Z.of_nat ((n + bs - 1) / bs)) 0) as [Hz|_].
  { pose proof (batches_positive n bs Hn Hbs). lia. }
  repeat first [progress wp_run | progress py_simpl].
  split; [exact (training_names_same _ _ _ _ _ eq_refl eq_refl Hn2)|].
  split; [congruence|]. split; [congruence|].
  exists runs. split.
  { split; [exact Hruns|]. split; [exact Hidx|]. rewrite <- Hen. exact Hflow. }
  split; [rewrite <- Hh; exact Hch|].
  rewrite Htr2, Htr. unfold epoch_events, epoch_line. rewrite Hruns.
  rewrite <- !app_assoc. reflexivity.
Qed.

Lemma range5_item (done : list Z) x rest :
  [0; 1; 2; 3; 4] = done ++ x :: rest -> x = Z.of_nat (length done).
Proof.
  intros H.
  do 5 (destruct done as [|? done]; simpl in H;
        [injection H; intros; subst; reflexivity
        |apply (f_equal (drop 1)) in H; simpl in H]).
  destruct done; discriminate.
Qed.

(** C1: with the names of the cell bound as the cells before it bind them
    ([net] an object of [Net], [criterion] the cross entropy, [optimizer]
    an SGD optimizer, [dataloader] a loader of batch size [bs] over a
    dataset of [n > 0] samples), a training loop that ends normally has
    run five epochs and nothing else.  Every epoch is one
    [iter(dataloader)], then one pass per batch that the loader yields,
    [ceil(n / bs)] of them, and one printed line.  The batches of an epoch
    are those of the batch sampler over the order drawn for that epoch.
    A pass is, in this order, [next], [zero_grad], the forward pass,
    the cross entropy, [backward], [step] and [item], where the inputs
    and the labels are the pair that [next] fetched for the batch, the
    outputs are those of the network on these inputs for the parameters
    that the heap holds at that moment, the loss is the cross entropy of
    these outputs against these labels, and the heap after the pass is the
    one before it with the gradients zeroed, those of the loss added and
    the parameters of the optimizer moved by one SGD step; every pass
    starts on the heap that the pass before it left.  The line shows the
    sum of the items of the epoch divided by the number of its passes.
    A loop that ends in an exception ends in the exception of the call it
    made last. *)
Theorem C1_training_loop_schedule (k : Kernel) ps lr ds bs sh l n :
  let opt := VOptimizer ps lr in
  let dl := VDataLoader ds bs sh in
  (0 < bs)%nat -> (0 < n)%nat ->
  (forall h, dataset_len h ds = Ok n) ->
  (sh = true -> forall r, length (fst (sample_randperm n r)) = n) ->
  training_names opt dl l k ->
  match snd (cell_training_loop k) with
  | Ok _ =>
      exists epochs : list (list BatchRun),
        length epochs = 5%nat /\
        (forall e runs, epochs !! e = Some runs ->
           epoch_dataflow (grad_enabled k) ds bs sh n ps lr l
             (Nat.iter e (next_rng sh n) (rng k)) runs) /\
        chained br_heap br_after (heap k) (concat epochs)
          (heap (fst (cell_training_loop k))) /\
        trace (fst (cell_training_loop k)) =
          trace k ++ concat (imap (epoch_events dl opt l) epochs)
  | Raise e => raised_by_last_call (fst (cell_training_loop k)) e
  end.
Proof.
  intros opt dl Hbs Hn Hlen Hperm Hnames.
  change (wp cell_training_loop (fun k' r =>
    match r with
    | Ok _ =>
        exists epochs : list (list BatchRun),
          length epochs = 5%nat /\
          (forall e runs, epochs !! e = Some runs ->
             epoch_dataflow (grad_enabled k) ds bs sh n ps lr l
               (Nat.iter e (next_rng sh n) (rng k)) runs) /\
          chained br_heap br_after (heap k) (concat epochs) (heap k') /\
          trace k' = trace k ++ concat (imap (epoch_events dl opt l) epochs)
    | Raise e => raised_by_last_call k' e
    end) k).
  unfold cell_training_loop.
  apply (wp_for_each _ (fun done k' =>
    training_names opt dl l k' /\
    rng k' = Nat.iter (length done) (next_rng sh n) (rng k) /\
    grad_enabled k' = grad_enabled k /\
    exists epochs : list (list BatchRun),
      length epochs = length done /\
      (forall e runs, epochs !! e = Some runs ->
         epoch_dataflow (grad_enabled k) ds bs sh n ps lr l
           (Nat.iter e (next_rng sh n) (rng k)) runs) /\
      chained br_heap br_after (heap k) (concat epochs) (heap k') /\
      trace k' = trace k ++ concat (imap (epoch_events dl opt l) epochs))).
  - intros done x rest k1 Hx (Hn1 & Hrng & Hen & epochs & Hcount & Hall & Hch & Htr).
    rewrite (range5_item _ _ _ Hx).
    eapply wp_mono;
      [apply (train_epoch_spec k1 ps lr ds bs sh l n _ Hbs Hn Hlen Hperm Hn1)|].
    intros k2 r Hpost. cbv beta zeta in Hpost.
    destruct r as [[]|e]; [|exact Hpost].
    destruct Hpost as (Hn2 & Hrng2 & Hen2 & runs & Hflow & Hch2 & Htr2).
    split; [exact Hn2|].
    split; [rewrite Hrng2, Hrng, length_app, Nat.add_1_r; reflexivity|].
    split; [congruence|].
    exists (epochs ++ [runs]).
    rewrite !length_app, Hcount. split; [reflexivity|].
    split.
    { intros e runs' He. apply lookup_app_Some in He as [He|[Hge He]].
      - apply Hall, He.
      - destruct (e - length epochs)%nat as [|d] eqn:Hd; [|destruct d; discriminate].
        cbn in He. injection He as <-.
        replace e with (length done) by lia.
        rewrite <- Hrng, <- Hen. exact Hflow. }
    split.
    { rewrite concat_app. cbn [concat]. rewrite app_nil_r.
      apply chained_app. exists (heap k1). split; [exact Hch|exact Hch2]. }
    rewrite Htr2, Htr, imap_app, concat_app. cbn [imap concat].
    rewrite Nat.add_0_r, app_nil_r, Hcount, <- app_assoc. reflexivity.
  - intros k1 (_ & _ & _ & epochs & Hcount & Hall & Hch & Htr). exists epochs. auto.
  - split; [exact Hnames|]. split; [reflexivity|]. split; [reflexivity|].
    exists []. cbn [imap concat length chained].
    rewrite app_nil_r. split; [reflexivity|]. split; [|auto].
    intros e runs He. discriminate He.
Qed.

(** ** The evaluation loop *)

Lemma map_result_Forall {A B} (f : A -> Result B) (P : A -> Prop) (R : B -> Prop) l ys :
  (forall x y, P x -> f x = Ok y -> R y) ->
  Forall P l -> map_result f l = Ok ys -> Forall R ys.
Proof.
  intros Hf Hl H. apply map_result_ok in H.
  induction H as [|x y l ys Hxy _ IH]; [constructor|].
  inversion Hl; subst. constructor; eauto.
Qed.

Lemma linear_apply_TArr (w b : Tensor) items :
  linear_apply w b (TArr items) =
    if forallb is_scalar items then k_affine w b (TArr items)
    else result_map TArr (map_result (linear_apply w b) items).
Proof.
  cbn [linear_apply]. destruct (forallb is_scalar items); [reflexivity|].
  f_equal. induction items as [|x items IH]; [reflexivity|].
  cbn [map_result]. rewrite <- IH. reflexivity.
Qed.

Section AffineLaw.

Hypothesis affine_vector :
  forall w b x y : Tensor, k_affine w b x = Ok y -> is_scalar y = false.

Lemma linear_apply_nonscalar (w b x y : Tensor) :
  linear_apply w b x = Ok y -> is_scalar y = false.
Proof.
  destruct x as [| | |items]; try discriminate.
  rewrite linear_apply_TArr. destruct (forallb is_scalar items).
  - apply affine_vector.
  - destruct (map_result _ items); [|discriminate]. intros [= <-]. reflexivity.
Qed.

Lemma linear_apply_rows (w b : Tensor) xs h :
  forallb is_scalar xs = false ->
  linear_apply w b (TArr xs) = Ok h ->
  exists hs, h = TArr hs /\ length hs = length xs /\
             Forall (fun r => is_scalar r = false) hs.
Proof.
  intros Hxs. rewrite linear_apply_TArr, Hxs.
  destruct (map_result _ xs) as [hs|] eqn:E; [|discriminate]. intros [= <-].
  exists hs. split; [reflexivity|]. split; [exact (map_result_length _ _ _ E)|].
  apply (map_result_Forall _ (fun _ => True) _ _ _ (fun x y _ => linear_apply_nonscalar w b x y)
           (Forall_true _ _ (fun _ => I)) E).
Qed.

End AffineLaw.

Lemma rows_not_scalars (xs : list Tensor) :
  xs <> [] -> Forall (fun r => is_scalar r = false) xs -> forallb is_scalar xs = false.
Proof.
  intros Hne H. destruct H as [|x xs Hx _]; [contradiction|].
  cbn [forallb]. rewrite Hx. reflexivity.
Qed.

Lemma relu_apply_rows (hs : list Tensor) :
  Forall (fun r => is_scalar r = false) hs ->
  Forall (fun r => is_scalar r = false) (map relu_apply hs).
Proof.
  intros H. apply Forall_map. eapply Forall_impl; [exact H|].
  intros [| | |items]; simpl; auto.
Qed.

Lemma tensor_max1_rows (os : list Tensor) p :
  tensor_max1 (TArr os) = Ok p ->
  exists ps, snd p = TArr ps /\ length ps = length os /\ forallb is_int ps = true.
Proof.
  cbn [tensor_max1]. destruct (map_result _ os) as [res|] eqn:E; [|discriminate].
  intros [= <-]. exists (map (fun q => TInt (snd q)) res). split; [reflexivity|].
  rewrite length_map. split; [exact (map_result_length _ _ _ E)|].
  clear E. induction res; simpl; auto.
Qed.

Lemma tensor_eq_ints (ps ys : list Tensor) :
  forallb is_int ps = true -> forallb is_int ys = true -> length ps = length ys ->
  tensor_eq (TArr ps) (TArr ys) = Ok (TArr (zip_with int_eq ps ys)).
Proof.
  intros Hp Hy Hlen. cbn [tensor_eq]. rewrite Hp, Hy, Hlen, Nat.eqb_refl. reflexivity.
Qed.

Lemma int_eq_bools (ps ys : list Tensor) :
  forallb is_bool (zip_with int_eq ps ys) = true.
Proof.
  revert ys. induction ps as [|p ps IH]; intros [|y ys]; simpl; auto.
  rewrite IH. destruct p, y; reflexivity.
Qed.

Lemma tensor_sum_hits (ps ys : list Tensor) :
  tensor_sum (TArr (zip_with int_eq ps ys)) = Ok (TInt (Z.of_nat (hits ps ys))).
Proof. cbn [tensor_sum]. rewrite int_eq_bools. reflexivity. Qed.

Lemma hits_le (ps ys : list Tensor) : (hits ps ys <= length ys)%nat.
Proof.
  unfold hits. etransitivity; [apply length_filter|].
  rewrite length_zip_with. lia.
Qed.

Lemma Forall_forallb {A} (f : A -> bool) (l : list A) :
  Forall (fun x => f x = true) l -> forallb f l = true.
Proof. induction 1 as [|x l Hx _ IH]; simpl; [reflexivity|]. rewrite Hx. exact IH. Qed.

Lemma list_getitem_nat {A} (l : list A) (i : nat) a :
  list_getitem l (Z.of_nat i) = Ok a -> l !! i = Some a.
Proof.
  unfold list_getitem.
  replace (Z.of_nat i <? 0) with false by (symmetry; apply Z.ltb_ge; lia).
  destruct (_ && _); [|discriminate]. rewrite Nat2Z.id.
  destruct (l !! i); [|discriminate]. intros [= <-]. reflexivity.
Qed.

Lemma dataset_getitem_tabular (h : list Leaf) ds rows ls (i : nat) s :
  tabular ds rows ls ->
  dataset_getitem h ds (Z.of_nat i) = Ok s ->
  (exists t, fst s = VTensor t /\ rows !! i = Some (t_data t)) /\
  (exists t, snd s = VTensor t /\ ls !! i = Some (t_data t)).
Proof.
  intros (d & td & tl & -> & Hd & Htd & Hl & Htl & _ & _) Hi.
  unfold dataset_getitem, CustomDataset.__getitem__ in Hi.
  cbn [py_getitem value_PySeq] in Hi. rewrite Hd, Hl in Hi.
  cbn [value_getitem tensor_of result_bind] in Hi. rewrite Htd, Htl in Hi.
  unfold tensor_getitem in Hi.
  destruct (fits_int64 (Z.of_nat i)); [|discriminate].
  destruct (list_getitem rows _) as [x|] eqn:E1; [|discriminate].
  cbn [result_bind] in Hi.
  destruct (list_getitem ls _) as [y|] eqn:E2; [|discriminate].
  cbn [result_bind] in Hi. injection Hi as <-.
  split; eexists; (split; [reflexivity|]); cbn [t_data];
    eapply list_getitem_nat; eassumption.
Qed.

Lemma collate_lookup (h : list Leaf) (pool : list Tensor) (idxs : list nat)
    (vs : list Value) ts :
  Forall2 (fun i v => exists t, v = VTensor t /\ pool !! i = Some (t_data t)) idxs vs ->
  map_result (collate_item h) vs = Ok ts ->
  Forall2 (fun i x => pool !! i = Some x) idxs ts.
Proof.
  intros H. revert ts. induction H as [|i v idxs vs (t & -> & Hi) _ IH]; intros ts.
  - intros [= <-]. constructor.
  - cbn [map_result collate_item tensor_of result_map result_bind].
    destruct (map_result (collate_item h) vs) as [ts'|]; [|discriminate].
    cbn [result_bind]. intros [= <-]. constructor; [exact Hi|]. apply IH. reflexivity.
Qed.

Lemma lookups_Forall {A} (P : A -> Prop) (pool : list A) (idxs : list nat) xs :
  Forall P pool -> Forall2 (fun i x => pool !! i = Some x) idxs xs -> Forall P xs.
Proof.
  intros Hpool H. induction H as [|i x idxs xs Hi _ IH]; constructor; [|exact IH].
  rewrite List.Forall_forall in Hpool. apply Hpool.
  apply list_elem_of_In. eapply list_elem_of_lookup_2. exact Hi.
Qed.

(** What the loader fetches from a tabular dataset: the rows and the
    labels at the indices of the batch. *)
Lemma fetch_tabular (h : list Leaf) ds rows ls idxs v :
  tabular ds rows ls ->
  fetch h ds idxs = Ok v ->
  exists xs ys,
    v = VList [VTensor (plain (TArr xs)); VTensor (plain (TArr ys))] /\
    batch_of rows ls idxs (VTensor (plain (TArr xs))) (VTensor (plain (TArr ys))) /\
    length xs = length idxs /\ length ys = length idxs /\
    Forall (fun r => is_scalar r = false) xs /\
    forallb is_int ys = true.
Proof.
  intros Htab Hf.
  destruct (fetch_ok _ _ _ _ Hf) as (xs & ys & -> & Hxs & Hys).
  exists xs, ys. split; [reflexivity|].
  assert (Hrows : Forall2 (fun i x => rows !! i = Some x) idxs xs /\
                  Forall2 (fun i y => ls !! i = Some y) idxs ys).
  { revert Hf. unfold fetch, collate_field.
    destruct (map_result _ idxs) as [samples|] eqn:E; [|discriminate].
    cbn [result_bind].
    assert (Hs : Forall2 (fun i s =>
              (exists t, fst s = VTensor t /\ rows !! i = Some (t_data t)) /\
              (exists t, snd s = VTensor t /\ ls !! i = Some (t_data t))) idxs samples).
    { apply map_result_ok in E. eapply Forall2_impl; [exact E|].
      intros i s Hi. exact (dataset_getitem_tabular h _ _ _ i s Htab Hi). }
    destruct (map_result (collate_item h) (map fst samples)) as [txs|] eqn:Ex;
      [|discriminate].
    cbn [result_bind]. destruct (same_shape txs); [|discriminate]. cbn [result_bind].
    destruct (map_result (collate_item h) (map snd samples)) as [tys|] eqn:Ey;
      [|discriminate].
    cbn [result_bind]. destruct (same_shape tys); [|discriminate]. cbn [result_bind].
    intros [= <- <-]. split.
    - eapply (collate_lookup h rows); [|exact Ex].
      apply Forall2_fmap_r. eapply Forall2_impl; [exact Hs|]. intros i s [H _]. exact H.
    - eapply (collate_lookup h ls); [|exact Ey].
      apply Forall2_fmap_r. eapply Forall2_impl; [exact Hs|]. intros i s [_ H]. exact H. }
  destruct Hrows as [Hr Hl].
  destruct Htab as (d & td & tl & _ & _ & _ & _ & _ & Hnons & Hints).
  split; [exists xs, ys; auto|]. split; [exact Hxs|]. split; [exact Hys|].
  split; [exact (lookups_Forall _ _ _ _ Hnons Hr)|].
  apply Forall_forallb. exact (lookups_Forall _ _ _ _ Hints Hl).
Qed.

Lemma eval_names_same dl l (k k' : Kernel) :
  globals k' = globals k -> heap k' = heap k ->
  eval_names dl l k -> eval_names dl l k'.
Proof.
  unfold eval_names. intros Hg Hh (H & Ht).
  split; [exact (loop_names_same _ _ _ _ Hg Hh H)|]. rewrite Hg. exact Ht.
Qed.

Lemma record_graph_no_parent en op (saved : list Tensor) :
  record_graph en op [None] saved = None.
Proof. unfold record_graph. destruct en; reflexivity. Qed.

Ltac close_eval_pass :=
  unfold eval_names, loop_names; tidy;
  repeat split; try assumption; try reflexivity; try close_call.

Lemma eval_batch_spec (k : Kernel) dl ds rows ls l idxs xs ys (c t : Z) :
  (forall w b x y : Tensor, k_affine w b x = Ok y -> is_scalar y = false) ->
  eval_names dl l k ->
  grad_enabled k = false ->
  globals k !! "correct" = Some (VInt c) ->
  globals k !! "total" = Some (VInt t) ->
  fetch (heap k) ds idxs =
    Ok (VList [VTensor (plain (TArr xs)); VTensor (plain (TArr ys))]) ->
  batch_of rows ls idxs (VTensor (plain (TArr xs))) (VTensor (plain (TArr ys))) ->
  xs <> [] -> Forall (fun r => is_scalar r = false) xs ->
  forallb is_int ys = true -> length xs = length ys ->
  wp (eval_batch (VList [VTensor (plain (TArr xs)); VTensor (plain (TArr ys))]))
    (fun k' r =>
       eval_names dl l k' /\
       heap k' = heap k /\ rng k' = rng k /\ grad_enabled k' = false /\
       match r with
       | Ok _ =>
           exists b,
             er_idxs b = idxs /\
             eval_dataflow (heap k) ds rows ls l b /\ er_size b = length ys /\
             trace k' = trace k ++ eval_body_events l b /\
             globals k' !! "total" = Some (VInt (t + Z.of_nat (er_size b))) /\
             globals k' !! "correct" = Some (VInt (c + Z.of_nat (er_hits b)))
       | Raise e => raised_by_last_call k' e
       end) k.
Proof.
  intros Haffine Hnames Hen Hc Ht Hfetch Hbatch Hne Hxs Hys Hxy.
  destruct Hnames as ((Hnet & HF & Hdl & Hlen) & Htorch).
  destruct (params_present (heap k) l Hlen)
    as (w1 & g1 & b1 & g2 & w2 & g3 & b2 & g4 & H1 & H2 & H3 & H4).
  unfold eval_batch, plain. wp_run. rewrite module_call_Net.
  match goal with |- wp _ _ ?K => set (k1 := K) end.
  eapply wp_mono.
  { apply (Net_forward_values k1 l _ (mkTensorVal (TArr xs) None "cpu")
             w1 b1 w2 b2 g1 g2 g3 g4);
      subst k1; tidy; auto. }
  intros k2 r ((Hg & Hh & Hf & Hr & Hcd & He) & Hm).
  destruct k2 as [gl2 hp2 fl2 rg2 cd2 ge2 tr2]. simpl in Hg, Hh, Hf, Hr, Hcd, He.
  cbn [trace t_data t_device] in Hm.
  subst gl2 hp2 fl2 rg2 cd2 ge2. subst k1. kernel_simpl_in Hm.
  cbn [t_data t_device] in Hm. rewrite Hen in Hm.
  destruct (linear_apply w1 b1 (TArr xs)) as [h|e] eqn:E1.
  2: { destruct Hm as (-> & Hm). close_eval_pass. }
  destruct (linear_apply w2 b2 (relu_apply h)) as [o|e] eqn:E2.
  2: { destruct Hm as (-> & Hm). close_eval_pass. }
  destruct Hm as (-> & ->).
  destruct (linear_apply_rows Haffine _ _ _ _ (rows_not_scalars _ Hne Hxs) E1)
    as (hs & -> & Hhs & Hrows).
  assert (Hne' : map relu_apply hs <> []).
  { destruct hs; [destruct xs; [contradiction|discriminate]|discriminate]. }
  cbn [relu_apply] in E2.
  destruct (linear_apply_rows Haffine _ _ _ _
              (rows_not_scalars _ Hne' (relu_apply_rows _ Hrows)) E2)
    as (os & -> & Hos & _).
  rewrite length_map in Hos.
  unfold output_value. wp_run.
  destruct (tensor_max1 (TArr os)) as [[vals idx]|e] eqn:Emax.
  2: { wp_run. close_eval_pass. }
  destruct (tensor_max1_rows _ _ Emax) as (ps & Hidx & Hps & Hints).
  cbn [snd] in Hidx. subst idx.
  assert (Hpy : length ps = length ys) by congruence.
  repeat first [ progress wp_run | progress py_simpl
               | rewrite (tensor_eq_ints _ _ Hints Hys Hpy)
               | rewrite tensor_sum_hits | progress cbn [tensor_item]
               | rewrite record_graph_no_parent ].
  split; [close_eval_pass|]. split; [reflexivity|]. split; [reflexivity|].
  split; [exact Hen|].
  set (tx := mkTensorVal (TArr xs) None "cpu").
  exists (mkEvalRun idxs (VTensor tx)
            (VTensor (mkTensorVal (TArr ys) None "cpu"))
            (hidden_value false l tx (TArr hs))
            (act_value false l tx (TArr hs))
            (output_value false l tx (TArr hs) (TArr os))
            (VTensor (mkTensorVal (TArr ps) None "cpu"))
            (VTensor (mkTensorVal (TArr (zip_with int_eq ps ys)) None "cpu"))
            (VTensor (mkTensorVal (TInt (Z.of_nat (hits ps ys))) None "cpu"))
            (length ys) (hits ps ys)).
  split; [reflexivity|]. split.
  { unfold eval_dataflow.
    cbn [er_idxs er_inputs er_labels er_hidden er_act er_outputs er_predicted
         er_equal er_sum er_size er_hits].
    split; [exact Hfetch|]. split; [exact Hbatch|]. split.
    - exists tx, w1, b1, w2, b2, (TArr hs), (TArr os). split; [reflexivity|].
      rewrite (lookup_data_of _ _ _ _ H1), (lookup_data_of _ _ _ _ H2),
        (lookup_data_of _ _ _ _ H3), (lookup_data_of _ _ _ _ H4).
      repeat split; assumption.
    - exists (TArr os), vals, ys, ps.
      cbn [value_tensor output_value t_data]. repeat split; eauto. }
  split; [reflexivity|]. split; [|split; reflexivity].
  cbn [trace]. unfold eval_body_events.
  cbn [er_inputs er_labels er_hidden er_act er_outputs er_predicted er_equal er_sum].
  rewrite <- !app_assoc. reflexivity.
Qed.

Ltac frame_side :=
  unfold ignores_trace, ignores_grad_mode; intros; simpl; assumption.

Lemma evaluation_keeps_heap (h : list Leaf) :
  preserves (fun k : Kernel => heap k = h) cell_evaluation.
Proof. unfold cell_evaluation, eval_batch. preserves_with frame_side. Qed.

Lemma evaluation_keeps_files (f : gmap string blob) :
  preserves (fun k : Kernel => files k = f) cell_evaluation.
Proof. unfold cell_evaluation, eval_batch. preserves_with frame_side. Qed.

Lemma evaluation_keeps_devices (n : nat) :
  preserves (fun k : Kernel => cuda_devices k = n) cell_evaluation.
Proof. unfold cell_evaluation, eval_batch. preserves_with frame_side. Qed.

Ltac name_side :=
  unfold ignores_trace, ignores_grad_mode; intros; simpl;
  first [ assumption
        | rewrite lookup_insert_ne
            by (let H := fresh in
                intros H; subst;
                match goal with Hx : ~ In _ eval_vars |- _ =>
                  apply Hx; simpl; tauto end);
          assumption ].

Lemma evaluation_keeps_names (x : string) (v : option Value) :
  ~ In x eval_vars ->
  preserves (fun k : Kernel => globals k !! x = v) cell_evaluation.
Proof.
  intros Hx. unfold cell_evaluation, eval_batch. preserves_with name_side.
Qed.
Lemma total_seen_snoc (runs : list (@EvalRun scalar)) b :
  total_seen (runs ++ [b]) = (total_seen runs + er_size b)%nat.
Proof. unfold total_seen. rewrite sum_list_with_app. simpl. lia. Qed.

Lemma correct_seen_snoc (runs : list (@EvalRun scalar)) b :
  correct_seen (runs ++ [b]) = (correct_seen runs + er_hits b)%nat.
Proof. unfold correct_seen. rewrite sum_list_with_app. simpl. lia. Qed.

Lemma correct_le_total h ds rows ls l (runs : list (@EvalRun scalar)) :
  Forall (eval_dataflow h ds rows ls l) runs ->
  (correct_seen runs <= total_seen runs)%nat.
Proof.
  unfold correct_seen, total_seen. induction 1 as [|b runs Hb _ IH]; simpl; [lia|].
  destruct Hb as (_ & _ & _ & o & vals & ys & ps & Hb).
  destruct Hb as (_ & _ & _ & _ & _ & _ & _ & -> & ->).
  pose proof (hits_le ps ys). lia.
Qed.

Lemma accuracy_bounds (c t : Z) :
  0 <= c <= t -> 0 < t -> (0 <= accuracy c t <= 100)%Q.
Proof.
  intros Hc Ht. unfold accuracy.
  assert (Hpos : (0 < inject_Z t)%Q).
  { change (inject_Z 0 < inject_Z t)%Q. rewrite <- Zlt_Qlt. exact Ht. }
  split.
  - apply Qle_shift_div_l; [exact Hpos|].
    rewrite Qmult_0_l. change (inject_Z 0 <= inject_Z (100 * c))%Q.
    rewrite <- Zle_Qle. lia.
  - apply Qle_shift_div_r; [exact Hpos|].
    change 100%Q with (inject_Z 100). rewrite <- inject_Z_mult, <- Zle_Qle. lia.
Qed.

Lemma eval_batches_spec (k0 : Kernel) ds bs sh l rows ls (batches : list (list nat)) :
  let dl := VDataLoader ds bs sh in
  (forall w b x y : Tensor, k_affine w b x = Ok y -> is_scalar y = false) ->
  tabular ds rows ls ->
  Forall (fun b => b <> []) batches ->
  eval_names dl l k0 ->
  grad_enabled k0 = false ->
  globals k0 !! "correct" = Some (VInt 0) ->
  globals k0 !! "total" = Some (VInt 0) ->
  wp (for_each batches (fun idxs =>
        let* batch := dataloader_next dl idxs in eval_batch batch))
    (fun k' r =>
       match r with
       | Ok _ =>
           eval_names dl l k' /\ rng k' = rng k0 /\
           exists runs,
             map er_idxs runs = batches /\
             Forall (eval_dataflow (heap k0) ds rows ls l) runs /\
             total_seen runs = length (concat batches) /\
             trace k' = trace k0 ++ concat (map (eval_batch_events dl l) runs) /\
             globals k' !! "total" = Some (VInt (Z.of_nat (total_seen runs))) /\
             globals k' !! "correct" = Some (VInt (Z.of_nat (correct_seen runs)))
       | Raise e => raised_by_last_call k' e
       end) k0.
Proof.
  intros dl Haffine Htab Hbatches Hnames Hen0 Hc0 Ht0.
  apply (wp_for_each _ (fun done k' =>
    eval_names dl l k' /\
    heap k' = heap k0 /\ rng k' = rng k0 /\ grad_enabled k' = false /\
    exists runs,
      map er_idxs runs = done /\
      Forall (eval_dataflow (heap k0) ds rows ls l) runs /\
      total_seen runs = length (concat done) /\
      trace k' = trace k0 ++ concat (map (eval_batch_events dl l) runs) /\
      globals k' !! "total" = Some (VInt (Z.of_nat (total_seen runs))) /\
      globals k' !! "correct" = Some (VInt (Z.of_nat (correct_seen runs))))).
  - intros done idxs rest k Hsplit
      (Hn & Hheap & Hrng & Hen & runs & Hidx & Hflow & Htot & Htr & Ht & Hc).
    assert (Hidxs : idxs <> []).
    { rewrite Hsplit in Hbatches. apply Forall_app in Hbatches as [_ Hb].
      inversion Hb; assumption. }
    apply wp_bind. eapply wp_mono; [apply dataloader_next_spec|].
    intros k1 r ((Hg & Hh & _ & _ & Hen1) & Hrng1 & Htr1 & ->).
    assert (Hn1 : eval_names dl l k1) by (exact (eval_names_same _ _ _ _ Hg Hh Hn)).
    destruct (fetch (heap k) ds idxs) as [v|e] eqn:Hf.
    + destruct (fetch_tabular _ _ _ _ _ _ Htab Hf)
        as (xs & ys & -> & Hbatch & Hxs & Hys & Hrows & Hints).
      eapply wp_mono.
      { apply (eval_batch_spec k1 dl ds rows ls l idxs xs ys
                 (Z.of_nat (correct_seen runs))
                 (Z.of_nat (total_seen runs)) Haffine Hn1).
        - congruence.
        - rewrite Hg. exact Hc.
        - rewrite Hg. exact Ht.
        - rewrite Hh. exact Hf.
        - exact Hbatch.
        - destruct xs; [destruct idxs; [contradiction|discriminate]|discriminate].
        - exact Hrows.
        - exact Hints.
        - congruence. }
      intros k2 r Hpost. cbv beta zeta in Hpost.
      destruct Hpost as (Hn2 & Hheap2 & Hrng2 & Hen2 & Hr).
      destruct r as [[]|e]; [|exact Hr].
      destruct Hr as (b & Hbi & Hb & Hsize & Htr2 & Ht2 & Hc2).
      split; [exact Hn2|]. split; [congruence|]. split; [congruence|].
      split; [exact Hen2|].
      exists (runs ++ [b]).
      split; [rewrite map_app, Hidx, <- Hbi; reflexivity|].
      split.
      { apply Forall_app. split; [exact Hflow|]. constructor; [|constructor].
        rewrite <- Hheap, <- Hh. exact Hb. }
      rewrite total_seen_snoc, correct_seen_snoc, !Nat2Z.inj_add.
      split.
      { rewrite concat_app, length_app. cbn [concat]. rewrite app_nil_r. congruence. }
      split; [|split; [exact Ht2|exact Hc2]].
      rewrite Htr2, Htr1, Htr, map_app, concat_app. cbn [map concat error_of].
      rewrite app_nil_r, <- !app_assoc. reflexivity.
    + eexists _, _, _. exact Htr1.
  - intros k (Hn & _ & Hrng & _ & runs & H). split; [exact Hn|]. split; [exact Hrng|].
    exists runs. exact H.
  - split; [exact Hnames|]. split; [reflexivity|]. split; [reflexivity|].
    split; [exact Hen0|]. exists []. cbn [map concat length].
    rewrite app_nil_r. repeat split; auto.
Qed.

Lemma tabular_len (h : list Leaf) ds rows ls :
  tabular ds rows ls -> dataset_len h ds = Ok (length rows).
Proof.
  intros (d & td & tl & -> & Hd & Htd & _).
  unfold dataset_len, CustomDataset.__len__. cbn [py_len value_PySeq].
  rewrite Hd. cbn [value_len tensor_of result_bind]. rewrite Htd. reflexivity.
Qed.

Lemma evaluation_spec (k : Kernel) ds bs sh l rows ls :
  let dl := VDataLoader ds bs sh in
  let n := length rows in
  (forall w b x y : Tensor, k_affine w b x = Ok y -> is_scalar y = false) ->
  (sh = true -> forall r, length (fst (sample_randperm n r)) = n) ->
  tabular ds rows ls ->
  eval_names dl l k ->
  wp cell_evaluation (fun k' r =>
    match r with
    | Ok _ =>
        rng k' = next_rng sh n (rng k) /\
        exists runs,
          map er_idxs runs = batch_sampler bs [] (epoch_order sh n (rng k)) /\
          Forall (eval_dataflow (heap k) ds rows ls l) runs /\
          total_seen runs = n /\ (0 < n)%nat /\
          globals k' !! "total" = Some (VInt (Z.of_nat (total_seen runs))) /\
          globals k' !! "correct" = Some (VInt (Z.of_nat (correct_seen runs))) /\
          trace k' = trace k ++ eval_events dl l runs
    | Raise e =>
        raised_by_last_call k' e \/ (n = 0%nat /\ e = ZeroDivisionError)
    end) k.
Proof.
  intros dl n Haffine Hperm Htab Hnames.
  pose proof Hnames as ((Hnet & HF & Hdl & Hheap) & Htorch).
  unfold cell_evaluation. wp_run. unfold for_dataloader.
  apply wp_bind.
  eapply wp_mono;
    [apply (dataloader_iter_spec _ ds bs sh n (tabular_len _ _ _ _ Htab))|].
  intros k1 r ((Hg & Hh & _ & _ & Hen) & Hrng & Htr & ->).
  kernel_simpl_in Hg. kernel_simpl_in Hh. kernel_simpl_in Htr.
  kernel_simpl_in Hrng. kernel_simpl_in Hen.
  eapply wp_mono.
  { apply (eval_batches_spec k1 ds bs sh l rows ls _ Haffine Htab).
    - apply batch_sampler_nonempty.
    - unfold eval_names, loop_names. rewrite Hg, Hh. tidy. auto.
    - exact Hen.
    - rewrite Hg. tidy. reflexivity.
    - rewrite Hg. tidy. reflexivity. }
  intros k2 r Hpost. cbv beta zeta in Hpost.
  destruct r as [[]|e]; [|left; exact Hpost].
  destruct Hpost as (Hn2 & Hrng2 & runs & Hidx & Hflow & Htot & Htr2 & Ht & Hc).
  rewrite batch_sampler_concat in Htot. cbn [app] in Htot.
  rewrite (epoch_order_length _ _ _ Hperm) in Htot.
  repeat first [progress wp_run | progress py_simpl].
  destruct (Z.eqb_spec (Z.of_nat (total_seen runs)) 0) as [Hz|Hz].
  { wp_run. right. split; [lia|reflexivity]. }
  repeat first [progress wp_run | progress py_simpl].
  split; [congruence|].
  exists runs. split; [exact Hidx|]. split; [rewrite <- Hh; exact Hflow|].
  split; [exact Htot|]. split; [lia|].
  split; [reflexivity|]. split; [reflexivity|].
  rewrite Htr2, Htr. unfold eval_events, accuracy_line, accuracy.
  rewrite <- !app_assoc. reflexivity.
Qed.

(** C10: with [net] an object of [Net], the evaluation cell leaves every
    tensor on the heap as it is, the parameters of the network among them,
    so that the [state_dict] of any module reads the same afterwards; it
    writes no file; and of the global names it binds only its own loop
    variables and counters, so that [net], [dataset] and [dataloader] are
    bound to what they were bound to.  This holds however the cell ends.

    With [dataloader] a loader over a dataset of [n] samples with integer
    labels, a cell that ends normally has made one pass per batch of the
    batch sampler over the order the loader draws.  In a pass the inputs
    and the labels are the rows and the labels of the dataset at the
    indices of the batch, the outputs are those of the network on these
    inputs for the parameters on the heap, and the pass counts the rows
    whose index of the largest output is the label of the row.  [total] is
    the number of labels of all passes, which is [n], and [correct] the
    sum of the counts; [correct <= total], [n > 0], and the line printed
    last shows [100 * correct / total], a number between 0 and 100.  A
    cell that ends in an exception ends in the exception of the call it
    made last, or, on an empty dataset, in [ZeroDivisionError]. *)
Theorem C10_evaluation_frame_and_accuracy (k : Kernel) (l : loc) :
  globals k !! "net" = Some (VNNModule (Net_object l)) ->
  let k' := fst (cell_evaluation k) in
  (heap k' = heap k /\
   (forall m, state_dict m (heap k') = state_dict m (heap k)) /\
   files k' = files k /\
   (forall x, ~ In x eval_vars -> globals k' !! x = globals k !! x)) /\
  (forall ds bs sh rows ls,
     let dl := VDataLoader ds bs sh in
     let n := length rows in
     (forall w b x y : Tensor, k_affine w b x = Ok y -> is_scalar y = false) ->
     (sh = true -> forall r, length (fst (sample_randperm n r)) = n) ->
     tabular ds rows ls ->
     eval_names dl l k ->
     match snd (cell_evaluation k) with
     | Ok _ =>
         exists runs,
           map er_idxs runs = batch_sampler bs [] (epoch_order sh n (rng k)) /\
           Forall (eval_dataflow (heap k) ds rows ls l) runs /\
           total_seen runs = n /\ (0 < n)%nat /\
           (correct_seen runs <= total_seen runs)%nat /\
           globals k' !! "total" = Some (VInt (Z.of_nat (total_seen runs))) /\
           globals k' !! "correct" = Some (VInt (Z.of_nat (correct_seen runs))) /\
           trace k' = trace k ++ eval_events dl l runs /\
           (0 <= accuracy (Z.of_nat (correct_seen runs))
                          (Z.of_nat (total_seen runs)) <= 100)%Q
     | Raise e =>
         raised_by_last_call k' e \/ (n = 0%nat /\ e = ZeroDivisionError)
     end).
Proof.
  intros _ k'. subst k'. split.
  - pose proof (evaluation_keeps_heap (heap k) k eq_refl) as Hh.
    cbv beta in Hh. split; [exact Hh|]. split; [intros m; rewrite Hh; reflexivity|].
    split; [exact (evaluation_keeps_files (files k) k eq_refl)|].
    intros x Hx. exact (evaluation_keeps_names x (globals k !! x) Hx k eq_refl).
  - intros ds bs sh rows ls dl n Haffine Hperm Htab Hnames.
    pose proof (evaluation_spec k ds bs sh l rows ls Haffine Hperm Htab Hnames) as H.
    unfold wp in H. destruct (snd (cell_evaluation k)) as [[]|e]; [|exact H].
    destruct H as (_ & runs & Hidx & Hflow & Htot & Hn & Ht & Hc & Htr).
    pose proof (correct_le_total _ _ _ _ _ runs Hflow) as Hle.
    exists runs. repeat (split; [assumption|]).
    apply accuracy_bounds; lia.
Qed.

Lemma forallb_Forall {A} (f : A -> bool) (l : list A) :
  forallb f l = true -> Forall (fun x => f x = true) l.
Proof.
  induction l as [|x l IH]; simpl; [constructor|].
  intros H. apply andb_prop in H as [Hx Hl]. constructor; auto.
Qed.

Lemma is_tabular_spec (ds : Value) :
  is_tabular ds = true -> tabular ds (dataset_rows ds) (dataset_labels ds).
Proof.
  destruct ds as [| | | | | | | | | |d| | | | |]; try discriminate.
  unfold is_tabular, tabular, dataset_rows, dataset_labels, field_rows.
  destruct (CustomDataset.data d) as [| | | | | | | |td| | | | | | |] eqn:Ed;
    try discriminate.
  destruct (CustomDataset.labels d) as [| | | | | | | |tl| | | | | | |] eqn:El;
    try discriminate.
  destruct (t_data td) as [| | |rows] eqn:Etd; try discriminate.
  destruct (t_data tl) as [| | |ls] eqn:Etl; try discriminate.
  intros H. apply andb_prop in H as [Hrows Hls].
  exists d, td, tl. repeat (split; [assumption || reflexivity|]).
  split; [|exact (forallb_Forall _ _ Hls)].
  apply forallb_Forall in Hrows. eapply Forall_impl; [exact Hrows|].
  intros r Hr. apply negb_true_iff. exact Hr.
Qed.

(** ** Further properties of the cells *)

Lemma list_getitem_negative {A} (l : list A) (j : nat) :
  (1 <= j <= length l)%nat ->
  exists a, l !! (length l - j)%nat = Some a /\
            list_getitem l (- Z.of_nat j) = Ok a.
Proof.
  intros Hj. unfold list_getitem.
  destruct (Z.ltb_spec (- Z.of_nat j) 0) as [_|H]; [|lia].
  destruct (Z.leb_spec 0 (- Z.of_nat j + Z.of_nat (length l))) as [_|H]; [|lia].
  destruct (Z.ltb_spec (- Z.of_nat j + Z.of_nat (length l)) (Z.of_nat (length l)))
    as [_|H]; [|lia].
  replace (Z.to_nat (- Z.of_nat j + Z.of_nat (length l))) with (length l - j)%nat by lia.
  destruct (lookup_lt_is_Some_2 l (length l - j)%nat) as [a Ha]; [lia|].
  exists a. rewrite Ha. split; reflexivity.
Qed.

Lemma list_getitem_ok_iff {A} (l : list A) (i : Z) :
  (exists a, list_getitem l i = Ok a) <-> valid_index l i.
Proof.
  unfold valid_index, list_getitem. split.
  - intros [a H].
    destruct (Z.ltb_spec i 0) as [Hn|Hn];
      match type of H with
      | (if ?c then _ else _) = _ => destruct c eqn:E; [|discriminate]
      end;
      apply andb_prop in E as [E1 E2];
      apply Z.leb_le in E1; apply Z.ltb_lt in E2; lia.
  - intros Hi.
    set (j := if i <? 0 then i + Z.of_nat (length l) else i).
    assert (Hj : 0 <= j < Z.of_nat (length l)).
    { subst j. destruct (Z.ltb_spec i 0); lia. }
    destruct (Z.leb_spec 0 j); [|lia]. destruct (Z.ltb_spec j (Z.of_nat (length l))); [|lia].
    simpl. destruct (lookup_lt_is_Some_2 l (Z.to_nat j)) as [a Ha]; [lia|].
    rewrite Ha. eexists. reflexivity.
Qed.

Lemma list_getitem_error {A} (l : list A) (i : Z) e :
  list_getitem l i = Raise e -> e = IndexError.
Proof.
  unfold list_getitem. destruct (_ && _); [|congruence].
  destruct (l !! _); congruence.
Qed.

(** X1: [dataset[i]] is defined exactly for the indices that both
    sequences accept, [-len <= i < len] for each of them; for every other
    index it raises [IndexError]. *)
Theorem X1_getitem_defined_iff {A B} (data : list A) (labels : list B) (i : Z) :
  let ds := CustomDataset.__init__ data labels in
  ((exists p, CustomDataset.__getitem__ ds i = Ok p) <->
   valid_index data i /\ valid_index labels i) /\
  ((exists p, CustomDataset.__getitem__ ds i = Ok p) \/
   CustomDataset.__getitem__ ds i = Raise IndexError).
Proof.
  cbv zeta. unfold CustomDataset.__getitem__, CustomDataset.__init__.
  cbn [py_getitem list_PySeq CustomDataset.data CustomDataset.labels].
  rewrite <- (list_getitem_ok_iff data i), <- (list_getitem_ok_iff labels i).
  destruct (list_getitem data i) as [a|e] eqn:Ea; cbn [result_bind].
  - destruct (list_getitem labels i) as [b|e] eqn:Eb; cbn [result_bind].
    + split; [|left; eauto]. split; eauto.
    + rewrite (list_getitem_error _ _ _ Eb). split; [|right; reflexivity].
      split; [intros [p H]; discriminate|intros [_ [b H]]; discriminate].
  - rewrite (list_getitem_error _ _ _ Ea). split; [|right; reflexivity].
    split; [intros [p H]; discriminate|intros [[a H] _]; discriminate].
Qed.

(** X2: a negative index counts from the end of each sequence
    separately: [dataset[-j]] pairs the [j]-th item from the end of [data]
    with the [j]-th item from the end of [labels], which sit at different
    positions when the lengths differ. *)
Theorem X2_negative_index_counts_from_each_end {A B} (data : list A)
    (labels : list B) (j : nat) :
  (1 <= j <= length data)%nat -> (j <= length labels)%nat ->
  exists a b,
    data !! (length data - j)%nat = Some a /\
    labels !! (length labels - j)%nat = Some b /\
    CustomDataset.__getitem__ (CustomDataset.__init__ data labels) (- Z.of_nat j)
      = Ok (a, b).
Proof.
  intros Hd Hl.
  destruct (list_getitem_negative data j Hd) as (a & Ha & Hga).
  destruct (list_getitem_negative labels j ltac:(lia)) as (b & Hb & Hgb).
  exists a, b. split; [exact Ha|]. split; [exact Hb|].
  unfold CustomDataset.__getitem__, CustomDataset.__init__.
  cbn [py_getitem list_PySeq CustomDataset.data CustomDataset.labels].
  rewrite Hga. cbn [result_bind]. rewrite Hgb. reflexivity.
Qed.

Lemma draw_rows (sample : N -> scalar * N) cols n r :
  Forall (fun t : Tensor => exists v, t = TArr (map TFloat v) /\ length v = cols)
    (fst (draw (fun r0 => let (v, r1) := draw sample cols r0 in
                          (TArr (map TFloat v), r1)) n r)).
Proof.
  revert r. induction n as [|n IH]; intros r; cbn [draw]; [constructor|].
  pose proof (draw_length sample cols r) as Hc.
  destruct (draw sample cols r) as [v r1]. specialize (IH r1).
  destruct (draw _ n r1) as [xs r2]. cbn [fst] in *.
  constructor; [exists v; auto|exact IH].
Qed.

Lemma dataset_cell_spec (k : Kernel) :
  globals k !! "torch" = Some (VPyModule torch) ->
  wp cell_dataset (fun k' r =>
    r = Ok tt /\
    heap k' = heap k /\ files k' = files k /\ trace k' = trace k /\
    exists rows ls,
      let ds := VDataset (CustomDataset.__init__ (VTensor (plain (TArr rows)))
                            (VTensor (plain (TArr ls)))) in
      globals k' !! "data" = Some (VTensor (plain (TArr rows))) /\
      globals k' !! "labels" = Some (VTensor (plain (TArr ls))) /\
      globals k' !! "dataset" = Some ds /\
      globals k' !! "dataloader" = Some (VDataLoader ds 32 true) /\
      tabular ds rows ls /\
      length rows = 100%nat /\ length ls = 100%nat /\
      Forall (fun r => tensor_shape r = [10%nat]) rows /\
      (forall h, dataset_len h ds = Ok 100%nat) /\
      snd (dataloader_len (VDataLoader ds 32 true) k') = Ok (VInt 4)) k.
Proof.
  intros Ht.
  unfold cell_dataset. wp_run.
  match goal with
  | H1 : draw_matrix _ _ _ _ = _, H2 : draw (sample_randint _ _) _ _ = (?l, _) |- _ =>
      rename H1 into Hdata; rename H2 into Hlabels; rename l into ints
  end.
  unfold draw_matrix in Hdata.
  pose proof (draw_rows sample_normal 10 100 (rng k)) as Hrows.
  pose proof (draw_length (fun r0 => let (v, r1) := draw sample_normal 10 r0 in
                     (TArr (map TFloat v) : Tensor, r1)) 100 (rng k)) as Hcount.
  destruct (draw _ 100 (rng k)) as [m r1]. cbn [fst] in Hrows, Hcount.
  injection Hdata as <- <-.
  pose proof (draw_length (sample_randint 0 5) 100 r1) as Hints.
  rewrite Hlabels in Hints. cbn [fst] in Hints.
  assert (Hlen : forall h : list Leaf,
            dataset_len h (VDataset (CustomDataset.__init__ (VTensor (plain (TArr m)))
                                       (VTensor (plain (TArr (map TInt ints)))))) =
            Ok 100%nat).
  { intros h. cbn. rewrite Hcount. reflexivity. }
  repeat (split; [reflexivity|]). exists m, (map TInt ints). cbv zeta.
  repeat (split; [reflexivity|]). split; [|split; [exact Hcount|]].
  { eexists _, _, _. repeat (split; [reflexivity|]). split.
    - eapply Forall_impl; [exact Hrows|]. intros r (v & -> & _). reflexivity.
    - apply Forall_map. apply Forall_true. reflexivity. }
  split; [rewrite length_map; exact Hints|]. split.
  { eapply Forall_impl; [exact Hrows|]. intros r (v & -> & Hv).
    rewrite vector_shape, Hv. reflexivity. }
  split; [exact Hlen|].
  unfold dataloader_len, bind, get, lift, ret. cbn [fst snd]. rewrite Hlen. reflexivity.
Qed.

(** X3: in a kernel where [torch] is bound the dataset cell ends normally
    and prints nothing; it leaves the heap and the files alone.  [dataset]
    is a [CustomDataset] over [data], a tensor of 100 rows of 10 numbers,
    and [labels], a vector of 100 integers; [len(dataset)] is 100;
    [dataloader] is a loader over that very dataset with batches of 32,
    shuffled, and [len(dataloader)] is 4. *)
Theorem X3_dataset_cell_builds_the_loader (k : Kernel) :
  globals k !! "torch" = Some (VPyModule torch) ->
  let k' := fst (cell_dataset k) in
  snd (cell_dataset k) = Ok tt /\
  heap k' = heap k /\ files k' = files k /\ trace k' = trace k /\
  exists rows ls,
    let ds := VDataset (CustomDataset.__init__ (VTensor (plain (TArr rows)))
                          (VTensor (plain (TArr ls)))) in
    globals k' !! "data" = Some (VTensor (plain (TArr rows))) /\
    globals k' !! "labels" = Some (VTensor (plain (TArr ls))) /\
    globals k' !! "dataset" = Some ds /\
    globals k' !! "dataloader" = Some (VDataLoader ds 32 true) /\
    tabular ds rows ls /\
    length rows = 100%nat /\ length ls = 100%nat /\
    Forall (fun r => tensor_shape r = [10%nat]) rows /\
    (forall h, dataset_len h ds = Ok 100%nat) /\
    snd (dataloader_len (VDataLoader ds 32 true) k') = Ok (VInt 4).
Proof. intros Ht. exact (dataset_cell_spec k Ht). Qed.

Lemma criterion_cell_spec (k : Kernel) (m : NNModule) :
  globals k !! "nn" = Some (VPyModule torch_nn) ->
  globals k !! "optim" = Some (VPyModule torch_optim) ->
  globals k !! "net" = Some (VNNModule m) ->
  let g1 := <["criterion" := VNNModule crit_object]> (globals k) in
  cell_criterion_optimizer k =
    match parameters m with
    | [] =>
        (set_globals g1 k, Raise (ValueError "optimizer got an empty parameter list"))
    | _ :: _ =>
        (set_globals
           (<["optimizer" := VOptimizer (parameters m) (float_of_Q (1 # 100))]> g1) k,
         Ok tt)
    end.
Proof.
  intros Hnn Hoptim Hnet g1. subst g1.
  rewrite (surjective_pairing (cell_criterion_optimizer k)).
  change (wp cell_criterion_optimizer (fun k' r => (k', r) =
    match parameters m with
    | [] =>
        (set_globals (<["criterion" := VNNModule crit_object]> (globals k)) k,
         Raise (ValueError "optimizer got an empty parameter list"))
    | _ :: _ =>
        (set_globals
           (<["optimizer" := VOptimizer (parameters m) (float_of_Q (1 # 100))]>
              (<["criterion" := VNNModule crit_object]> (globals k))) k,
         Ok tt)
    end) k).
  unfold cell_criterion_optimizer. wp_run.
  destruct (parameters m); wp_run; reflexivity.
Qed.

(** X4: with [nn] and [optim] imported and [net] bound to a module, the
    criterion cell binds [criterion] to a cross-entropy loss and then
    hands [optim.SGD] the parameters of [net] with learning rate 0.01; it
    prints nothing and touches neither the heap nor the files.  A module
    without parameters makes [optim.SGD] raise [ValueError], with
    [criterion] already bound.  For an object of [Net] the parameters are
    the weight and the bias of [fc1], then those of [fc2]. *)
Theorem X4_optimizer_gets_the_parameters (k : Kernel) (m : NNModule) :
  globals k !! "nn" = Some (VPyModule torch_nn) ->
  globals k !! "optim" = Some (VPyModule torch_optim) ->
  globals k !! "net" = Some (VNNModule m) ->
  let g1 := <["criterion" := VNNModule crit_object]> (globals k) in
  cell_criterion_optimizer k =
    match parameters m with
    | [] =>
        (set_globals g1 k, Raise (ValueError "optimizer got an empty parameter list"))
    | _ :: _ =>
        (set_globals
           (<["optimizer" := VOptimizer (parameters m) (float_of_Q (1 # 100))]> g1) k,
         Ok tt)
    end /\
  forall l, parameters (Net_object l) = [l; S l; S (S l); S (S (S l))].
Proof.
  intros Hnn Hoptim Hnet. split; [exact (criterion_cell_spec k m Hnn Hoptim Hnet)|].
  reflexivity.
Qed.

Lemma first_cells_keep_name (x : string) (v : option Value) :
  ~ In x ["torch"; "tensor"; "device"; "x"; "y"; "z"; "DataLoader"; "Dataset";
          "CustomDataset"; "data"; "labels"; "dataset"; "dataloader"] ->
  preserves (fun k : Kernel => globals k !! x = v) (run_all cells_before_criterion).
Proof.
  intros Hx.
  unfold run_all, cells_before_criterion, notebook. simpl.
  unfold run_cell. simpl.
  unfold cell_tensor_basics, cell_tensor_operations, cell_cuda, cell_autograd,
    cell_dataset.
  preserves_with ltac:(
    unfold ignores_trace, ignores_grad_mode; intros; simpl;
    first [ assumption
          | rewrite lookup_insert_ne
              by (let H := fresh in intros H; subst; apply Hx; simpl; tauto);
            assumption ]).
Qed.

Lemma criterion_cell_needs_net (k : Kernel) :
  globals k !! "nn" = Some (VPyModule torch_nn) ->
  globals k !! "optim" = Some (VPyModule torch_optim) ->
  unbound "net" k ->
  snd (run_all cells_from_criterion k) = Raise (NameError "net").
Proof.
  intros Hnn Hoptim Hnet. unfold run_all, cells_from_criterion, notebook. simpl.
  unfold run_cell at 1. simpl.
  change (wp (bind cell_criterion_optimizer (fun _ => for_each
            (drop 14 notebook) run_cell))
          (fun _ r => r = Raise (NameError "net")) k).
  unfold cell_criterion_optimizer. unfold unbound in Hnet. wp_run. reflexivity.
Qed.

(** X5: importing [nn] and [optim] by hand does not repair Run All.  From
    a kernel in which both are bound and [net] is not, the run still ends
    with an exception, and when the first five code cells run through it
    is [NameError: name 'net' is not defined], raised by the criterion
    cell: the only cell that binds [net] before it is the markdown cell. *)
Theorem X5_imports_alone_leave_net_unbound (k : Kernel) :
  globals k !! "nn" = Some (VPyModule torch_nn) ->
  globals k !! "optim" = Some (VPyModule torch_optim) ->
  unbound "net" k ->
  (exists e, snd (run_all notebook k) = Raise e) /\
  (forall k1, run_all cells_before_criterion k = (k1, Ok tt) ->
     snd (run_all notebook k) = Raise (NameError "net")).
Proof.
  intros Hnn Hoptim Hnet.
  pose proof (first_cells_keep_name "nn" _ ltac:(simpl; intuition discriminate) k Hnn)
    as H1.
  pose proof (first_cells_keep_name "optim" _ ltac:(simpl; intuition discriminate) k
                Hoptim) as H2.
  pose proof (first_cells_keep_name "net" _ ltac:(simpl; intuition discriminate) k Hnet)
    as H3.
  cbv beta in H1, H2, H3.
  unfold run_all in *. rewrite notebook_split, for_each_app. unfold bind.
  destruct (for_each cells_before_criterion run_cell k) as [k1 [[]|e]] eqn:E;
    cbn [fst] in H1, H2, H3.
  - pose proof (criterion_cell_needs_net k1 H1 H2 H3) as Hc. unfold run_all in Hc.
    split; [eexists; exact Hc|]. intros k2 _. exact Hc.
  - split; [eexists; reflexivity|]. intros k2 Heq. discriminate.
Qed.

Lemma forward_keeps (A : Type) (field : Kernel -> A) (a : A) self x :
  (forall ev k, field (log ev k) = field k) ->
  preserves (fun k : Kernel => field k = a) (Net_forward self x).
Proof.
  intros Hlog. unfold Net_forward.
  preserves_with ltac:(unfold ignores_trace; intros; rewrite Hlog; assumption).
Qed.

Lemma faithful_forward self x : faithful (Net_forward self x).
Proof. unfold Net_forward. faithful_cell. Qed.

(** X6: [forward] of an object of [Net] is free of side effects.  For
    every object that [Net()] builds, every input and every kernel, also
    when a layer raises, it leaves the global names, the heap (so every
    parameter and every gradient), the files, the generator and the
    gradient mode as they were; all it adds is the record of its calls,
    of which a failed one is the last. *)
Theorem X6_forward_changes_only_the_trace (l : loc) (x : Value) (k : Kernel) :
  same_store k (fst (Net_forward (Net_object l) x k)) /\
  exists evs,
    trace (fst (Net_forward (Net_object l) x k)) = trace k ++ evs /\
    run_shape evs (snd (Net_forward (Net_object l) x k)).
Proof.
  split; [|exact (faithful_forward (Net_object l) x k)].
  unfold same_store.
  repeat split;
    match goal with
    | |- ?f (fst _) = ?f k =>
        exact (forward_keeps _ f (f k) (Net_object l) x (fun _ _ => eq_refl) k eq_refl)
    end.
Qed.

Lemma Net_forward_data (k : Kernel) (l : loc) (x : Value) t w1 b1 w2 b2 g1 g2 g3 g4 :
  globals k !! "F" = Some (VPyModule torch_nn_functional) ->
  heap k !! l = Some (mkLeaf w1 g1) ->
  heap k !! S l = Some (mkLeaf b1 g2) ->
  heap k !! S (S l) = Some (mkLeaf w2 g3) ->
  heap k !! S (S (S l)) = Some (mkLeaf b2 g4) ->
  tensor_of (heap k) x = Ok t ->
  value_data (snd (Net_forward (Net_object l) x k)) = net_output w1 b1 w2 b2 (t_data t).
Proof.
  intros HF H1 H2 H3 H4 Hx.
  pose proof (Net_forward_spec k l x t w1 b1 w2 b2 g1 g2 g3 g4 HF H1 H2 H3 H4 Hx) as H.
  unfold wp in H. destruct H as (_ & H). unfold net_output.
  destruct (linear_apply w1 b1 (t_data t)) as [h|e]; cbn [result_bind].
  - destruct H as (gh & ga & H). cbv zeta in H.
    destruct (linear_apply w2 b2 (relu_apply h)) as [o|e].
    + destruct H as (go & -> & _). reflexivity.
    + destruct H as (-> & _). reflexivity.
  - destruct H as (-> & _). reflexivity.
Qed.

Section Rows.

Hypothesis affine_vector :
  forall w b x y : Tensor, k_affine w b x = Ok y -> is_scalar y = false.

Lemma net_output_batch (w1 b1 w2 b2 : Tensor) (xs : list Tensor) o :
  xs <> [] -> Forall (fun r => is_scalar r = false) xs ->
  net_output w1 b1 w2 b2 (TArr xs) = Ok o ->
  exists os, o = TArr os /\ length os = length xs /\
             Forall (fun r => is_scalar r = false) os.
Proof.
  intros Hne Hxs. unfold net_output.
  destruct (linear_apply w1 b1 (TArr xs)) as [h|] eqn:E1; [|discriminate].
  cbn [result_bind].
  destruct (linear_apply_rows affine_vector _ _ _ _ (rows_not_scalars _ Hne Hxs) E1)
    as (hs & -> & Hlen & Hhs).
  assert (Hne' : map relu_apply hs <> []).
  { destruct hs; [destruct xs; [contradiction|discriminate]|discriminate]. }
  cbn [relu_apply]. intros E2.
  destruct (linear_apply_rows affine_vector _ _ _ _
              (rows_not_scalars _ Hne' (relu_apply_rows _ Hhs)) E2)
    as (os & -> & Hos & Hrows).
  exists os. split; [reflexivity|]. split; [|exact Hrows].
  rewrite Hos, length_map. exact Hlen.
Qed.

End Rows.

(** X7: the network answers a batch with a batch of the same size.  When
    an affine map returns a vector, [forward] of [Net] on a batch of [n]
    samples that ends normally returns a tensor of exactly [n] rows, one
    output vector per sample; it never drops, adds or flattens rows. *)
Theorem X7_forward_returns_one_row_per_sample (k : Kernel) (l : loc) (t : TensorVal)
    (xs : list Tensor) w1 b1 w2 b2 g1 g2 g3 g4 :
  (forall w b x y : Tensor, k_affine w b x = Ok y -> is_scalar y = false) ->
  globals k !! "F" = Some (VPyModule torch_nn_functional) ->
  heap k !! l = Some (mkLeaf w1 g1) ->
  heap k !! S l = Some (mkLeaf b1 g2) ->
  heap k !! S (S l) = Some (mkLeaf w2 g3) ->
  heap k !! S (S (S l)) = Some (mkLeaf b2 g4) ->
  t_data t = TArr xs -> xs <> [] -> Forall (fun r => is_scalar r = false) xs ->
  forall o,
    value_data (snd (Net_forward (Net_object l) (VTensor t) k)) = Ok o ->
    exists os, o = TArr os /\ length os = length xs /\
               Forall (fun r => is_scalar r = false) os.
Proof.
  intros Haffine HF H1 H2 H3 H4 Ht Hne Hxs o.
  rewrite (Net_forward_data k l (VTensor t) t w1 b1 w2 b2 g1 g2 g3 g4 HF H1 H2 H3 H4
             eq_refl), Ht.
  apply (net_output_batch Haffine); assumption.
Qed.

Lemma data_of_insert_same (h : list Leaf) (l i : loc) lf lf' :
  h !! l = Some lf -> leaf_data lf' = leaf_data lf ->
  data_of (<[l := lf']> h) i = data_of h i.
Proof.
  intros Hl Hd. unfold data_of. destruct (decide (i = l)) as [->|Hne].
  - rewrite list_lookup_insert_eq by (eapply lookup_lt_Some; exact Hl).
    rewrite Hl. cbn. rewrite Hd. reflexivity.
  - rewrite list_lookup_insert_ne by congruence. reflexivity.
Qed.

Lemma data_of_zero_grad (ps : list loc) (h : list Leaf) i :
  data_of (foldl zero_leaf h ps) i = data_of h i.
Proof.
  revert h. induction ps as [|p ps IH]; intros h; cbn [foldl]; [reflexivity|].
  rewrite IH. unfold zero_leaf. destruct (h !! p) as [lf|] eqn:E; [|reflexivity].
  apply (data_of_insert_same h p i lf); [exact E|reflexivity].
Qed.

Lemma data_of_backward (gs : list (loc * Tensor)) (h : list Leaf) i :
  data_of (foldl accumulate_grad h gs) i = data_of h i.
Proof.
  revert h. induction gs as [|g gs IH]; intros h; cbn [foldl]; [reflexivity|].
  rewrite IH. unfold accumulate_grad. destruct (h !! fst g) as [lf|] eqn:E; [|reflexivity].
  apply (data_of_insert_same h (fst g) i lf); [exact E|reflexivity].
Qed.

Lemma data_of_step lr (ps : list loc) (h : list Leaf) i :
  ~ In i ps -> data_of (foldl (step_leaf lr) h ps) i = data_of h i.
Proof.
  revert h. induction ps as [|p ps IH]; intros h Hi; cbn [foldl]; [reflexivity|].
  rewrite IH by (intros H; apply Hi; right; exact H).
  unfold step_leaf. destruct (h !! p) as [lf|] eqn:E; [|reflexivity].
  destruct (leaf_grad lf); [|reflexivity].
  unfold data_of. rewrite list_lookup_insert_ne; [reflexivity|].
  intros ->. apply Hi. left. reflexivity.
Qed.

Lemma preserves_load_known {A} (P : Kernel -> Prop) x (v : Value) (f : Value -> M A) :
  (forall k, P k -> globals k !! x = Some v) ->
  preserves P (f v) -> preserves P (bind (load x) f).
Proof.
  intros Hx Hf k HP. unfold bind, load. rewrite (Hx k HP). apply Hf, HP.
Qed.


Ltac moves_side :=
  unfold ignores_trace, ignores_grad_mode, only_parameters_move;
  intros; simpl;
  match goal with
  | H : _ /\ _ /\ _ |- _ => destruct H as (?Ho & ?Hl & ?Hd)
  end;
  heap_lengths;
  split; [first [assumption | rewrite lookup_insert_ne by discriminate; assumption]|];
  split; [assumption|];
  intros;
  rewrite ?data_of_step by assumption;
  rewrite ?data_of_backward, ?data_of_zero_grad; auto.

Lemma training_moves_only_parameters ps lr (h0 : list Leaf) :
  preserves (only_parameters_move ps lr h0) cell_training_loop.
Proof.
  unfold cell_training_loop, train_epoch, train_batch.
  repeat first
    [ apply (preserves_load_known _ "optimizer" (VOptimizer ps lr));
        [intros ? (H & _); exact H|]
    | apply preserves_ret | apply preserves_raise | apply preserves_lift
    | apply preserves_get | apply preserves_load
    | apply preserves_for_each; intros ?
    | apply preserves_print; solve [moves_side]
    | apply preserves_api; [solve [moves_side]|]
    | apply preserves_store; solve [moves_side]
    | apply preserves_modify; solve [moves_side]
    | apply preserves_bind; [|intros ?]
    | match goal with
      | |- preserves _ (match ?x with _ => _ end) => destruct x
      | |- preserves _ (if ?b then _ else _) => destruct b
      | |- preserves _ (let (_, _) := ?p in _) => destruct p
      | |- preserves _ (fun k => let (_, _) := @?p k in _) =>
          let k := fresh "k" in
          let H := fresh "H" in
          intros k H; let e := eval cbv beta in (p k) in destruct e; solve [moves_side]
      end
    | progress open_calls ].
Qed.

Lemma training_keeps_files (f : gmap string blob) :
  preserves (fun k : Kernel => files k = f) cell_training_loop.
Proof. unfold cell_training_loop, train_epoch, train_batch. preserves_with frame_side. Qed.

Lemma training_keeps_names (x : string) (v : option Value) :
  ~ In x training_vars ->
  preserves (fun k : Kernel => globals k !! x = v) cell_training_loop.
Proof.
  intros Hx. unfold cell_training_loop, train_epoch, train_batch.
  preserves_with ltac:(
    unfold ignores_trace, ignores_grad_mode; intros; simpl;
    first [ assumption
          | rewrite lookup_insert_ne
              by (let H := fresh in intros H; subst; apply Hx; simpl; tauto);
            assumption ]).
Qed.

(** X8: training moves nothing but the parameters it was given.  With
    [net] an object of [Net], [criterion] the cross entropy and
    [optimizer] an SGD optimizer, the training cell, however it ends,
    leaves the heap at its size and the data of every tensor that is not
    in the optimizer's list as it was; it writes no file, and of the
    global names it binds only [epoch], [running_loss], [inputs],
    [labels], [outputs] and [loss]. *)
Theorem X8_training_moves_only_the_parameters (k : Kernel) (l : loc) ps lr :
  globals k !! "net" = Some (VNNModule (Net_object l)) ->
  globals k !! "criterion" = Some (VNNModule crit_object) ->
  globals k !! "optimizer" = Some (VOptimizer ps lr) ->
  let k' := fst (cell_training_loop k) in
  length (heap k') = length (heap k) /\
  (forall i, ~ In i ps -> data_of (heap k') i = data_of (heap k) i) /\
  files k' = files k /\
  (forall x, ~ In x training_vars -> globals k' !! x = globals k !! x).
Proof.
  intros _ _ Hopt k'. subst k'.
  destruct (training_moves_only_parameters ps lr (heap k) k) as (_ & Hlen & Hdata).
  { split; [exact Hopt|]. split; reflexivity. }
  split; [exact Hlen|]. split; [exact Hdata|].
  split; [exact (training_keeps_files (files k) k eq_refl)|].
  intros x Hx. exact (training_keeps_names x (globals k !! x) Hx k eq_refl).
Qed.

(** X9: the autograd cell puts one tensor on the heap and changes the
    data of none.  With [torch] bound, [x] is a new leaf at the end of the
    heap, holding the 2 by 3 tensor; however the cell ends, the heap has
    grown by exactly that leaf and every tensor on it, [x] included, holds
    the data it held: [backward] writes gradients only.  A cell that ends
    normally has printed last the gradient stored at [x]; a cell that
    raises ends in the exception of its last call. *)
Theorem X9_autograd_keeps_the_data (k : Kernel) :
  globals k !! "torch" = Some (VPyModule torch) ->
  let k' := fst (cell_autograd k) in
  let l := length (heap k) in
  let X := TArr [float_row [1; 2; 3]; float_row [4; 5; 6]]%Q in
  globals k' !! "x" = Some (VLeafTensor l) /\
  length (heap k') = S l /\
  (forall i, data_of (heap k') i = data_of (heap k ++ [mkLeaf X None]) i) /\
  match snd (cell_autograd k) with
  | Ok _ =>
      exists g,
        leaf_grad <$> heap k' !! l = Some g /\
        last (trace k') = Some (EvPrint (grad_value g))
  | Raise e => raised_by_last_call k' e
  end.
Proof.
  intros Ht k' l X. subst k'.
  change (wp cell_autograd (fun k' r =>
    globals k' !! "x" = Some (VLeafTensor l) /\
    length (heap k') = S l /\
    (forall i, data_of (heap k') i = data_of (heap k ++ [mkLeaf X None]) i) /\
    match r with
    | Ok _ =>
        exists g,
          leaf_grad <$> heap k' !! l = Some g /\
          last (trace k') = Some (EvPrint (grad_value g))
    | Raise e => raised_by_last_call k' e
    end) k).
  unfold cell_autograd. fold X.
  repeat first [progress wp_run | split_result].
  all: subst l; split; [reflexivity|];
    (split; [heap_lengths; rewrite length_app; cbn [length]; lia|]);
    (split; [intros i; rewrite ?data_of_backward; reflexivity|]).
  all: try solve [close_call].
  all: try match goal with
       | H : _ !! length (heap _) = None |- _ =>
           apply lookup_ge_None in H; revert H; heap_lengths;
           rewrite length_app; cbn [length]; lia
       end.
  all: match goal with
       | H : _ !! length (heap _) = Some ?lf |- _ =>
           exists (leaf_grad lf); rewrite H; split; [reflexivity|];
           rewrite last_snoc;
           match goal with Hg : leaf_grad lf = _ |- _ => rewrite Hg end;
           reflexivity
       end.
Qed.


Lemma augmentation_keeps_heap (h : list Leaf) :
  preserves (fun k : Kernel => heap k = h) cell_data_augmentation.
Proof. unfold cell_data_augmentation. preserves_with frame_side. Qed.

Lemma augmentation_keeps_names (x : string) (v : option Value) :
  ~ In x augmentation_vars ->
  preserves (fun k : Kernel => globals k !! x = v) cell_data_augmentation.
Proof.
  intros Hx. unfold cell_data_augmentation.
  preserves_with ltac:(
    unfold ignores_trace, ignores_grad_mode; intros; simpl;
    first [ assumption
          | rewrite lookup_insert_ne
              by (let H := fresh in intros H; subst; apply Hx; simpl; tauto);
            assumption ]).
Qed.

Lemma augmentation_needs_torchvision (k : Kernel) :
  unbound "torchvision" k ->
  snd (cell_data_augmentation k) = Raise (NameError "torchvision") /\
  trace (fst (cell_data_augmentation k)) = trace k /\
  files (fst (cell_data_augmentation k)) = files k /\
  globals (fst (cell_data_augmentation k)) !! "dataset" = globals k !! "dataset".
Proof.
  intros Hv. unfold unbound in Hv.
  change (wp cell_data_augmentation (fun k' r =>
    r = Raise (NameError "torchvision") /\ trace k' = trace k /\ files k' = files k /\
    globals k' !! "dataset" = globals k !! "dataset") k).
  unfold cell_data_augmentation. wp_run. repeat split.
Qed.

Lemma augmentation_rebinds_dataset (k : Kernel) :
  globals k !! "torchvision" = Some (VPyModule torchvision) ->
  snd (cell_data_augmentation k) = Ok tt ->
  exists transform cifar,
    globals (fst (cell_data_augmentation k)) !! "transform" = Some transform /\
    globals (fst (cell_data_augmentation k)) !! "dataset" = Some cifar /\
    k_cifar10 (files k) transform =
      Ok (cifar, files (fst (cell_data_augmentation k))) /\
    trace (fst (cell_data_augmentation k)) =
      trace k ++ [EvCall "torchvision.datasets.CIFAR10" [transform] None].
Proof.
  intros Hv.
  change (wp cell_data_augmentation (fun k' r =>
    r = Ok tt ->
    exists transform cifar,
      globals k' !! "transform" = Some transform /\
      globals k' !! "dataset" = Some cifar /\
      k_cifar10 (files k) transform = Ok (cifar, files k') /\
      trace k' = trace k ++ [EvCall "torchvision.datasets.CIFAR10" [transform] None]) k).
  unfold cell_data_augmentation. wp_run.
  match goal with
  | |- match ?c with _ => _ end => destruct c as [[cifar fs]|e] eqn:E
  end; wp_run; [|discriminate].
  intros _. eexists _, cifar. repeat split. exact E.
Qed.

(** X11: the augmentation cell imports [torchvision.transforms] under the
    name [transforms] only; the name [torchvision] it takes from the cell
    before it.  Without that name the cell raises [NameError] after it has
    bound [transforms] and [transform], with no call made and [dataset] as
    it was.  With it, a cell that ends normally has made one call of
    [CIFAR10] with the transform and bound [dataset] to its result.
    However it ends, the heap and every name other than [transforms],
    [transform] and [dataset] are untouched: [dataloader] still holds the
    dataset it was built over. *)
Theorem X11_augmentation_rebinds_dataset_only (k : Kernel) :
  let k' := fst (cell_data_augmentation k) in
  (heap k' = heap k /\
   forall x, ~ In x augmentation_vars -> globals k' !! x = globals k !! x) /\
  (unbound "torchvision" k ->
   snd (cell_data_augmentation k) = Raise (NameError "torchvision") /\
   trace k' = trace k /\ files k' = files k /\
   globals k' !! "dataset" = globals k !! "dataset") /\
  (globals k !! "torchvision" = Some (VPyModule torchvision) ->
   snd (cell_data_augmentation k) = Ok tt ->
   exists transform cifar,
     globals k' !! "transform" = Some transform /\
     globals k' !! "dataset" = Some cifar /\
     k_cifar10 (files k) transform = Ok (cifar, files k') /\
     trace k' = trace k ++ [EvCall "torchvision.datasets.CIFAR10" [transform] None]).
Proof.
  intros k'. subst k'. split; [|split].
  - split; [exact (augmentation_keeps_heap (heap k) k eq_refl)|].
    intros x Hx. exact (augmentation_keeps_names x (globals k !! x) Hx k eq_refl).
  - exact (augmentation_needs_torchvision k).
  - exact (augmentation_rebinds_dataset k).
Qed.

Lemma data_parallel_cell_wraps (k : Kernel) (m : NNModule) :
  globals k !! "torch" = Some (VPyModule torch) ->
  globals k !! "nn" = Some (VPyModule torch_nn) ->
  globals k !! "net" = Some (VNNModule m) ->
  (1 < cuda_devices k)%nat ->
  cell_data_parallel k =
    (mkKernel (<["net" := VNNModule (data_parallel_of m)]> (globals k)) (heap k)
       (files k) (rng k) (cuda_devices k) (grad_enabled k)
       (trace k ++
          [EvPrint (VStr ("Using " +:+ str_of_Z (Z.of_nat (cuda_devices k)) +:+
                          " GPUs for training"));
           EvCall "nn.DataParallel" [VNNModule m] None]),
     Ok tt).
Proof.
  intros Ht Hn Hm Hg. apply Nat.ltb_lt in Hg.
  rewrite (surjective_pairing (cell_data_parallel k)).
  change (wp cell_data_parallel (fun k' r => (k', r) =
    (mkKernel (<["net" := VNNModule (data_parallel_of m)]> (globals k)) (heap k)
       (files k) (rng k) (cuda_devices k) (grad_enabled k)
       (trace k ++
          [EvPrint (VStr ("Using " +:+ str_of_Z (Z.of_nat (cuda_devices k)) +:+
                          " GPUs for training"));
           EvCall "nn.DataParallel" [VNNModule m] None]),
     Ok tt)) k).
  unfold cell_data_parallel. wp_run. rewrite Hg. wp_run.
  unfold set_globals, log. cbn. rewrite <- app_assoc. reflexivity.
Qed.

Lemma append_assoc (a b c : string) : (a +:+ b) +:+ c = a +:+ (b +:+ c).
Proof.
  induction a as [|x a IH]; [reflexivity|].
  change (String x ((a +:+ b) +:+ c) = String x (a +:+ (b +:+ c))).
  rewrite IH. reflexivity.
Qed.

Lemma state_entries_prefix (p q : string) (m : NNModule) :
  state_entries (p +:+ q) m = map (fun e => (p +:+ fst e, snd e)) (state_entries q m).
Proof.
  revert q m. fix IH 2. intros q [c a ps bs ch]. cbn [state_entries].
  match goal with
  | |- _ ++ _ = map ?F (?C ++ ?D) => rewrite (map_app F C D); f_equal
  end.
  - rewrite map_map. apply map_ext. intros [n l]. cbn [fst snd].
    rewrite append_assoc. reflexivity.
  - induction ch as [|[n c'] ch IHch]; [reflexivity|].
    rewrite map_app, <- IHch. f_equal.
    rewrite <- IH. f_equal. rewrite !append_assoc. reflexivity.
Qed.

(** X12: the DataParallel cell is not idempotent, and wrapping renames
    the state.  With more than one GPU, running the cell a second time
    wraps the wrapper: [net] is [DataParallel(DataParallel(m))].  The
    [state_dict] of a wrapped module has the entries of the module, in
    order and at the same tensors, each key with [module.] in front. *)
Theorem X12_data_parallel_nests_and_prefixes (k : Kernel) (m : NNModule) :
  globals k !! "torch" = Some (VPyModule torch) ->
  globals k !! "nn" = Some (VPyModule torch_nn) ->
  globals k !! "net" = Some (VNNModule m) ->
  (1 < cuda_devices k)%nat ->
  let twice := bind cell_data_parallel (fun _ => cell_data_parallel) k in
  snd twice = Ok tt /\
  globals (fst twice) !! "net" =
    Some (VNNModule (data_parallel_of (data_parallel_of m))) /\
  state_entries "" (data_parallel_of m) =
    map (fun e => ("module." +:+ fst e, snd e)) (state_entries "" m).
Proof.
  intros Ht Hn Hm Hg twice. subst twice. unfold bind.
  rewrite (data_parallel_cell_wraps k m Ht Hn Hm Hg).
  rewrite (data_parallel_cell_wraps _ (data_parallel_of m)); cbn [globals cuda_devices];
    try (rewrite ?lookup_insert_eq, ?lookup_insert_ne by discriminate; auto).
  split; [reflexivity|]. split; [cbn [fst globals]; apply lookup_insert_eq|].
  unfold data_parallel_of. cbn [state_entries app map].
  rewrite app_nil_r. exact (state_entries_prefix "module." "" m).
Qed.

(** X13: the first cell needs nothing from the kernel.  In every kernel
    state it ends normally, binds [torch] and binds [tensor] to the 2 by 3
    tensor, whatever these names held, and prints four lines: the tensor,
    its shape [[2, 3]], its dtype [torch.float32] and its device [cpu].
    It makes no call that is recorded and leaves heap, files and generator
    alone. *)
Theorem X13_first_cell_runs_anywhere (k : Kernel) :
  let t := VTensor (plain first_tensor) in
  cell_tensor_basics k =
    (mkKernel (<["tensor" := t]> (<["torch" := VPyModule torch]> (globals k)))
       (heap k) (files k) (rng k) (cuda_devices k) (grad_enabled k)
       (trace k ++ [EvPrint t; EvPrint (VList [VInt 2; VInt 3]);
                    EvPrint (VStr "torch.float32"); EvPrint (VDevice "cpu")]),
     Ok tt).
Proof.
  cbv zeta. rewrite (surjective_pairing (cell_tensor_basics k)).
  change (wp cell_tensor_basics (fun k' r => (k', r) =
    (mkKernel (<["tensor" := VTensor (plain first_tensor)]>
                 (<["torch" := VPyModule torch]> (globals k)))
       (heap k) (files k) (rng k) (cuda_devices k) (grad_enabled k)
       (trace k ++ [EvPrint (VTensor (plain first_tensor));
                    EvPrint (VList [VInt 2; VInt 3]);
                    EvPrint (VStr "torch.float32"); EvPrint (VDevice "cpu")]),
     Ok tt)) k).
  unfold cell_tensor_basics. wp_run.
  unfold set_globals, log. cbn. rewrite <- !app_assoc. reflexivity.
Qed.

Lemma record_graph_no_parents en op (saved : list Tensor) :
  record_graph en op [None; None] saved = None.
Proof. unfold record_graph. destruct en; reflexivity. Qed.

(** X14: the arithmetic of the second cell is out of place.  With [torch]
    bound, the cell rebinds [tensor] to the 3 by 4 tensor of ones and,
    however it ends, that is what [tensor] holds afterwards; the heap is
    untouched.  A cell that ends normally has printed, in this order, the
    ones plus 5, the ones times 2, and the product of the ones with their
    own transpose; a cell that raises ends in the exception of its last
    call. *)
Theorem X14_operations_are_out_of_place (k : Kernel) :
  globals k !! "torch" = Some (VPyModule torch) ->
  let k' := fst (cell_tensor_operations k) in
  let t := VTensor (plain ones_3_4) in
  globals k' !! "tensor" = Some t /\
  heap k' = heap k /\
  match snd (cell_tensor_operations k) with
  | Ok _ =>
      exists a m tr p,
        k_add_scalar ones_3_4 5 = Ok a /\
        k_mul_scalar ones_3_4 2 = Ok m /\
        k_transpose ones_3_4 = Ok tr /\
        k_matmul ones_3_4 tr = Ok p /\
        trace k' = trace k ++
          [EvCall "Tensor.__add__" [t; VInt 5] None; EvPrint (VTensor (plain a));
           EvCall "Tensor.__mul__" [t; VInt 2] None; EvPrint (VTensor (plain m));
           EvCall "Tensor.T" [t] None;
           EvCall "torch.matmul" [t; VTensor (plain tr)] None;
           EvPrint (VTensor (plain p))]
  | Raise e => raised_by_last_call k' e
  end.
Proof.
  intros Ht k' t. subst k' t.
  change (wp cell_tensor_operations (fun k' r =>
    globals k' !! "tensor" = Some (VTensor (plain ones_3_4)) /\
    heap k' = heap k /\
    match r with
    | Ok _ =>
        exists a m tr p,
          k_add_scalar ones_3_4 5 = Ok a /\
          k_mul_scalar ones_3_4 2 = Ok m /\
          k_transpose ones_3_4 = Ok tr /\
          k_matmul ones_3_4 tr = Ok p /\
          trace k' = trace k ++
            [EvCall "Tensor.__add__" [VTensor (plain ones_3_4); VInt 5] None;
             EvPrint (VTensor (plain a));
             EvCall "Tensor.__mul__" [VTensor (plain ones_3_4); VInt 2] None;
             EvPrint (VTensor (plain m));
             EvCall "Tensor.T" [VTensor (plain ones_3_4)] None;
             EvCall "torch.matmul" [VTensor (plain ones_3_4); VTensor (plain tr)] None;
             EvPrint (VTensor (plain p))]
    | Raise e => raised_by_last_call k' e
    end) k).
  unfold cell_tensor_operations, torch_ones, plain. fold ones_3_4.
  repeat first [ progress wp_run | rewrite record_graph_no_parent
               | rewrite record_graph_no_parents | split_result ].
  all: split; [reflexivity|]; split; [reflexivity|].
  all: try solve [close_call].
  eexists _, _, _, _. do 3 (split; [reflexivity|]). split; [eassumption|].
  rewrite <- !app_assoc. reflexivity.
Qed.

Lemma dataset_cell_keeps_name (x : string) (v : option Value) :
  ~ In x ["DataLoader"; "Dataset"; "CustomDataset"; "data"; "labels"; "dataset";
          "dataloader"] ->
  preserves (fun k : Kernel => globals k !! x = v) cell_dataset.
Proof.
  intros Hx. unfold cell_dataset.
  preserves_with ltac:(
    unfold ignores_trace, ignores_grad_mode; intros; simpl;
    first [ assumption
          | rewrite lookup_insert_ne
              by (let H := fresh in intros H; subst; apply Hx; simpl; tauto);
            assumption ]).
Qed.

(** X15: the cells compose.  In a kernel where [torch], [nn], [F] and
    [optim] are bound, the dataset cell, the source of the [Net] cell and
    the criterion cell, run in this order, end normally and leave what the
    training and the evaluation loop need: [net] an object of [Net] whose
    four parameters are the new leaves at the end of the heap, [criterion]
    the cross entropy, [optimizer] an SGD optimizer over exactly these
    four parameters, and [dataloader] a loader with batches of 32 over a
    tabular dataset of 100 samples. *)
Theorem X15_cells_prepare_the_loops (k : Kernel) :
  globals k !! "torch" = Some (VPyModule torch) ->
  globals k !! "nn" = Some (VPyModule torch_nn) ->
  globals k !! "F" = Some (VPyModule torch_nn_functional) ->
  globals k !! "optim" = Some (VPyModule torch_optim) ->
  let prepare :=
    bind cell_dataset (fun _ => bind cell_net (fun _ => cell_criterion_optimizer)) in
  let k' := fst (prepare k) in
  let l := length (heap k) in
  snd (prepare k) = Ok tt /\
  length (heap k') = (l + 4)%nat /\
  exists ds rows ls,
    let dl := VDataLoader ds 32 true in
    let opt := VOptimizer [l; S l; S (S l); S (S (S l))] (float_of_Q (1 # 100)) in
    training_names opt dl l k' /\
    eval_names dl l k' /\
    tabular ds rows ls /\
    length rows = 100%nat /\
    (forall h, dataset_len h ds = Ok 100%nat).
Proof.
  intros Ht Hnn HF Hoptim prepare k' l. subst prepare k' l.
  pose proof (dataset_cell_spec k Ht) as Hd. unfold wp in Hd.
  destruct Hd as (Hr & Hh & _ & _ & rows & ls & Hd). cbv zeta in Hd.
  destruct Hd as (_ & _ & _ & Hdl & Htab & Hrows & _ & _ & Hlen & _).
  pose proof (dataset_cell_keeps_name "torch" _ ltac:(simpl; intuition discriminate) k Ht)
    as Ht1.
  pose proof (dataset_cell_keeps_name "nn" _ ltac:(simpl; intuition discriminate) k Hnn)
    as Hnn1.
  pose proof (dataset_cell_keeps_name "F" _ ltac:(simpl; intuition discriminate) k HF)
    as HF1.
  pose proof (dataset_cell_keeps_name "optim" _ ltac:(simpl; intuition discriminate) k
                Hoptim) as Hoptim1.
  cbv beta in Ht1, Hnn1, HF1, Hoptim1.
  set (k1 := fst (cell_dataset k)) in *.
  assert (Hrun : cell_dataset k = (k1, Ok tt)).
  { rewrite (surjective_pairing (cell_dataset k)), Hr. reflexivity. }
  assert (Hprep :
    bind cell_dataset (fun _ => bind cell_net (fun _ => cell_criterion_optimizer)) k =
    bind cell_net (fun _ => cell_criterion_optimizer) k1).
  { unfold bind at 1. rewrite Hrun. reflexivity. }
  rewrite Hprep, <- Hh. clear Hprep Hrun.
  change (wp (bind cell_net (fun _ => cell_criterion_optimizer)) (fun k' r =>
    r = Ok tt /\
    length (heap k') = (length (heap k1) + 4)%nat /\
    exists ds rows ls,
      let dl := VDataLoader ds 32 true in
      let opt := VOptimizer [length (heap k1); S (length (heap k1));
                             S (S (length (heap k1))); S (S (S (length (heap k1))))]
                   (float_of_Q (1 # 100)) in
      training_names opt dl (length (heap k1)) k' /\
      eval_names dl (length (heap k1)) k' /\
      tabular ds rows ls /\
      length rows = 100%nat /\
      (forall h, dataset_len h ds = Ok 100%nat)) k1).
  unfold cell_net, Net_new, Net___init__, cell_criterion_optimizer. wp_run.
  replace (length (heap k1 ++ _)) with (S (S (length (heap k1))))
    by (rewrite length_app; simpl; lia).
  cbn [parameters map snd app]. wp_run.
  split; [reflexivity|]. split; [rewrite !length_app; simpl; lia|].
  eexists _, rows, ls. cbv zeta.
  unfold training_names, eval_names, loop_names. tidy.
  rewrite !length_app. cbn [length].
  repeat split; try reflexivity; try eassumption; lia.
Qed.

Lemma wrapped_state_entries l :
  state_entries "" (data_parallel_of (Net_object l)) =
    [("module.fc1.weight", l); ("module.fc1.bias", S l);
     ("module.fc2.weight", S (S l)); ("module.fc2.bias", S (S (S l)))].
Proof. reflexivity. Qed.

Lemma wrapped_state_dict (h : list Leaf) (l : loc) w1 b1 w2 b2 g1 g2 g3 g4 :
  h !! l = Some (mkLeaf w1 g1) ->
  h !! S l = Some (mkLeaf b1 g2) ->
  h !! S (S l) = Some (mkLeaf w2 g3) ->
  h !! S (S (S l)) = Some (mkLeaf b2 g4) ->
  state_dict (data_parallel_of (Net_object l)) h =
    Ok [("module.fc1.weight", w1); ("module.fc1.bias", b1);
        ("module.fc2.weight", w2); ("module.fc2.bias", b2)].
Proof.
  intros H1 H2 H3 H4. unfold state_dict. rewrite wrapped_state_entries.
  cbn [map_result].
  rewrite (read_entry_some h _ _ _ H1), (read_entry_some h _ _ _ H2),
    (read_entry_some h _ _ _ H3), (read_entry_some h _ _ _ H4).
  reflexivity.
Qed.

Lemma load_wrapped_state_dict (h : list Leaf) (l : loc) w1 b1 w2 b2 :
  load_state_dict (Net_object l)
    [("module.fc1.weight", w1); ("module.fc1.bias", b1);
     ("module.fc2.weight", w2); ("module.fc2.bias", b2)] h =
  (h, Raise (RuntimeError "Error(s) in loading state_dict")).
Proof.
  unfold load_state_dict. rewrite Net_state_entries.
  cbn [foldl load_entry fst snd]. assoc_simpl. reflexivity.
Qed.

(** X16: once [net] is wrapped in [DataParallel], the save/load cell can
    no longer load what it saves.  With [net] the wrapper of a [Net], the
    cell writes to [model.pth] a state dict whose keys start with
    [module.], binds [loaded_net] to a new [Net], and then
    [load_state_dict] raises [RuntimeError]: none of the keys of a [Net]
    is in the file.  The tensors that were on the heap are as before. *)
Theorem X16_a_wrapped_net_saves_what_net_cannot_load (k : Kernel) (l : loc)
    w1 b1 w2 b2 g1 g2 g3 g4 :
  (forall sd, k_unpickle (k_pickle (VStateDict sd)) = Ok (VStateDict sd)) ->
  globals k !! "torch" = Some (VPyModule torch) ->
  globals k !! "nn" = Some (VPyModule torch_nn) ->
  globals k !! "Net" = Some (VClass "Net") ->
  globals k !! "net" = Some (VNNModule (data_parallel_of (Net_object l))) ->
  heap k !! l = Some (mkLeaf w1 g1) ->
  heap k !! S l = Some (mkLeaf b1 g2) ->
  heap k !! S (S l) = Some (mkLeaf w2 g3) ->
  heap k !! S (S (S l)) = Some (mkLeaf b2 g4) ->
  let sd := [("module.fc1.weight", w1); ("module.fc1.bias", b1);
             ("module.fc2.weight", w2); ("module.fc2.bias", b2)] in
  let k' := fst (cell_save_load k) in
  snd (cell_save_load k) = Raise (RuntimeError "Error(s) in loading state_dict") /\
  files k' !! "model.pth" = Some (k_pickle (VStateDict sd)) /\
  globals k' !! "loaded_net" = Some (VNNModule (Net_object (length (heap k)))) /\
  raised_by_last_call k' (RuntimeError "Error(s) in loading state_dict") /\
  exists f1 f2 f3 f4 : Tensor,
    heap k' = heap k ++ [mkLeaf f1 None; mkLeaf f2 None; mkLeaf f3 None; mkLeaf f4 None].
Proof.
  intros Hpickle Ht Hnn HN Hnet H1 H2 H3 H4 sd k'. subst k'.
  pose proof (wrapped_state_dict (heap k) l _ _ _ _ _ _ _ _ H1 H2 H3 H4) as Hsd.
  change (wp cell_save_load (fun k' r =>
    r = Raise (RuntimeError "Error(s) in loading state_dict") /\
    files k' !! "model.pth" = Some (k_pickle (VStateDict sd)) /\
    globals k' !! "loaded_net" = Some (VNNModule (Net_object (length (heap k)))) /\
    raised_by_last_call k' (RuntimeError "Error(s) in loading state_dict") /\
    exists f1 f2 f3 f4 : Tensor,
      heap k' = heap k ++ [mkLeaf f1 None; mkLeaf f2 None; mkLeaf f3 None; mkLeaf f4 None])
    k).
  unfold cell_save_load, stmt_save, stmt_construct, stmt_load.
  wp_run. rewrite Hsd. wp_run.
  eapply wp_mono.
  { apply (Net_init_spec _ (VClass "Net")); kernel_simpl; assumption. }
  intros k2 r [-> (Hg & Hf & _ & _ & _ & f1 & f2 & f3 & f4 & Hh & _)].
  kernel_simpl_in Hg. kernel_simpl_in Hf. kernel_simpl_in Hh.
  wp_run. rewrite Hg. lookup_simpl. wp_run. rewrite Hf. lookup_simpl. wp_run.
  rewrite Hpickle. wp_run. unfold wp. kernel_simpl.
  rewrite load_wrapped_state_dict.
  kernel_simpl. lookup_simpl. rewrite Hf. lookup_simpl.
  split; [reflexivity|]. split; [reflexivity|]. split; [reflexivity|].
  split; [eexists _, _, _; reflexivity|].
  exists f1, f2, f3, f4. exact Hh.
Qed.

Lemma with_no_grad_restores {A} (body : M A) (b : bool) :
  preserves (fun k : Kernel => grad_enabled k = b) (with_no_grad body).
Proof.
  intros k Hk. unfold with_no_grad, bind, get, modify. cbn.
  destruct (body (set_grad_enabled false k)) as [k' r]. exact Hk.
Qed.

Lemma evaluation_restores_grad_mode (b : bool) :
  preserves (fun k : Kernel => grad_enabled k = b) cell_evaluation.
Proof.
  unfold cell_evaluation.
  repeat first
    [ apply with_no_grad_restores
    | apply preserves_ret | apply preserves_raise | apply preserves_lift
    | apply preserves_get | apply preserves_load
    | apply preserves_print; solve [frame_side]
    | apply preserves_store; solve [frame_side]
    | apply preserves_bind; [|intros ?]
    | match goal with
      | |- preserves _ (match ?x with _ => _ end) => destruct x
      | |- preserves _ (if ?b then _ else _) => destruct b
      end
    | progress unfold load_attr, getattr_module ].
Qed.

(** X17: [with torch.no_grad()] is undone on the way out.  However the
    evaluation cell ends, also when a call inside the loop raises, the
    gradient mode afterwards is the mode the cell started in. *)
Theorem X17_evaluation_restores_the_gradient_mode (k : Kernel) :
  grad_enabled (fst (cell_evaluation k)) = grad_enabled k.
Proof. exact (evaluation_restores_grad_mode (grad_enabled k) k eq_refl). Qed.


End Properties.

(** ** The theorems on the instance over exact rationals *)

Lemma C3_witness :
  (exists e, snd (run_all notebook Exact.started) = Raise e) /\
  (forall k1, run_all cells_before_criterion Exact.started = (k1, Ok tt) ->
     run_all notebook Exact.started = (k1, Raise (NameError "nn"))).
Proof.
  apply (C3_run_all_raises Exact.started). reflexivity.
Defined.

(** On the instance the first five code cells run through, so the run of
    the notebook ends with the [NameError] of the criterion cell. *)
Example run_all_on_instance :
  snd (run_all notebook Exact.started) = Raise (NameError "nn").
Proof. vm_compute. reflexivity. Qed.



Lemma C9_witness :
  globals (fst (cell_data_parallel (Exact.ready 2))) !! "net" =
    Some (VNNModule (data_parallel_of (Net_object 1))) <->
  (1 < cuda_devices (Exact.ready 2))%nat.
Proof.
  apply (C9_data_parallel_iff_several_gpus (Exact.ready 2) (Net_object 1));
    vm_compute; reflexivity.
Defined.

Lemma C5_witness : snd (Net___init__ (Exact.ready 0)) = Ok (Net_object 5).
Proof.
  apply (C5_net_is_two_linear_layers (Exact.ready 0) (VClass "Net"));
    vm_compute; reflexivity.
Defined.

Lemma C2_witness :
  state_dict (Net_object 5) (heap (fst (cell_save_load (Exact.ready 0)))) =
    state_dict (Net_object 1) (heap (Exact.ready 0)).
Proof.
  pose proof (C2_save_load_round_trip (Exact.ready 0) 1
    (Exact.data_at (Exact.ready 0) 1) (Exact.data_at (Exact.ready 0) 2)
    (Exact.data_at (Exact.ready 0) 3) (Exact.data_at (Exact.ready 0) 4)
    (Exact.grad_at (Exact.ready 0) 1) (Exact.grad_at (Exact.ready 0) 2)
    (Exact.grad_at (Exact.ready 0) 3) (Exact.grad_at (Exact.ready 0) 4)) as H.
  cbv zeta in H.
  destruct H as (Hsaved & _ & _ & _ & Hloaded & _);
    [ first [intros sd; reflexivity | vm_compute; reflexivity] .. | ].
  rewrite Hsaved. exact Hloaded.
Defined.


(** ** The training and the evaluation loop on the instance

    In the kernel in which the cells up to the criterion cell have run,
    the dataset has 100 samples, the loader makes batches of 32 and
    shuffles, and the parameters of [net] are the leaves 1 to 4. *)

Lemma exact_randperm_length (n : nat) (r : N) :
  length (fst (sample_randperm (Framework := Exact.framework) n r)) = n.
Proof.
  cbn [sample_randperm Exact.framework fst]. rewrite length_rotate. apply length_seq.
Qed.

Lemma exact_affine_vector (w b x y : Exact.T) : k_affine w b x = Ok y -> is_scalar y = false.
Proof.
  cbn [k_affine Exact.framework]. unfold Exact.affine.
  destruct w; try discriminate. destruct (forallb _ _); [|discriminate].
  intros [= <-]. reflexivity.
Qed.

Example training_loop_on_instance :
  snd (cell_training_loop (Exact.ready 0)) = Ok tt.
Proof. vm_compute. reflexivity. Qed.

Lemma C1_witness :
  let k := Exact.ready 0 in
  let k' := fst (cell_training_loop k) in
  let ps := [1; 2; 3; 4]%nat in
  let ds := Exact.dataset_of k in
  let opt := VOptimizer ps (1 # 100)%Q in
  let dl := VDataLoader ds 32 true in
  snd (cell_training_loop k) = Ok tt /\
  exists epochs : list (list BatchRun),
    length epochs = 5%nat /\
    (forall e runs, epochs !! e = Some runs ->
       epoch_dataflow (grad_enabled k) ds 32 true 100 ps (1 # 100)%Q 1
         (Nat.iter e (next_rng true 100) (rng k)) runs) /\
    chained br_heap br_after (heap k) (concat epochs) (heap k') /\
    trace k' = trace k ++ concat (imap (epoch_events dl opt 1) epochs).
Proof.
  intros k k' ps ds opt dl. subst k k' ps ds opt dl.
  split; [exact training_loop_on_instance|].
  generalize (C1_training_loop_schedule (Exact.ready 0) [1; 2; 3; 4]%nat (1 # 100)%Q
                (Exact.dataset_of (Exact.ready 0)) 32 true 1 100).
  cbv zeta. rewrite training_loop_on_instance. intros H. apply H.
  - lia.
  - lia.
  - intros h. vm_compute. reflexivity.
  - intros _ r. apply exact_randperm_length.
  - split; [split; [|split; [|split]]|split].
    + vm_compute. reflexivity.
    + vm_compute. reflexivity.
    + vm_compute. reflexivity.
    + apply Nat.ltb_lt. vm_compute. reflexivity.
    + vm_compute. reflexivity.
    + vm_compute. reflexivity.
Defined.

Example evaluation_on_instance :
  snd (cell_evaluation (Exact.ready 0)) = Ok tt.
Proof. vm_compute. reflexivity. Qed.

Example accuracy_on_instance :
  last (trace (fst (cell_evaluation (Exact.ready 0)))) =
    Some (EvPrint (VStr "Accuracy: 22.00%")).
Proof. vm_compute. reflexivity. Qed.

Example correct_on_instance :
  globals (fst (cell_evaluation (Exact.ready 0))) !! "correct" = Some (VInt 22).
Proof. vm_compute. reflexivity. Qed.

Lemma C10_witness :
  let k := Exact.ready 0 in
  let k' := fst (cell_evaluation k) in
  let ds := Exact.dataset_of k in
  let rows := dataset_rows ds in
  let ls := dataset_labels ds in
  heap k' = heap k /\
  snd (cell_evaluation k) = Ok tt /\
  exists runs,
    map er_idxs runs = batch_sampler 32 [] (epoch_order true (length rows) (rng k)) /\
    Forall (eval_dataflow (heap k) ds rows ls 1) runs /\
    total_seen runs = length rows /\
    correct_seen runs = 22%nat /\
    trace k' = trace k ++ eval_events (VDataLoader ds 32 true) 1 runs /\
    (0 <= accuracy (Z.of_nat (correct_seen runs))
                   (Z.of_nat (total_seen runs)) <= 100)%Q.
Proof.
  intros k k' ds rows ls. subst k k' ds rows ls.
  destruct (C10_evaluation_frame_and_accuracy (Exact.ready 0) 1) as [Hframe Hacc].
  { vm_compute. reflexivity. }
  split; [exact (proj1 Hframe)|]. split; [exact evaluation_on_instance|].
  generalize (Hacc (Exact.dataset_of (Exact.ready 0)) 32%nat true
                (dataset_rows (Exact.dataset_of (Exact.ready 0)))
                (dataset_labels (Exact.dataset_of (Exact.ready 0)))).
  cbv zeta. rewrite evaluation_on_instance, correct_on_instance. intros H.
  destruct H as (runs & Hidx & Hflow & Htot & _ & _ & _ & Hc & Htr & Hq).
  - exact exact_affine_vector.
  - intros _ r. apply exact_randperm_length.
  - apply is_tabular_spec. vm_compute. reflexivity.
  - split; [split; [|split; [|split]]|].
    + vm_compute. reflexivity.
    + vm_compute. reflexivity.
    + vm_compute. reflexivity.
    + apply Nat.ltb_lt. vm_compute. reflexivity.
    + vm_compute. reflexivity.
  - exists runs. split; [exact Hidx|]. split; [exact Hflow|]. split; [exact Htot|].
    split; [injection Hc as Hc; apply Nat2Z.inj; symmetry; exact Hc|].
    split; [exact Htr|exact Hq].
Defined.

(** ** The further properties on the instance *)

Lemma X2_witness :
  CustomDataset.__getitem__ (CustomDataset.__init__ [10; 20; 30] ["a"; "b"]) (-1)
    = Ok (30, "b") /\
  CustomDataset.__getitem__ (CustomDataset.__init__ [10; 20; 30] ["a"; "b"]) 1
    = Ok (20, "b").
Proof.
  split; [|reflexivity].
  destruct (X2_negative_index_counts_from_each_end [10; 20; 30] ["a"; "b"] 1)
    as (a & b & Ha & Hb & H); [simpl; lia|simpl; lia|].
  simpl in Ha, Hb. injection Ha as <-. injection Hb as <-. exact H.
Defined.


Lemma X3_witness :
  snd (cell_dataset Exact.after_two_cells) = Ok tt /\
  heap (fst (cell_dataset Exact.after_two_cells)) = heap Exact.after_two_cells.
Proof.
  pose proof (X3_dataset_cell_builds_the_loader Exact.after_two_cells) as H.
  cbv zeta in H. destruct H as (Hr & Hh & _); [vm_compute; reflexivity|].
  split; [exact Hr|exact Hh].
Defined.

Lemma X4_witness :
  snd (cell_criterion_optimizer (Exact.ready 0)) = Ok tt /\
  globals (fst (cell_criterion_optimizer (Exact.ready 0))) !! "optimizer" =
    Some (VOptimizer [1; 2; 3; 4]%nat (float_of_Q (1 # 100))).
Proof.
  destruct (X4_optimizer_gets_the_parameters (Exact.ready 0) (Net_object 1))
    as [E _]; [vm_compute; reflexivity ..|].
  cbv zeta in E. rewrite E.
  change (parameters (Net_object 1)) with [1; 2; 3; 4]%nat.
  split; [reflexivity|]. cbn [fst globals set_globals]. apply lookup_insert_eq.
Defined.

Lemma X5_witness :
  snd (run_all notebook (Exact.imported 0)) = Raise (NameError "net").
Proof.
  apply (proj2 (X5_imports_alone_leave_net_unbound (Exact.imported 0)
                  ltac:(vm_compute; reflexivity) ltac:(vm_compute; reflexivity)
                  ltac:(vm_compute; reflexivity))
           (fst (run_all cells_before_criterion (Exact.imported 0)))).
  vm_compute. reflexivity.
Defined.

Lemma X7_witness :
  let k := Exact.ready 0 in
  let xs := take 2 (dataset_rows (Exact.dataset_of k)) in
  exists os,
    value_data (snd (Net_forward (Net_object 1) (VTensor (plain (TArr xs))) k))
      = Ok (TArr os) /\
    length os = 2%nat.
Proof.
  intros k xs.
  pose proof (X7_forward_returns_one_row_per_sample k 1 (plain (TArr xs)) xs
                (Exact.data_at k 1) (Exact.data_at k 2)
                (Exact.data_at k 3) (Exact.data_at k 4)
                (Exact.grad_at k 1) (Exact.grad_at k 2)
                (Exact.grad_at k 3) (Exact.grad_at k 4)) as H.
  destruct (value_data (snd (Net_forward (Net_object 1) (VTensor (plain (TArr xs))) k)))
    as [o|e] eqn:E.
  - destruct (H exact_affine_vector) with (o := o) as (os & -> & Hlen & _).
    + vm_compute. reflexivity.
    + vm_compute. reflexivity.
    + vm_compute. reflexivity.
    + vm_compute. reflexivity.
    + vm_compute. reflexivity.
    + reflexivity.
    + vm_compute. discriminate.
    + vm_compute. repeat constructor.
    + reflexivity.
    + exists os. split; [reflexivity|]. rewrite Hlen. vm_compute. reflexivity.
  - vm_compute in E. discriminate E.
Defined.

Lemma X8_witness :
  let k := Exact.ready 0 in
  let k' := fst (cell_training_loop k) in
  length (heap k') = length (heap k) /\
  data_of (heap k') 0 = data_of (heap k) 0.
Proof.
  intros k k'.
  destruct (X8_training_moves_only_the_parameters k 1 [1; 2; 3; 4]%nat
              (float_of_Q (1 # 100))) as (Hl & Hd & _).
  - vm_compute. reflexivity.
  - vm_compute. reflexivity.
  - vm_compute. reflexivity.
  - split; [exact Hl|]. apply Hd. simpl. intuition discriminate.
Defined.

Lemma X9_witness :
  let k := Exact.after_two_cells in
  let k' := fst (cell_autograd k) in
  globals k' !! "x" = Some (VLeafTensor (length (heap k))) /\
  length (heap k') = S (length (heap k)).
Proof.
  intros k k'.
  destruct (X9_autograd_keeps_the_data k) as (Hx & Hl & _).
  - vm_compute. reflexivity.
  - split; [exact Hx|exact Hl].
Defined.


Lemma X12_witness :
  let k := Exact.ready 2 in
  let twice := bind cell_data_parallel (fun _ => cell_data_parallel) k in
  snd twice = Ok tt /\
  globals (fst twice) !! "net" =
    Some (VNNModule (data_parallel_of (data_parallel_of (Net_object 1)))).
Proof.
  intros k twice.
  destruct (X12_data_parallel_nests_and_prefixes k (Net_object 1)) as (Hr & Hn & _).
  - vm_compute. reflexivity.
  - vm_compute. reflexivity.
  - vm_compute. reflexivity.
  - apply Nat.ltb_lt. vm_compute. reflexivity.
  - split; [exact Hr|exact Hn].
Defined.

Lemma X14_witness :
  let k := Exact.after_two_cells in
  let k' := fst (cell_tensor_operations k) in
  globals k' !! "tensor" = Some (VTensor (plain ones_3_4)) /\
  heap k' = heap k.
Proof.
  intros k k'.
  destruct (X14_operations_are_out_of_place k) as (Ht & Hh & _).
  - vm_compute. reflexivity.
  - split; [exact Ht|exact Hh].
Defined.

Lemma X15_witness :
  let k := fst (cell_tensor_basics (Exact.imported 0)) in
  let prepare :=
    bind cell_dataset (fun _ => bind cell_net (fun _ => cell_criterion_optimizer)) in
  snd (prepare k) = Ok tt /\
  length (heap (fst (prepare k))) = (length (heap k) + 4)%nat.
Proof.
  intros k prepare.
  destruct (X15_cells_prepare_the_loops k) as (Hr & Hl & _).
  - vm_compute. reflexivity.
  - vm_compute. reflexivity.
  - vm_compute. reflexivity.
  - vm_compute. reflexivity.
  - split; [exact Hr|exact Hl].
Defined.

Lemma X16_witness :
  let k := fst (cell_data_parallel (Exact.ready 2)) in
  let k' := fst (cell_save_load k) in
  snd (cell_save_load k) = Raise (RuntimeError "Error(s) in loading state_dict") /\
  globals k' !! "loaded_net" = Some (VNNModule (Net_object (length (heap k)))).
Proof.
  intros k k'.
  destruct (X16_a_wrapped_net_saves_what_net_cannot_load k 1
              (Exact.data_at k 1) (Exact.data_at k 2)
              (Exact.data_at k 3) (Exact.data_at k 4)
              (Exact.grad_at k 1) (Exact.grad_at k 2)
              (Exact.grad_at k 3) (Exact.grad_at k 4)) as (Hr & _ & Hn & _).
  - intros sd. reflexivity.
  - vm_compute. reflexivity.
  - vm_compute. reflexivity.
  - vm_compute. reflexivity.
  - vm_compute. reflexivity.
  - vm_compute. reflexivity.
  - vm_compute. reflexivity.
  - vm_compute. reflexivity.
  - vm_compute. reflexivity.
  - split; [exact Hr|exact Hn].
Defined.

